(** * Drift detection engine of [src/drift_detector.py]

    A shallow embedding of the [DriftDetector] class: the label
    (chi-square) test, the text-length (Kolmogorov-Smirnov) test and the
    aggregation performed by [check_drift], together with the properties
    the specification states about them.

    Modelling choices, all read off the Python source:
    - a Python [float] is a binary64 value, here Rocq's primitive [float];
      [p_value < self.threshold] is [PrimFloat.ltb], so a NaN p-value
      compares false exactly as in Python;
    - a data frame has typed columns: integer [sentiment] labels and
      [review] texts, each column present or not;
    - a pandas [Series] indexed by label is an association list
      [list (Z * Z)] (index label, count): order matters for [sort_index]
      and for the dictionaries written to the report;
    - a method of the detector is a state transformer that can raise: the
      detector it returns is the object as the method left it, also when an
      exception escapes (Python does not roll back attribute writes);
    - [self.drift_metrics] is a dictionary keyed by strings, a [gmap];
    - the routines of scipy and pandas that the class calls
      ([stats.chisquare], [stats.ks_2samp], [Series.mean], [pd.read_csv])
      and the clock are not part of the repository: the detector is
      parameterised by them. Module [Scipy] transcribes the arithmetic of
      [stats.chisquare] for the statements that depend on it.

    Besides the engine the file embeds what surrounds it: [save_report],
    the data generator of [src/generate_data.py] that the module's driver
    feeds to the detector, and the storage helper of [src/gcs_helper.py].
    These act on the file system, the console, a bucket and numpy's random
    generator; the calls into them are parameters, [os.path.dirname] is
    transcribed from [posixpath].

    The file has two parts: the definitions (the embedding, the library
    model, the fixtures), then the lemmas and the theorems. *)

From Stdlib Require Import ZArith List Floats Uint63 Lia Ascii.
From stdpp Require Import gmap strings list sorting.

Open Scope Z_scope.

(** ** Exceptions and fallible results *)

Inductive exception : Type :=
| KeyError (key : string)        (* df['missing column'] *)
| ValueError (msg : string)      (* raised by a statistical routine *)
| OSError (path : string).       (* pd.read_csv on an unreadable source *)

Inductive result (A : Type) : Type :=
| Ok (a : A)
| Raise (e : exception).
Arguments Ok {A} a.
Arguments Raise {A} e.

Definition is_ok {A} (r : result A) : bool :=
  match r with Ok _ => true | Raise _ => false end.

(** ** pandas: data frames and label-indexed series *)

(** What [pd.read_csv] hands to the detector: the two columns it reads,
    each present or not. A record has an integer [sentiment] and a
    [review] text; the two lists are the columns, row by row. *)
Record DataFrame : Type := {
  sentiment : option (list Z);
  review : option (list string)
}.

(** [df[name]] for the two columns the detector touches. *)
Definition getitem_sentiment (df : DataFrame) : result (list Z) :=
  match sentiment df with
  | Some col => Ok col
  | None => Raise (KeyError "sentiment")
  end.

Definition getitem_review (df : DataFrame) : result (list string) :=
  match review df with
  | Some col => Ok col
  | None => Raise (KeyError "review")
  end.

(** A [Series] of counts indexed by label. *)
Abbreviation Series := (list (Z * Z)).

Definition index (s : Series) : list Z := s.*1.
Definition values (s : Series) : list Z := s.*2.

(** One more observation of [k]: bump its count, or append a new row. *)
Fixpoint observe (k : Z) (s : Series) : Series :=
  match s with
  | [] => [(k, 1)]
  | (k', n) :: s' =>
      if decide (k = k') then (k', n + 1) :: s' else (k', n) :: observe k s'
  end.

(** Rows ordered by decreasing count, as [value_counts] returns them. *)
Definition by_count_desc (a b : Z * Z) : Prop := b.2 ≤ a.2.
Definition by_label (a b : Z * Z) : Prop := a.1 ≤ b.1.

#[local] Instance by_count_desc_dec : RelDecision by_count_desc.
Proof. intros a b. unfold by_count_desc. apply _. Defined.
#[local] Instance by_label_dec : RelDecision by_label.
Proof. intros a b. unfold by_label. apply _. Defined.

(** One row per distinct value, in the order of first appearance. *)
Definition tally (col : list Z) : Series := foldl (λ s k, observe k s) [] col.

(** [col.value_counts()]: one row per distinct value with the number of
    its occurrences, most frequent first. The order among equal counts
    does not matter below: [sort_index] follows at once, and the index has
    no duplicates. *)
Definition value_counts (col : list Z) : Series :=
  merge_sort by_count_desc (tally col).

(** [s.sort_index()]. *)
Definition sort_index (s : Series) : Series := merge_sort by_label s.

(** The body of the loop [for label in [0, 1, 2]], for one of the two
    series: [if label not in s.index: s[label] = 0]. Assigning to a label
    that is absent enlarges the series at its end. *)
Definition zero_fill (label : Z) (s : Series) : Series :=
  if decide (label ∈ index s) then s else s ++ [(label, 0)].

Definition label_domain : list Z := [0; 1; 2].

(** The loop of lines 31-35, for one of the two series. *)
Definition filled (s : Series) : Series :=
  foldl (λ s label, zero_fill label s) s label_domain.

(** Line 27 (or 28): [col.value_counts().sort_index()]. *)
Definition sorted_counts (col : list Z) : Series := sort_index (value_counts col).

(** Lines 27-38 for one data set: count, sort, fill the fixed domain, sort
    again. *)
Definition label_distribution (col : list Z) : Series :=
  sort_index (filled (sorted_counts col)).

(** [{int(k): int(v) for k, v in s.to_dict().items()}]: the index is
    unique, so the dictionary has the rows of [s] in their order. *)
Definition to_dict (s : Series) : list (Z * Z) := s.

(** [a.sum()] of an array of integers. *)
Definition Zsum (xs : list Z) : Z := foldr Z.add 0 xs.

(** [col.str.len()]: the number of characters of every text. *)
Definition str_len (col : list string) : list Z :=
  (λ t, Z.of_nat (String.length t)) <$> col.

(** ** The report dictionary *)

Module LabelDrift.
Record t : Type := {
  chi2_statistic : float;
  p_value : float;
  drift_detected : bool;
  old_distribution : list (Z * Z);
  new_distribution : list (Z * Z)
}.
End LabelDrift.

Module TextLengthDrift.
Record t : Type := {
  ks_statistic : float;
  p_value : float;
  drift_detected : bool;
  old_mean_length : float;
  new_mean_length : float
}.
End TextLengthDrift.

(** The values stored under the keys of [self.drift_metrics]. *)
Inductive metric : Type :=
| MLabel (r : LabelDrift.t)
| MText (r : TextLengthDrift.t)
| MBool (b : bool)
| MStr (s : string).

(** ** The detector object *)

Record DriftDetector : Type := {
  threshold : float;
  drift_detected : bool;
  drift_metrics : gmap string metric
}.

(** A method body: it runs on the object, may update it, and either
    returns a value or raises. *)
Definition Method (A : Type) : Type := DriftDetector → result A * DriftDetector.

#[local] Instance Method_ret : MRet Method := λ A a self, (Ok a, self).
#[local] Instance Method_bind : MBind Method := λ A B f m self,
  match m self with
  | (Ok a, self') => f a self'
  | (Raise e, self') => (Raise e, self')
  end.

(** A call that does not touch the object. *)
Definition call {A} (r : result A) : Method A := λ self, (r, self).

(** Reads of [self.threshold] and [self.drift_detected]. *)
Definition get_threshold : Method float := λ self, (Ok (threshold self), self).
Definition get_drift_detected : Method bool := λ self, (Ok (drift_detected self), self).

(** [self.drift_metrics[key] = value] *)
Definition set_metric (key : string) (value : metric) : Method unit := λ self,
  (Ok tt, {| threshold := threshold self;
             drift_detected := drift_detected self;
             drift_metrics := <[key := value]> (drift_metrics self) |}).

(** [self.drift_detected = b] *)
Definition set_drift_detected (b : bool) : Method unit := λ self,
  (Ok tt, {| threshold := threshold self;
             drift_detected := b;
             drift_metrics := drift_metrics self |}).

(** [DriftDetector(threshold)]: the constructor stores its argument and
    starts with an empty report. It has no failing path, but is given a
    fallible type so that "construction fails" can be stated. *)
Definition __init__ (threshold : float) : result DriftDetector :=
  Ok {| threshold := threshold; drift_detected := false; drift_metrics := ∅ |}.

(** The default [threshold=0.05], the binary64 value nearest to 0.05. *)
Definition default_threshold : float := 0x1.999999999999ap-5%float.

Section Detector.

(** *** The collaborators outside the repository *)

(** [stats.chisquare(f_obs, f_exp)]: statistic and p-value, or an
    exception. *)
Variable chisquare : list Z → list Z → result (float * float).
(** [stats.ks_2samp(data1, data2)]. *)
Variable ks_2samp : list Z → list Z → result (float * float).
(** [Series.mean()] of a series of lengths. *)
Variable mean : list Z → float.
(** [pd.read_csv(path)]: the files as they are during the call. *)
Variable read_csv : string → result DataFrame.

Definition detect_label_drift (old_data new_data : DataFrame) : Method bool :=
  old_col ← call (getitem_sentiment old_data);
  new_col ← call (getitem_sentiment new_data);
  let old_dist := label_distribution old_col in
  let new_dist := label_distribution new_col in
  '(chi2, p_value) ← call (chisquare (values new_dist) (values old_dist));
  threshold ← get_threshold;
  let drift_detected := PrimFloat.ltb p_value threshold in
  set_metric "label_drift" (MLabel {|
    LabelDrift.chi2_statistic := chi2;
    LabelDrift.p_value := p_value;
    LabelDrift.drift_detected := drift_detected;
    LabelDrift.old_distribution := to_dict old_dist;
    LabelDrift.new_distribution := to_dict new_dist |});;
  mret drift_detected.

Definition detect_text_length_drift (old_data new_data : DataFrame) : Method bool :=
  old_reviews ← call (getitem_review old_data);
  let old_lengths := str_len old_reviews in
  new_reviews ← call (getitem_review new_data);
  let new_lengths := str_len new_reviews in
  '(ks_stat, p_value) ← call (ks_2samp old_lengths new_lengths);
  threshold ← get_threshold;
  let drift_detected := PrimFloat.ltb p_value threshold in
  set_metric "text_length_drift" (MText {|
    TextLengthDrift.ks_statistic := ks_stat;
    TextLengthDrift.p_value := p_value;
    TextLengthDrift.drift_detected := drift_detected;
    TextLengthDrift.old_mean_length := mean old_lengths;
    TextLengthDrift.new_mean_length := mean new_lengths |});;
  mret drift_detected.

(** [now] is what [datetime.now().isoformat()] yields during the call. *)
Definition check_drift (old_data_path new_data_path : string) (now : string) : Method bool :=
  old_data ← call (read_csv old_data_path);
  new_data ← call (read_csv new_data_path);
  label_drift ← detect_label_drift old_data new_data;
  text_drift ← detect_text_length_drift old_data new_data;
  set_drift_detected (label_drift || text_drift);;
  overall ← get_drift_detected;
  set_metric "overall_drift" (MBool overall);;
  set_metric "timestamp" (MStr now);;
  get_drift_detected.

End Detector.

(** ** The object after a method has run

    Names for the states the methods leave behind, used to state what they
    do. *)

(** The object after [self.drift_metrics[key] = value]. *)
Definition with_metric (key : string) (value : metric) (self : DriftDetector) : DriftDetector :=
  {| threshold := threshold self;
     drift_detected := drift_detected self;
     drift_metrics := <[key := value]> (drift_metrics self) |}.

(** The entry the label test writes for a given answer of the chi-square
    routine. *)
Definition label_entry (old_col new_col : list Z) (chi2 p : float)
    (self : DriftDetector) : LabelDrift.t :=
  {| LabelDrift.chi2_statistic := chi2;
     LabelDrift.p_value := p;
     LabelDrift.drift_detected := PrimFloat.ltb p (threshold self);
     LabelDrift.old_distribution := label_distribution old_col;
     LabelDrift.new_distribution := label_distribution new_col |}.

(** The entry the text-length test writes for a given answer of the
    Kolmogorov-Smirnov routine. *)
Definition text_entry (mean : list Z → float) (old_rev new_rev : list string)
    (ks p : float) (self : DriftDetector) : TextLengthDrift.t :=
  {| TextLengthDrift.ks_statistic := ks;
     TextLengthDrift.p_value := p;
     TextLengthDrift.drift_detected := PrimFloat.ltb p (threshold self);
     TextLengthDrift.old_mean_length := mean (str_len old_rev);
     TextLengthDrift.new_mean_length := mean (str_len new_rev) |}.

(** The object after a check that went through. *)
Definition checked (overall : bool) (now : string) (self : DriftDetector) : DriftDetector :=
  {| threshold := threshold self;
     drift_detected := overall;
     drift_metrics :=
       <["timestamp" := MStr now]> (<["overall_drift" := MBool overall]> (drift_metrics self)) |}.

(** ** The library routines, as far as the class exercises them

    [scipy.stats.chisquare] is [power_divergence] with Pearson's statistic.
    Its arithmetic is binary64 and is transcribed with the primitive
    floats; the survival function of the chi-square distribution in the
    interior of its support is a special function ([special.chdtrc]) and
    stays a parameter. *)

Module Scipy.

(** An int64 count as a float64 (to nearest, ties to even). A count is
    below 2^63. *)
Definition to_float64 (n : Z) : float := PrimFloat.of_uint63 (Uint63.of_Z n).

(** [a.sum()] of a short float64 array: the entries added from the left. *)
Definition fsum (xs : list float) : float := foldl PrimFloat.add 0%float xs.

(** [np.minimum], which lets a NaN through. *)
Definition minimum (a b : float) : float :=
  if PrimFloat.is_nan a then a
  else if PrimFloat.is_nan b then b
  else if PrimFloat.leb a b then a else b.

(** What [power_divergence] raises when the two sums disagree. *)
Definition sums_disagree : exception :=
  ValueError "the sum of the observed frequencies must agree with the sum of the expected frequencies".

(** What numpy raises for arrays of incompatible lengths. *)
Definition shape_mismatch : exception :=
  ValueError "shape mismatch: objects cannot be broadcast to a single shape".

(** The relative tolerance of the comparison of the two sums:
    [rtol = 1e-8], the binary64 value nearest to it. Later releases of
    scipy take the square root of the machine epsilon, 2^-26, instead.
    The two agree on what the statements about sizes use: sums below 2^26
    that differ are rejected under both, and sums whose relative difference
    is at most 1e-8 are accepted under both. *)
Definition rtol : float := 0x1.5798ee2308c3ap-27%float.

(** One-dimensional broadcasting to [n] entries. *)
Definition broadcast_to (xs : list Z) (n : nat) : option (list Z) :=
  if decide (length xs = n) then Some xs
  else match xs with
       | [x] => Some (replicate n x)
       | _ => None
       end.

Section chisquare.

(** [special.chdtrc(df, x)] for [0 < x < inf]. *)
Variable chdtrc : Z → float → float.

(** [distributions.chi2.sf(x, df)]: NaN for a NaN argument or without
    degrees of freedom, 1 at and below the left end of the support, 0
    at infinity. *)
Definition chi2_sf (x : float) (df : Z) : float :=
  if PrimFloat.is_nan x || (df <=? 0) then nan
  else if PrimFloat.leb x 0 then 1%float
  else if PrimFloat.eqb x infinity then 0%float
  else chdtrc df x.

Definition chisquare (f_obs f_exp : list Z) : result (float * float) :=
  let n := Nat.max (length f_obs) (length f_exp) in
  match broadcast_to f_obs n, broadcast_to f_exp n with
  | Some f_obs, Some f_exp =>
      let f_obs_float := to_float64 <$> f_obs in
      let f_exp_float := to_float64 <$> f_exp in
      let f_obs_sum := fsum f_obs_float in
      let f_exp_sum := fsum f_exp_float in
      let relative_diff :=
        (PrimFloat.abs (f_obs_sum - f_exp_sum) / minimum f_obs_sum f_exp_sum)%float in
      if PrimFloat.ltb rtol relative_diff then Raise sums_disagree
      else
        let terms :=
          zip_with (λ o e, ((o - e) * (o - e) / e)%float)
                   f_obs_float f_exp_float in
        let stat := fsum terms in
        let p := chi2_sf stat (Z.of_nat (length terms) - 1) in
        Ok (stat, p)
  | _, _ => Raise shape_mismatch
  end.

End chisquare.

End Scipy.

Module Pandas.

(** [Series.mean()] of integer lengths: the float64 sum over the float64
    count (NaN for an empty series). The sum of the lengths is taken to
    be exact, as it is below 2^53. *)
Definition mean (xs : list Z) : float :=
  (Scipy.to_float64 (Zsum xs) / Scipy.to_float64 (Z.of_nat (length xs)))%float.

End Pandas.

(** ** Ranges of binary64 values *)

(** [0 <= p <= 1]; false for a NaN. *)
Definition in_unit_interval (p : float) : bool :=
  PrimFloat.leb 0 p && PrimFloat.leb p 1.

Definition unit_or_nan (p : float) : bool :=
  PrimFloat.is_nan p || in_unit_interval p.

(** What is used of the special function: a probability for a positive,
    finite statistic and at least one degree of freedom. *)
Definition chdtrc_in_range (chdtrc : Z → float → float) : Prop :=
  ∀ df x, 0 < df → PrimFloat.ltb 0 x = true → PrimFloat.ltb x infinity = true →
          in_unit_interval (chdtrc df x) = true.

(** What is used of the Kolmogorov-Smirnov routine: on two non-empty
    samples of lengths its p-value is a probability. *)
Definition ks_probability (ks_2samp : list Z → list Z → result (float * float)) : Prop :=
  ∀ data1 data2 ks_stat p,
    data1 ≠ [] → data2 ≠ [] →
    ks_2samp data1 data2 = Ok (ks_stat, p) → in_unit_interval p = true.

(** A value that is not NaN and has sign [s]. *)
Definition signed (s : bool) (x : spec_float) : Prop :=
  match x with
  | S754_zero s' | S754_infinity s' | S754_finite s' _ _ => s' = s
  | S754_nan => False
  end.

(** A zero or a finite value. *)
Definition real (x : spec_float) : Prop :=
  match x with
  | S754_zero _ | S754_finite _ _ _ => True
  | _ => False
  end.

Definition nan_or_nonneg (x : float) : Prop :=
  Prim2SF x = S754_nan ∨ signed false (Prim2SF x).

(** A mantissa shifted left by [k] binary places (unchanged for [k <= 0]). *)
Definition shl (p : positive) (k : Z) : positive :=
  match k with
  | Z.pos j => Pos.iter xO p j
  | _ => p
  end.

(** The binary64 representation of a positive integer below 2^53:
    a mantissa of 53 binary digits and the exponent that goes with it. *)
Definition canonical_mantissa (p : positive) : positive :=
  shl p (53 - Z.pos (digits2_pos p)).
Definition canonical_exponent (p : positive) : Z := Z.pos (digits2_pos p) - 53.

Definition canonical (n : Z) : spec_float :=
  match n with
  | Z.pos p => S754_finite false (canonical_mantissa p) (canonical_exponent p)
  | _ => S754_zero false
  end.

(** At every position one of the two counts is positive: no category is
    empty in both data sets. *)
Definition no_empty_category (f_obs f_exp : list Z) : Prop :=
  Forall2 (λ o e, 0 < o ∨ 0 < e) f_obs f_exp.

(** ** Fixtures for the closed examples

    Small data sets and stand-ins for what is outside the repository. The
    examples only reach chi-square statistics 0, infinity and NaN, and
    Kolmogorov-Smirnov tests of a sample against itself: there the
    library's results are fixed (p-value 1, 0 or NaN; statistic 0 and
    p-value 1). The stand-ins are not evaluated anywhere else: the special
    function is a constant inside the unit interval, and the
    Kolmogorov-Smirnov stand-in answers NaN for two different samples. *)

Module Fixture.

Definition chdtrc : Z → float → float := λ _ _, 0.5%float.

Definition chisquare : list Z → list Z → result (float * float) :=
  Scipy.chisquare chdtrc.

Definition ks_2samp (data1 data2 : list Z) : result (float * float) :=
  if decide (merge_sort Z.le data1 = merge_sort Z.le data2 ∧ data1 ≠ [])
  then Ok (0%float, 1%float)
  else Ok (nan, nan).

Definition frame (labels : list Z) (texts : list string) : DataFrame :=
  {| sentiment := Some labels; review := Some texts |}.

(** Four records, every label of the domain present. *)
Definition balanced : DataFrame :=
  frame [0; 1; 2; 1] ["bad"; "okay"; "great"; "fine"].
(** The same labels in another order. *)
Definition balanced' : DataFrame :=
  frame [1; 2; 1; 0] ["okay"; "great"; "fine"; "bad"].
(** Four records without label 2. *)
Definition binary : DataFrame :=
  frame [0; 0; 1; 1] ["bad"; "poor"; "okay"; "fine"].
(** The same labels as [binary], in another order. *)
Definition binary' : DataFrame :=
  frame [1; 0; 1; 0] ["okay"; "bad"; "fine"; "poor"].
(** Four records, one of them labelled 2. *)
Definition shifted : DataFrame :=
  frame [0; 0; 1; 2] ["bad"; "poor"; "okay"; "fine"].
(** Three records only. *)
Definition short : DataFrame :=
  frame [0; 1; 2] ["bad"; "okay"; "great"].
(** A label outside the domain. *)
Definition extra : DataFrame :=
  frame [0; 1; 2; 5] ["bad"; "okay"; "great"; "fine"].
(** A source without the [review] column. *)
Definition no_review : DataFrame :=
  {| sentiment := Some [0; 1; 2; 1]; review := None |}.
(** A source without the [sentiment] column. *)
Definition no_sentiment : DataFrame :=
  {| sentiment := None; review := Some ["bad"; "okay"; "great"; "fine"] |}.

Definition files : gmap string DataFrame :=
  list_to_map [("balanced.csv", balanced); ("balanced2.csv", balanced');
               ("binary.csv", binary); ("binary2.csv", binary');
               ("shifted.csv", shifted);
               ("short.csv", short); ("extra.csv", extra);
               ("no_review.csv", no_review); ("no_sentiment.csv", no_sentiment)].

Definition read_csv (path : string) : result DataFrame :=
  match files !! path with
  | Some df => Ok df
  | None => Raise (OSError path)
  end.

(** A detector as the constructor leaves it. *)
Definition fresh (threshold : float) : DriftDetector :=
  {| threshold := threshold; drift_detected := false; drift_metrics := ∅ |}.

Definition detect_label_drift := detect_label_drift chisquare.
Definition detect_text_length_drift := detect_text_length_drift ks_2samp Pandas.mean.
Definition check_drift := check_drift chisquare ks_2samp Pandas.mean read_csv.

End Fixture.

(** ** Reading a series *)

(** The number of records of [col] labelled [k]. *)
Definition occurrences (k : Z) (col : list Z) : Z :=
  Z.of_nat (length (filter (λ x, x = k) col)).

(** A series read as a finite map from label to count. *)
Definition counts (s : Series) : gmap Z Z := list_to_map s.

(** ** The categories the label test compares *)

(** The index of the series handed to the chi-square routine for one data
    set: its labels and the labels of the fixed domain, in increasing
    order. The routine receives the counts only, paired by position. *)
Definition categories (col : list Z) : list Z := index (label_distribution col).

(** ** [os.path] on a POSIX system *)

Module Posixpath.

Definition sep : ascii := "/"%char.

(** [p[:p.rfind(sep) + 1]]: the part of [p] up to and including its last
    separator, empty when [p] has none. *)
Fixpoint up_to_last_sep (p : string) : string :=
  match p with
  | EmptyString => EmptyString
  | String c p' =>
      match up_to_last_sep p' with
      | EmptyString => if Ascii.eqb c sep then String c EmptyString else EmptyString
      | head => String c head
      end
  end.

(** [head == sep*len(head)] *)
Fixpoint all_sep (head : string) : bool :=
  match head with
  | EmptyString => true
  | String c head' => Ascii.eqb c sep && all_sep head'
  end.

(** [head.rstrip(sep)] *)
Fixpoint rstrip_sep (head : string) : string :=
  match head with
  | EmptyString => EmptyString
  | String c head' =>
      match rstrip_sep head' with
      | EmptyString => if Ascii.eqb c sep then EmptyString else String c EmptyString
      | r => String c r
      end
  end.

(** [os.path.dirname(p)]:
    [i = p.rfind(sep) + 1; head = p[:i];
     if head and head != sep*len(head): head = head.rstrip(sep);
     return head]. *)
Definition dirname (p : string) : string :=
  let head := up_to_last_sep p in
  if negb (String.eqb head EmptyString) && negb (all_sep head)
  then rstrip_sep head
  else head.

(** A path without a separator. *)
Fixpoint bare (p : string) : bool :=
  match p with
  | EmptyString => true
  | String c p' => negb (Ascii.eqb c sep) && bare p'
  end.

End Posixpath.

(** ** Procedures that use the file system and the console

    [save_report] and the storage helper act on the world outside the
    object and print. A procedure runs on a state of that world and on the
    lines printed so far; it returns or raises, and leaves both as they
    are at that point. Besides the exceptions of the detector, subscripting
    a value that is not a dictionary raises [TypeError]. *)

Inductive error : Type :=
| Exception (e : exception)
| TypeError.

Inductive outcome (A : Type) : Type :=
| Return (a : A)
| Throw (e : error).
Arguments Return {A} a.
Arguments Throw {A} e.

Definition Action (W A : Type) : Type :=
  W * list string → outcome A * (W * list string).

#[local] Instance Action_ret W : MRet (Action W) := λ A a s, (Return a, s).
#[local] Instance Action_bind W : MBind (Action W) := λ A B f m s,
  match m s with
  | (Return a, s') => f a s'
  | (Throw e, s') => (Throw e, s')
  end.

(** [print(line)] *)
Definition print {W} (line : string) : Action W unit :=
  λ s, (Return tt, (s.1, s.2 ++ [line])).

(** A call into the operating system or a client library. *)
Definition os_call {W A} (op : W → result A * W) : Action W A :=
  λ s, match op s.1 with
       | (Ok a, w) => (Return a, (w, s.2))
       | (Raise e, w) => (Throw (Exception e), (w, s.2))
       end.

(** A computation that touches neither the world nor the console. *)
Definition pure {W A} (r : outcome A) : Action W A := λ s, (r, s).

(** [str(b)] *)
Definition str_bool (b : bool) : string := if b then "True" else "False".

(** [m['p_value']] and [m['drift_detected']] for a value of the report:
    the two test entries are dictionaries with these keys, a [bool] and a
    [str] cannot be subscripted with a key. *)
Definition getitem_p_value (m : metric) : outcome float :=
  match m with
  | MLabel r => Return (LabelDrift.p_value r)
  | MText r => Return (TextLengthDrift.p_value r)
  | MBool _ | MStr _ => Throw TypeError
  end.

Definition getitem_drift_detected (m : metric) : outcome bool :=
  match m with
  | MLabel r => Return (LabelDrift.drift_detected r)
  | MText r => Return (TextLengthDrift.drift_detected r)
  | MBool _ | MStr _ => Throw TypeError
  end.

Definition newline : string := String "010"%char EmptyString.

Section Report.

(** The file system, and what the method calls on it:
    [os.makedirs(name, exist_ok=True)] and
    [with open(path, 'w') as f: f.write(text)]. *)
Variable fs : Type.
Variable makedirs : string → fs → result unit * fs.
Variable write_text : string → string → fs → result unit * fs.
(** [json.dumps(obj, indent=4)] and [format(x, '.4f')]. *)
Variable json_dumps : gmap string metric → string.
Variable format_4f : float → string.

(** [DriftDetector.save_report]. It reads the object and does not change
    it. *)
Definition save_report (output_path : string) (self : DriftDetector) : Action fs unit :=
  os_call (makedirs (Posixpath.dirname output_path));;
  os_call (write_text output_path (json_dumps (drift_metrics self)));;
  print ("Drift report saved to " +:+ output_path);;
  print ("Drift detected: " +:+ str_bool (drift_detected self));;
  match drift_metrics self !! "label_drift" with
  | Some entry =>
      print (newline +:+ "Label Drift:");;
      p_value ← pure (getitem_p_value entry);
      print ("  P-value: " +:+ format_4f p_value);;
      detected ← pure (getitem_drift_detected entry);
      print ("  Detected: " +:+ str_bool detected)
  | None => mret tt
  end;;
  match drift_metrics self !! "text_length_drift" with
  | Some entry =>
      print (newline +:+ "Text Length Drift:");;
      p_value ← pure (getitem_p_value entry);
      print ("  P-value: " +:+ format_4f p_value);;
      detected ← pure (getitem_drift_detected entry);
      print ("  Detected: " +:+ str_bool detected)
  | None => mret tt
  end.

End Report.

(** The lines of the summary for one entry of the report. *)
Definition summary (format_4f : float → string) (title : string) (p : float) (d : bool) : list string :=
  [newline +:+ title; "  P-value: " +:+ format_4f p; "  Detected: " +:+ str_bool d].

Definition label_summary (format_4f : float → string) (self : DriftDetector) : list string :=
  match drift_metrics self !! "label_drift" with
  | Some (MLabel r) =>
      summary format_4f "Label Drift:" (LabelDrift.p_value r) (LabelDrift.drift_detected r)
  | _ => []
  end.

Definition text_summary (format_4f : float → string) (self : DriftDetector) : list string :=
  match drift_metrics self !! "text_length_drift" with
  | Some (MText r) =>
      summary format_4f "Text Length Drift:"
        (TextLengthDrift.p_value r) (TextLengthDrift.drift_detected r)
  | _ => []
  end.

(** A report as the methods of the detector write it: a label entry under
    ["label_drift"], a text entry under ["text_length_drift"], and the
    flag of the object under ["overall_drift"]. *)
Definition report_typed (self : DriftDetector) : Prop :=
  (∀ m, drift_metrics self !! "label_drift" = Some m → ∃ r, m = MLabel r) ∧
  (∀ m, drift_metrics self !! "text_length_drift" = Some m → ∃ r, m = MText r) ∧
  match drift_metrics self !! "overall_drift" with
  | Some m => m = MBool (drift_detected self)
  | None => drift_detected self = false
  end.

(** ** The storage helper of [src/gcs_helper.py]

    The bucket and the local disk are one world outside the program; the
    client library's calls on it are parameters. *)

Section Storage.

Variable world : Type.
(** [os.makedirs(name, exist_ok=True)] *)
Variable makedirs : string → world → result unit * world.
(** [bucket.blob(name).exists()], [.upload_from_filename(path)],
    [.download_to_filename(path)], [.delete()], for the bucket of the
    given name; [client.list_blobs(bucket, prefix=prefix)], the names. *)
Variable blob_exists : string → string → world → result bool * world.
Variable upload_from_filename : string → string → string → world → result unit * world.
Variable download_to_filename : string → string → string → world → result unit * world.
Variable blob_delete : string → string → world → result unit * world.
Variable list_blobs : string → string → world → result (list string) * world.

(** The helper object. Its constructor obtains a client and a bucket
    handle from the library; what the methods read of the object is the
    name of the bucket. *)
Record GCSHelper : Type := { bucket_name : string }.

(** [f"gs://{self.bucket_name}/{gcs_path}"] *)
Definition gs_url (self : GCSHelper) (gcs_path : string) : string :=
  "gs://" +:+ bucket_name self +:+ "/" +:+ gcs_path.

Definition upload_file (local_path gcs_path : string) (self : GCSHelper) : Action world string :=
  os_call (upload_from_filename (bucket_name self) gcs_path local_path);;
  print ("Uploaded " +:+ local_path +:+ " to " +:+ gs_url self gcs_path);;
  mret (gs_url self gcs_path).

Definition download_file (gcs_path local_path : string) (self : GCSHelper) : Action world bool :=
  let local_dir := Posixpath.dirname local_path in
  (if negb (String.eqb local_dir EmptyString)
   then os_call (makedirs local_dir)
   else mret tt);;
  found ← os_call (blob_exists (bucket_name self) gcs_path);
  if negb found then
    print ("File not found: " +:+ gs_url self gcs_path);;
    mret false
  else
    os_call (download_to_filename (bucket_name self) gcs_path local_path);;
    print ("Downloaded " +:+ gs_url self gcs_path +:+ " to " +:+ local_path);;
    mret true.

Definition file_exists (gcs_path : string) (self : GCSHelper) : Action world bool :=
  os_call (blob_exists (bucket_name self) gcs_path).

Definition list_files (prefix : string) (self : GCSHelper) : Action world (list string) :=
  os_call (list_blobs (bucket_name self) prefix).

Definition delete_file (gcs_path : string) (self : GCSHelper) : Action world unit :=
  found ← os_call (blob_exists (bucket_name self) gcs_path);
  if (found : bool) then
    os_call (blob_delete (bucket_name self) gcs_path);;
    print ("Deleted " +:+ gs_url self gcs_path)
  else
    print ("File not found, cannot delete: " +:+ gs_url self gcs_path).

End Storage.

(** ** The data generator of [src/generate_data.py]

    [generate_sentiment_data] draws from numpy's global generator after
    seeding it. The generator is outside the repository: its state and
    the three kinds of draw the function makes are parameters. *)

Definition positive_words : list string :=
  ["excellent"; "amazing"; "great"; "love"; "perfect";
   "wonderful"; "fantastic"; "best"; "awesome"; "outstanding"].

Definition negative_words : list string :=
  ["terrible"; "awful"; "worst"; "hate"; "poor";
   "disappointing"; "bad"; "horrible"; "useless"; "waste"].

Definition neutral_words : list string :=
  ["okay"; "average"; "fine"; "decent"; "acceptable";
   "normal"; "standard"; "typical"; "regular"; "ordinary"].

(** [' '.join(words)] *)
Definition join (words : list string) : string := String.concat " " words.

(** The three f-strings. *)
Definition positive_review (words : list string) : string :=
  "This product is " +:+ join words +:+ ". Highly recommend!".
Definition negative_review (words : list string) : string :=
  "This product is " +:+ join words +:+ ". Do not buy!".
Definition neutral_review (words : list string) : string :=
  "This product is " +:+ join words +:+ ". It's acceptable.".

(** The vocabulary and the template of a label, as the [if]/[elif]/[else]
    selects them. *)
Definition vocabulary (sentiment : Z) : list string :=
  if decide (sentiment = 2) then positive_words
  else if decide (sentiment = 0) then negative_words
  else neutral_words.

Definition template (sentiment : Z) (words : list string) : string :=
  if decide (sentiment = 2) then positive_review words
  else if decide (sentiment = 0) then negative_review words
  else neutral_review words.

Section Generator.

Variable rng : Type.
(** [np.random.seed(s)]: the state it installs. *)
Variable seed : Z → rng.
(** [np.random.choice(a, p=p)], one draw. *)
Variable choice : list Z → list float → rng → Z * rng.
(** [np.random.randint(low, high)] *)
Variable randint : Z → Z → rng → Z * rng.
(** [np.random.choice(a, size=size)] *)
Variable choices : list string → Z → rng → list string * rng.

(** The probabilities [0.3, 0.4, 0.3] and [0.5, 0.3, 0.2], as binary64. *)
Definition baseline_p : list float :=
  [0x1.3333333333333p-2; 0x1.999999999999ap-2; 0x1.3333333333333p-2]%float.
Definition drifted_p : list float :=
  [0x1p-1; 0x1.3333333333333p-2; 0x1.999999999999ap-3]%float.

(** One turn of the loop: the review, its label and the generator
    afterwards. *)
Definition sample (drift : bool) (g : rng) : (string * Z) * rng :=
  let '(sentiment, g) := choice [0; 1; 2] baseline_p g in
  let '(sentiment, g) :=
    if drift then choice [0; 1; 2] drifted_p g else (sentiment, g) in
  if decide (sentiment = 2) then
    let '(size, g) := randint 5 15 g in
    let '(words, g) := choices positive_words size g in
    ((positive_review words, sentiment), g)
  else if decide (sentiment = 0) then
    let '(size, g) := randint 5 15 g in
    let '(words, g) := choices negative_words size g in
    ((negative_review words, sentiment), g)
  else
    let '(size, g) := randint 5 15 g in
    let '(words, g) := choices neutral_words size g in
    ((neutral_review words, sentiment), g).

(** [for _ in range(n)], appending to the two lists. *)
Fixpoint samples (n : nat) (drift : bool) (reviews : list string) (sentiments : list Z)
    (g : rng) : list string * list Z * rng :=
  match n with
  | O => (reviews, sentiments, g)
  | S n' =>
      let '((review, sentiment), g) := sample drift g in
      samples n' drift (reviews ++ [review]) (sentiments ++ [sentiment]) g
  end.

(** [generate_sentiment_data(n_samples, drift)]: the frame (its constant
    [timestamp] column is not represented) and the generator as the call
    leaves it. *)
Definition generate_sentiment_data (n_samples : Z) (drift : bool) : DataFrame * rng :=
  let g := seed (if negb drift then 42 else 123) in
  let '(reviews, sentiments, g) := samples (Z.to_nat n_samples) drift [] [] g in
  ({| sentiment := Some sentiments; review := Some reviews |}, g).

(** What is used of the generator: a draw is taken from the given
    population, [randint] stays within its bounds, and [size] words are
    drawn. *)
Definition draws_in_range : Prop :=
  (∀ a p g, a ≠ [] → (choice a p g).1 ∈ a) ∧
  (∀ low high g, low < high → low ≤ (randint low high g).1 < high) ∧
  (∀ a size g, a ≠ [] → 0 ≤ size →
     length (choices a size g).1 = Z.to_nat size ∧ Forall (λ w, w ∈ a) (choices a size g).1).

End Generator.

(** A row as the loop builds it: a label of the domain and a review made
    of 5 to 14 words of the label's vocabulary in the label's template. *)
Definition generated_row (review : string) (sentiment : Z) : Prop :=
  sentiment ∈ label_domain ∧
  ∃ words, (5 ≤ length words < 15)%nat ∧
           Forall (λ w, w ∈ vocabulary sentiment) words ∧
           review = template sentiment words.

(** ** Stand-ins for the closed examples of the procedures

    More data sets, a Kolmogorov-Smirnov routine for a sample against
    itself, a generator that steps through its population,
    a disk that is a map from paths to contents and refuses the empty
    directory name, and a bucket that is a set of names. *)

Module Standin.

(** Four records of one label each, and a data set whose extra label is
    7 where [Fixture.extra] has 5. *)
Definition negative_only : DataFrame :=
  Fixture.frame [0; 0; 0; 0] ["bad"; "poor"; "awful"; "worst"].
Definition neutral_only : DataFrame :=
  Fixture.frame [1; 1; 1; 1] ["okay"; "fine"; "fair"; "so-so"].
Definition other_extra : DataFrame :=
  Fixture.frame [0; 1; 2; 7] ["bad"; "okay"; "great"; "fine"].

(** [n] records labelled 0 and one record of each other label. *)
Definition crowd (n : Z) : DataFrame :=
  Fixture.frame (replicate (Z.to_nat n) 0 ++ [1; 2])
                (replicate (Z.to_nat n) "bad" ++ ["okay"; "great"]).

(** The Kolmogorov-Smirnov test of a non-empty sample against itself
    (statistic 0, p-value 1); it refuses an empty sample, as the library
    does, and has no answer for two different samples. *)
Definition ks_2samp (data1 data2 : list Z) : result (float * float) :=
  if decide (data1 = [] ∨ data2 = [])
  then Raise (ValueError "Data passed to ks_2samp must not be empty")
  else if decide (merge_sort Z.le data1 = merge_sort Z.le data2)
  then Ok (0%float, 1%float)
  else Raise (ValueError "two different samples").

Definition detect_text_length_drift := detect_text_length_drift ks_2samp Pandas.mean.

Definition rng : Type := Z.
Definition seed (s : Z) : rng := s.
Definition choice (a : list Z) (p : list float) (g : rng) : Z * rng :=
  (nth (Z.to_nat (g `mod` Z.of_nat (length a))) a 0, g + 1).
Definition randint (low high : Z) (g : rng) : Z * rng :=
  (low + g `mod` (high - low), g + 1).
Definition choices (a : list string) (size : Z) (g : rng) : list string * rng :=
  ((λ i, nth (Z.to_nat ((g + i) `mod` Z.of_nat (length a))) a EmptyString) <$> seqZ 0 size,
   g + size).

Definition generate_sentiment_data := generate_sentiment_data rng seed choice randint choices.

Definition disk : Type := gmap string string.
Definition makedirs (name : string) (files : disk) : result unit * disk :=
  if String.eqb name EmptyString then (Raise (OSError name), files) else (Ok tt, files).
Definition write_text (path text : string) (files : disk) : result unit * disk :=
  (Ok tt, <[path := text]> files).
Definition json_dumps (report : gmap string metric) : string :=
  if decide (dom report = ∅) then "{}" else "{...}".
Definition format_4f (x : float) : string := "0.0000".

Definition save_report := save_report disk makedirs write_text json_dumps format_4f.

Definition bucket : Type := gset string.
Definition blob_exists (bucket_name name : string) (blobs : bucket) : result bool * bucket :=
  (Ok (bool_decide (name ∈ blobs)), blobs).
Definition download_to_filename (bucket_name name path : string) (blobs : bucket)
    : result unit * bucket :=
  (Ok tt, blobs).
Definition makedirs_nowhere (name : string) (blobs : bucket) : result unit * bucket :=
  (Raise (OSError name), blobs).

Definition download_file :=
  download_file bucket makedirs_nowhere blob_exists download_to_filename.

End Standin.

(** * Properties of the label distribution *)

Section SeriesFacts.

Implicit Types (s : Series) (col : list Z) (k : Z).

Lemma observe_index k s :
  index (observe k s) = if decide (k ∈ index s) then index s else index s ++ [k].
Proof.
  unfold index. induction s as [|[k' n] s IH]; csimpl.
  - done.
  - destruct (decide (k = k')) as [->|Hne]; csimpl.
    + by rewrite decide_True by apply list_elem_of_here.
    + rewrite IH. destruct (decide (k ∈ s.*1)) as [Hin|Hnin].
      * by rewrite decide_True by by apply list_elem_of_further.
      * rewrite decide_False; [done|]. by intros [?|?]%elem_of_cons.
Qed.

Lemma observe_counts k s :
  counts (observe k s) = <[k := default 0 (counts s !! k) + 1]> (counts s).
Proof.
  unfold counts. induction s as [|[k' n] s IH]; csimpl.
  - by rewrite lookup_empty.
  - destruct (decide (k = k')) as [->|Hne]; csimpl.
    + by rewrite lookup_insert_eq, insert_insert_eq.
    + rewrite IH, lookup_insert_ne by done. by rewrite insert_insert_ne by done.
Qed.

Lemma observe_sum k s : Zsum (values (observe k s)) = Zsum (values s) + 1.
Proof.
  unfold values. induction s as [|[k' n] s IH]; csimpl; [done|].
  destruct (decide (k = k')); csimpl; lia.
Qed.

Lemma observe_positive k s :
  Forall (λ n, 0 < n) (values s) → Forall (λ n, 0 < n) (values (observe k s)).
Proof.
  unfold values. induction s as [|[k' n] s IH]; csimpl; intros Hs.
  - repeat constructor.
  - apply Forall_cons in Hs as [? ?].
    destruct (decide (k = k')); csimpl; constructor; auto with lia.
Qed.

Lemma tally_snoc col k : tally (col ++ [k]) = observe k (tally col).
Proof. unfold tally. by rewrite foldl_app. Qed.

Lemma occurrences_snoc k col x :
  occurrences k (col ++ [x]) = occurrences k col + (if decide (x = k) then 1 else 0).
Proof.
  unfold occurrences. rewrite filter_app, length_app, Nat2Z.inj_add. f_equal.
  rewrite filter_cons, filter_nil. by destruct (decide (x = k)).
Qed.

Lemma occurrences_nonneg k col : 0 ≤ occurrences k col.
Proof. unfold occurrences. lia. Qed.

Lemma occurrences_absent k col : k ∉ col → occurrences k col = 0.
Proof.
  unfold occurrences. induction col as [|x col IH]; [done|].
  intros [Hne Hk]%not_elem_of_cons.
  rewrite filter_cons, decide_False by done. auto.
Qed.

Lemma occurrences_present k col : k ∈ col → 0 < occurrences k col.
Proof.
  intros Hk. unfold occurrences.
  assert (k ∈ filter (λ x, x = k) col) as Hin by by apply list_elem_of_filter.
  destruct (filter _ col); [by apply elem_of_nil in Hin|]. simpl. lia.
Qed.

Lemma tally_index_elem col k : k ∈ index (tally col) ↔ k ∈ col.
Proof.
  induction col as [|x col IH] using rev_ind.
  - unfold tally, index. simpl. by rewrite !elem_of_nil.
  - rewrite tally_snoc, observe_index, elem_of_app, list_elem_of_singleton.
    destruct (decide (x ∈ index (tally col))) as [Hin|Hnin].
    + rewrite IH. split; [tauto|]. intros [?| ->]; [done|]. by apply IH.
    + rewrite elem_of_app, list_elem_of_singleton. by rewrite IH.
Qed.

Lemma tally_NoDup col : NoDup (index (tally col)).
Proof.
  induction col as [|x col IH] using rev_ind.
  - constructor.
  - rewrite tally_snoc, observe_index. case_decide as Hx; [done|].
    apply NoDup_app. split_and!; [done| |apply NoDup_singleton].
    intros y Hy ->%list_elem_of_singleton. done.
Qed.

Lemma tally_counts col k :
  counts (tally col) !! k =
    if decide (k ∈ col) then Some (occurrences k col) else None.
Proof.
  induction col as [|x col IH] using rev_ind.
  - done.
  - rewrite tally_snoc, observe_counts, occurrences_snoc.
    destruct (decide (x = k)) as [->|Hne].
    + rewrite lookup_insert_eq, IH.
      rewrite (decide_True (P := k ∈ col ++ [k])) by (apply elem_of_app; right; by left).
      f_equal. case_decide as Hk; simpl; [done|]. by rewrite occurrences_absent.
    + rewrite lookup_insert_ne, IH, Z.add_0_r by done.
      destruct (decide (k ∈ col)) as [Hk|Hk].
      * by rewrite decide_True by (apply elem_of_app; by left).
      * rewrite decide_False; [done|].
        rewrite elem_of_app, list_elem_of_singleton. intros [?|?]; congruence.
Qed.

Lemma tally_sum col : Zsum (values (tally col)) = Z.of_nat (length col).
Proof.
  induction col as [|x col IH] using rev_ind; [done|].
  rewrite tally_snoc, observe_sum, IH, length_app. simpl. lia.
Qed.

Lemma tally_positive col : Forall (λ n, 0 < n) (values (tally col)).
Proof.
  induction col as [|x col IH] using rev_ind; [constructor|].
  rewrite tally_snoc. by apply observe_positive.
Qed.

(** Sorting permutes the rows; the finite map, the total and the
    uniqueness of the index do not see the order. *)

Lemma Zsum_perm (xs ys : list Z) : xs ≡ₚ ys → Zsum xs = Zsum ys.
Proof. induction 1; simpl; lia. Qed.

Lemma sort_index_perm s : sort_index s ≡ₚ s.
Proof. apply merge_sort_Permutation. Qed.

Lemma value_counts_perm col : value_counts col ≡ₚ tally col.
Proof. apply merge_sort_Permutation. Qed.

Lemma index_perm s1 s2 : s1 ≡ₚ s2 → index s1 ≡ₚ index s2.
Proof. intros H. unfold index. by rewrite H. Qed.

Lemma values_perm s1 s2 : s1 ≡ₚ s2 → values s1 ≡ₚ values s2.
Proof. intros H. unfold values. by rewrite H. Qed.

Lemma counts_perm s1 s2 : NoDup (index s1) → s1 ≡ₚ s2 → counts s1 = counts s2.
Proof. apply list_to_map_proper. Qed.

(** The zero-filling loop. *)

Lemma zero_fill_index k s :
  index (zero_fill k s) = if decide (k ∈ index s) then index s else index s ++ [k].
Proof.
  unfold zero_fill. case_decide; [done|]. unfold index. by rewrite fmap_app.
Qed.

Lemma zero_fill_NoDup k s : NoDup (index s) → NoDup (index (zero_fill k s)).
Proof.
  intros Hs. rewrite zero_fill_index. case_decide as Hk; [done|].
  apply NoDup_app. split_and!; [done| |apply NoDup_singleton].
  intros y Hy ->%list_elem_of_singleton. done.
Qed.

Lemma zero_fill_counts k s k' :
  counts (zero_fill k s) !! k' =
    match counts s !! k' with
    | Some n => Some n
    | None => if decide (k' = k) then Some 0 else None
    end.
Proof.
  unfold zero_fill, counts. case_decide as Hk.
  - destruct (list_to_map s !! k') eqn:E; [done|].
    case_decide as Hk'; [|done]. subst k'.
    by apply not_elem_of_list_to_map in E.
  - rewrite list_to_map_snoc by done.
    destruct (decide (k' = k)) as [->|Hne].
    + rewrite lookup_insert_eq.
      by rewrite (not_elem_of_list_to_map_1 s k).
    + rewrite lookup_insert_ne by done. by destruct (list_to_map s !! k').
Qed.

Lemma zero_fill_sum k s : Zsum (values (zero_fill k s)) = Zsum (values s).
Proof.
  unfold zero_fill. case_decide; [done|].
  unfold values. rewrite fmap_app. unfold Zsum. rewrite foldr_app. done.
Qed.

(** The series after line 28, and after the loop of lines 31-35. *)

Lemma sorted_counts_perm col : sorted_counts col ≡ₚ tally col.
Proof. unfold sorted_counts. by rewrite sort_index_perm, value_counts_perm. Qed.

Lemma sorted_counts_NoDup col : NoDup (index (sorted_counts col)).
Proof. rewrite (index_perm _ _ (sorted_counts_perm col)). apply tally_NoDup. Qed.

Lemma sorted_counts_counts col : counts (sorted_counts col) = counts (tally col).
Proof. apply counts_perm; [apply sorted_counts_NoDup|apply sorted_counts_perm]. Qed.

Lemma filled_NoDup s : NoDup (index s) → NoDup (index (filled s)).
Proof. intros Hs. unfold filled. simpl. by do 3 apply zero_fill_NoDup. Qed.

Lemma filled_counts s k :
  counts (filled s) !! k =
    match counts s !! k with
    | Some n => Some n
    | None => if decide (k ∈ label_domain) then Some 0 else None
    end.
Proof.
  unfold filled, label_domain. simpl. rewrite !zero_fill_counts.
  destruct (counts s !! k); [done|].
  repeat case_decide; try done; subst;
    repeat match goal with
    | H : _ ∈ _ |- _ => apply elem_of_cons in H as [?|H]; [congruence|]
    | H : _ ∈ [] |- _ => by apply elem_of_nil in H
    | H : ¬ _ ∈ _ |- _ => exfalso; apply H; repeat constructor
    end.
Qed.

Lemma filled_sum s : Zsum (values (filled s)) = Zsum (values s).
Proof. unfold filled. simpl. by rewrite !zero_fill_sum. Qed.

Lemma label_distribution_perm col :
  label_distribution col ≡ₚ filled (sorted_counts col).
Proof. apply sort_index_perm. Qed.

Lemma label_distribution_NoDup col : NoDup (index (label_distribution col)).
Proof.
  rewrite (index_perm _ _ (label_distribution_perm col)).
  apply filled_NoDup, sorted_counts_NoDup.
Qed.

(** What the distribution holds: every label that occurs and every label
    of the domain, each with the number of its records. *)
Lemma label_distribution_counts col k :
  counts (label_distribution col) !! k =
    if decide (k ∈ col ∨ k ∈ label_domain) then Some (occurrences k col) else None.
Proof.
  rewrite (counts_perm _ _ (label_distribution_NoDup col) (label_distribution_perm col)).
  rewrite filled_counts, sorted_counts_counts, tally_counts.
  destruct (decide (k ∈ col)) as [Hk|Hk].
  - by rewrite decide_True by by left.
  - rewrite occurrences_absent by done.
    destruct (decide (k ∈ label_domain)) as [Hd|Hd].
    + by rewrite decide_True by by right.
    + rewrite decide_False; [done|]. intros [?|?]; done.
Qed.

Lemma label_distribution_elem col k n :
  (k, n) ∈ label_distribution col ↔
  (k ∈ col ∨ k ∈ label_domain) ∧ n = occurrences k col.
Proof.
  rewrite (elem_of_list_to_map (M := gmap Z)) by apply label_distribution_NoDup.
  fold (counts (label_distribution col)). rewrite label_distribution_counts.
  case_decide as Hk.
  - split; [intros [= ->]; done|intros [_ ->]; done].
  - split; [done|tauto].
Qed.

Lemma label_distribution_sum col :
  Zsum (values (label_distribution col)) = Z.of_nat (length col).
Proof.
  rewrite (Zsum_perm _ _ (values_perm _ _ (label_distribution_perm col))).
  rewrite filled_sum.
  rewrite (Zsum_perm _ _ (values_perm _ _ (sorted_counts_perm col))).
  apply tally_sum.
Qed.

(** Order of the rows. *)

#[local] Instance by_label_trans : Transitive by_label.
Proof. intros a b c. unfold by_label. lia. Qed.
#[local] Instance by_label_total : Total by_label.
Proof. intros a b. unfold by_label. lia. Qed.

Lemma sort_index_sorted s : StronglySorted by_label (sort_index s).
Proof. apply StronglySorted_merge_sort; apply _. Qed.

Lemma strictly_sorted_index s :
  StronglySorted by_label s → NoDup (index s) → StronglySorted Z.lt (index s).
Proof.
  unfold index. induction 1 as [|[k n] s Hs IH Hk]; csimpl; intros Hnd.
  - constructor.
  - apply NoDup_cons in Hnd as [Hk' Hnd]. constructor; [by apply IH|].
    apply Forall_fmap, Forall_forall. intros [k2 n2] Hin.
    rewrite Forall_forall in Hk. specialize (Hk _ Hin).
    unfold by_label in Hk. simpl in *.
    assert (k ≠ k2); [|lia]. intros ->. apply Hk'.
    apply list_elem_of_fmap. by exists (k2, n2).
Qed.

Lemma label_distribution_sorted col :
  StronglySorted Z.lt (index (label_distribution col)).
Proof.
  apply strictly_sorted_index; [apply sort_index_sorted|apply label_distribution_NoDup].
Qed.

(** Two columns with the same number of records for every label have the
    same distribution, row for row. *)
Lemma label_distribution_ext col1 col2 :
  (∀ k, occurrences k col1 = occurrences k col2) →
  label_distribution col1 = label_distribution col2.
Proof.
  intros Hocc.
  assert (∀ k, k ∈ col1 ↔ k ∈ col2) as Hmem.
  { intros k. split; intros Hk; apply occurrences_present in Hk.
    - destruct (decide (k ∈ col2)) as [|Hn]; [done|].
      apply occurrences_absent in Hn. rewrite Hocc in Hk. lia.
    - destruct (decide (k ∈ col1)) as [|Hn]; [done|].
      apply occurrences_absent in Hn. rewrite <-Hocc in Hk. lia. }
  assert (∀ r, r ∈ label_distribution col1 ↔ r ∈ label_distribution col2) as Hrows.
  { intros [k n]. by rewrite !label_distribution_elem, Hmem, Hocc. }
  apply (StronglySorted_unique_strong by_label); try apply sort_index_sorted.
  - intros [k1 n1] [k2 n2] H1 H2. unfold by_label. simpl. intros ? ?.
    assert (k1 = k2) as -> by lia.
    apply label_distribution_elem in H1 as [_ ->].
    apply label_distribution_elem in H2 as [_ ->]. by rewrite Hocc.
  - apply NoDup_Permutation; [| |done].
    + eapply NoDup_fmap_1, label_distribution_NoDup.
    + eapply NoDup_fmap_1, label_distribution_NoDup.
Qed.

(** Bounds on the counts. *)

Lemma occurrences_le_length k col : occurrences k col ≤ Z.of_nat (length col).
Proof. unfold occurrences. pose proof (length_filter (λ x, x = k) col). lia. Qed.

Lemma label_distribution_values col :
  Forall (λ n, 0 ≤ n ≤ Z.of_nat (length col)) (values (label_distribution col)).
Proof.
  unfold values. apply Forall_fmap, Forall_forall. intros [k n] Hin.
  apply label_distribution_elem in Hin as [_ ->]. simpl.
  split; [apply occurrences_nonneg|apply occurrences_le_length].
Qed.

Lemma label_distribution_values_positive col :
  Forall (λ k, k ∈ col) label_domain →
  Forall (λ n, 0 < n) (values (label_distribution col)).
Proof.
  intros Hdom. unfold values. apply Forall_fmap, Forall_forall. intros [k n] Hin.
  apply label_distribution_elem in Hin as [Hk ->]. simpl.
  apply occurrences_present. destruct Hk as [Hk|Hk]; [done|].
  rewrite Forall_forall in Hdom. by apply Hdom.
Qed.

Lemma label_distribution_length col :
  (3 ≤ length (values (label_distribution col)))%nat.
Proof.
  unfold values. rewrite length_fmap, <-(length_fmap fst).
  change 3%nat with (length label_domain). apply submseteq_length.
  apply NoDup_submseteq.
  - unfold label_domain. repeat (apply NoDup_cons; split; [compute_done|]). apply NoDup_nil_2.
  - intros k Hk. apply list_elem_of_fmap. exists (k, occurrences k col).
    split; [done|]. apply label_distribution_elem. split; [by right|done].
Qed.

End SeriesFacts.

(** * Binary64 arithmetic of the chi-square routine

    The operations are specified by [SpecFloat]; what is needed of them is
    the class of a result (NaN, sign, finite), and that a count below 2^53
    converts to a finite float. *)

Section Float64Facts.

(** A count below 2^53 is a finite float. *)

Lemma digits2_pos_lower p : 2 ^ (Z.pos (digits2_pos p) - 1) <= Z.pos p.
Proof.
  induction p as [p IH|p IH|]; simpl digits2_pos.
  - rewrite Pos2Z.inj_succ.
    replace (Z.succ (Z.pos (digits2_pos p)) - 1)
      with (Z.succ (Z.pos (digits2_pos p) - 1)) by lia.
    rewrite Z.pow_succ_r by lia. lia.
  - rewrite Pos2Z.inj_succ.
    replace (Z.succ (Z.pos (digits2_pos p)) - 1)
      with (Z.succ (Z.pos (digits2_pos p) - 1)) by lia.
    rewrite Z.pow_succ_r by lia. lia.
  - simpl. lia.
Qed.

Lemma digits2_pos_le_53 p : Z.pos p < 2 ^ 53 -> Z.pos (digits2_pos p) <= 53.
Proof.
  intros Hp. pose proof (digits2_pos_lower p) as Hl.
  destruct (Z_le_gt_dec (Z.pos (digits2_pos p)) 53) as [|Hgt]; [assumption|].
  exfalso. assert (2 ^ 53 <= 2 ^ (Z.pos (digits2_pos p) - 1)).
  { apply Z.pow_le_mono_r; lia. }
  lia.
Qed.

Lemma digits2_pos_iter_xO p k :
  digits2_pos (Pos.iter xO p k) = (digits2_pos p + k)%positive.
Proof.
  induction k as [|k IH] using Pos.peano_ind.
  - simpl. lia.
  - rewrite Pos.iter_succ. simpl. rewrite IH. lia.
Qed.

Lemma binary_round_aux_canonical s m e :
  digits2_pos m = 53%positive -> -1074 <= e <= 971 ->
  binary_round_aux prec emax s (Z.pos m) e loc_Exact = S754_finite s m e.
Proof.
  intros Hd He.
  unfold binary_round_aux, shr_fexp, Zdigits2. rewrite Hd.
  assert (fexp prec emax (53 + e) - e = 0) as ->.
  { unfold fexp, SpecFloat.emin, prec, emax. lia. }
  cbn [shr shr_record_of_loc shr_m loc_of_shr_record round_nearest_even].
  unfold Zdigits2. rewrite Hd.
  assert (fexp prec emax (53 + e) - e = 0) as ->.
  { unfold fexp, SpecFloat.emin, prec, emax. lia. }
  cbn [shr shr_record_of_loc shr_m].
  replace (e <=? emax - prec) with true; [reflexivity|].
  symmetry. apply Z.leb_le. unfold emax, prec. lia.
Qed.

Lemma binary_normalize_small p :
  Z.pos p < 2 ^ 53 ->
  exists m e, binary_normalize prec emax (Z.pos p) 0 false = S754_finite false m e.
Proof.
  intros Hp. pose proof (digits2_pos_le_53 p Hp) as Hd.
  unfold binary_normalize, binary_round.
  assert (fexp prec emax (Z.pos (digits2_pos p) + 0) = Z.pos (digits2_pos p) - 53) as ->.
  { unfold fexp, SpecFloat.emin, prec, emax. lia. }
  unfold shl_align.
  destruct (Z.pos (digits2_pos p) - 53 - 0) as [|k|k] eqn:Hk; try lia.
  - do 2 eexists. apply binary_round_aux_canonical; lia.
  - do 2 eexists. apply binary_round_aux_canonical.
    + rewrite digits2_pos_iter_xO. lia.
    + lia.
Qed.

Lemma to_float64_finite n :
  0 < n < 2 ^ 53 → ∃ m e, Prim2SF (Scipy.to_float64 n) = S754_finite false m e.
Proof.
  intros Hn. unfold Scipy.to_float64.
  rewrite of_uint63_spec, Uint63.of_Z_spec.
  rewrite Z.mod_small by (change wB with (2 ^ 63); lia).
  destruct n as [|p|p]; try lia. apply binary_normalize_small. lia.
Qed.

Lemma to_float64_count n :
  0 ≤ n < 2 ^ 53 →
  signed false (Prim2SF (Scipy.to_float64 n)) ∧ real (Prim2SF (Scipy.to_float64 n)).
Proof.
  intros Hn. destruct (decide (n = 0)) as [->|Hne]; [done|].
  destruct (to_float64_finite n) as (m & e & ->); [lia|done].
Qed.


(** Classes of the results of rounding and of the four operations. *)

Lemma shr_1_nonneg mrs : 0 ≤ shr_m mrs → 0 ≤ shr_m (shr_1 mrs).
Proof. destruct mrs as [[|[p|p|]|p] r s]; simpl; lia. Qed.

Lemma iter_shr_1_nonneg n mrs :
  0 ≤ shr_m mrs → 0 ≤ shr_m (SpecFloat.iter_pos shr_1 n mrs).
Proof.
  revert mrs. induction n as [n IH|n IH|]; intros mrs Hm; simpl.
  - by apply IH, IH, shr_1_nonneg.
  - by apply IH, IH.
  - by apply shr_1_nonneg.
Qed.

Lemma shr_fexp_nonneg m e l : 0 ≤ m → 0 ≤ shr_m (shr_fexp prec emax m e l).1.
Proof.
  intros Hm. unfold shr_fexp, shr.
  assert (0 ≤ shr_m (shr_record_of_loc m l)) by by destruct l as [|[]].
  destruct (fexp _ _ _ - e); simpl; [done| |done]. by apply iter_shr_1_nonneg.
Qed.

Lemma round_nearest_even_nonneg m l : 0 ≤ m → 0 ≤ round_nearest_even m l.
Proof. intros Hm. destruct l as [|[]]; simpl; try lia. destruct (Z.even m); lia. Qed.

Lemma binary_round_aux_signed s m e l :
  0 ≤ m → signed s (binary_round_aux prec emax s m e l).
Proof.
  intros Hm. unfold binary_round_aux.
  pose proof (shr_fexp_nonneg m e l Hm) as H1.
  destruct (shr_fexp prec emax m e l) as [mrs' e']. simpl in H1.
  pose proof (shr_fexp_nonneg _ e' loc_Exact
                (round_nearest_even_nonneg _ (loc_of_shr_record mrs') H1)) as H2.
  destruct (shr_fexp prec emax _ e' loc_Exact) as [mrs'' e'']. simpl in H2.
  destruct (shr_m mrs''); [done| |lia]. by destruct (e'' <=? emax - prec).
Qed.

Lemma binary_round_signed s p e : signed s (binary_round prec emax s p e).
Proof.
  unfold binary_round. destruct (shl_align _ _ _) as [mz ez].
  by apply binary_round_aux_signed.
Qed.

Lemma binary_normalize_not_nan m e : binary_normalize prec emax m e false ≠ S754_nan.
Proof.
  destruct m as [|p|p]; simpl; [done| |].
  - pose proof (binary_round_signed false p e). by destruct (binary_round _ _ _ _ _).
  - pose proof (binary_round_signed true p e). by destruct (binary_round _ _ _ _ _).
Qed.

Lemma binary_normalize_nonneg m e :
  0 ≤ m → signed false (binary_normalize prec emax m e false).
Proof.
  destruct m as [|p|p]; simpl; [done| |lia]. intros _. apply binary_round_signed.
Qed.

Lemma SFsub_real x y :
  real x → real y → SF64sub x y ≠ S754_nan.
Proof.
  destruct x as [sx|sx| |sx mx ex], y as [sy|sy| |sy my ey]; simpl; try done.
  - by destruct sx, sy.
  - intros _ _. apply binary_normalize_not_nan.
Qed.

Lemma SFmul_square x : x ≠ S754_nan → signed false (SF64mul x x).
Proof.
  destruct x as [s|s| |s m e]; simpl; try done; intros _; try by destruct s.
  replace (xorb s s) with false by by destruct s.
  by apply binary_round_aux_signed.
Qed.

Lemma SFdiv_core_nonneg m1 e1 m2 e2 :
  0 ≤ m1 → 0 < m2 → 0 ≤ (SFdiv_core_binary prec emax m1 e1 m2 e2).1.1.
Proof.
  intros H1 H2. unfold SFdiv_core_binary.
  set (s := e1 - e2 - _).
  set (m' := match s with 0 => m1 | Z.pos _ => Z.shiftl m1 s | Z.neg _ => 0 end).
  assert (0 ≤ m') as Hm'.
  { subst m'. destruct s; [done| |done]. by apply Z.shiftl_nonneg. }
  pose proof (Z.div_pos m' m2 Hm' H2) as Hq. unfold Z.div in Hq.
  destruct (Z.div_eucl m' m2) as [q r]. done.
Qed.

Lemma SFdiv_nonneg x y :
  signed false x → signed false y → real y →
  SF64div x y = S754_nan ∨ signed false (SF64div x y).
Proof.
  destruct x as [sx|sx| |sx mx ex], y as [sy|sy| |sy my ey]; simpl; try done;
    intros -> -> _; auto.
  right.
  pose proof (SFdiv_core_nonneg (Z.pos mx) ex (Z.pos my) ey) as Hq.
  destruct (SFdiv_core_binary _ _ _ _ _ _) as [[mz ez] lz]. simpl in Hq.
  apply binary_round_aux_signed, Hq; lia.
Qed.

Lemma SFdiv_positive x y m e :
  signed false x → y = S754_finite false m e → signed false (SF64div x y).
Proof.
  intros Hx ->. destruct x as [sx|sx| |sx mx ex]; simpl in *; try done; subst; try done.
  pose proof (SFdiv_core_nonneg (Z.pos mx) ex (Z.pos m) e) as Hq.
  destruct (SFdiv_core_binary _ _ _ _ _ _) as [[mz ez] lz]. simpl in Hq.
  apply binary_round_aux_signed, Hq; lia.
Qed.

Lemma SFadd_nonneg x y :
  signed false x → signed false y → signed false (SF64add x y).
Proof.
  destruct x as [sx|sx| |sx mx ex], y as [sy|sy| |sy my ey]; simpl; try done;
    intros -> ->; try done.
  apply binary_normalize_nonneg. simpl. lia.
Qed.


(** Pearson's statistic of two arrays of counts. *)

Lemma pearson_term_class (o e : float) :
  signed false (Prim2SF o) → real (Prim2SF o) →
  signed false (Prim2SF e) → real (Prim2SF e) →
  nan_or_nonneg ((o - e) * (o - e) / e)%float ∧
  (∀ m ex, Prim2SF e = S754_finite false m ex →
     signed false (Prim2SF ((o - e) * (o - e) / e)%float)).
Proof.
  intros Hso Hro Hse Hre. unfold nan_or_nonneg.
  rewrite FloatAxioms.div_spec, FloatAxioms.mul_spec, FloatAxioms.sub_spec.
  pose proof (SFmul_square _ (SFsub_real _ _ Hro Hre)) as Hsq. split.
  - by apply SFdiv_nonneg.
  - intros m ex He. by eapply SFdiv_positive.
Qed.

Lemma add_class (x y : float) :
  (nan_or_nonneg x → nan_or_nonneg y → nan_or_nonneg (x + y)) ∧
  (signed false (Prim2SF x) → signed false (Prim2SF y) →
   signed false (Prim2SF (x + y))).
Proof.
  unfold nan_or_nonneg. rewrite FloatAxioms.add_spec. split.
  - intros [->|Hx] [->|Hy]; [by left|by left| |right; by apply SFadd_nonneg].
    left. by destruct (Prim2SF x).
  - apply SFadd_nonneg.
Qed.

Lemma fsum_class (xs : list float) :
  (Forall nan_or_nonneg xs → nan_or_nonneg (Scipy.fsum xs)) ∧
  (Forall (λ x, signed false (Prim2SF x)) xs → signed false (Prim2SF (Scipy.fsum xs))).
Proof.
  unfold Scipy.fsum.
  assert (signed false (Prim2SF 0%float)) as H0 by reflexivity.
  revert H0. generalize 0%float as acc.
  induction xs as [|x xs IH]; intros acc Hacc; simpl.
  - split; intros _; [by right|done].
  - split; intros [Hx Hxs]%Forall_cons.
    + destruct (add_class acc x) as [Hadd _].
      specialize (Hadd (or_intror Hacc) Hx) as [Hn|Hs].
      * clear IH. revert Hn. generalize (acc + x)%float. intros a Ha.
        induction xs as [|y ys IHy] in a, Ha, Hxs |- *; simpl; [by left|].
        apply Forall_cons in Hxs as [_ Hys]. apply IHy; [done|].
        rewrite FloatAxioms.add_spec, Ha. done.
      * by apply IH.
    + apply IH; [|done]. by apply add_class.
Qed.

Lemma chi2_sf_range chdtrc stat df :
  chdtrc_in_range chdtrc → 0 < df →
  (nan_or_nonneg stat → unit_or_nan (Scipy.chi2_sf chdtrc stat df) = true) ∧
  (signed false (Prim2SF stat) → in_unit_interval (Scipy.chi2_sf chdtrc stat df) = true).
Proof.
  intros Hlaw Hdf.
  assert (signed false (Prim2SF stat) →
          in_unit_interval (Scipy.chi2_sf chdtrc stat df) = true) as Hpos.
  { intros Hs. unfold Scipy.chi2_sf, PrimFloat.is_nan.
    replace (df <=? 0) with false by (symmetry; apply Z.leb_gt; lia).
    specialize (Hlaw df stat Hdf). revert Hlaw.
    rewrite !FloatAxioms.ltb_spec, !FloatAxioms.eqb_spec, FloatAxioms.leb_spec.
    change (Prim2SF 0) with (S754_zero false).
    change (Prim2SF infinity) with (S754_infinity false).
    destruct (Prim2SF stat) as [s|s| |s m e]; simpl in Hs; [subst s..|done|subst s].
    - intros _. reflexivity.
    - intros _. reflexivity.
    - unfold SFeqb, SFleb, SFltb. simpl.
      rewrite Z.compare_refl, Pos.compare_cont_refl. simpl. auto. }
  split; [|done]. intros [Hn|Hs].
  - unfold Scipy.chi2_sf, PrimFloat.is_nan. rewrite FloatAxioms.eqb_spec, Hn. done.
  - unfold unit_or_nan. rewrite (Hpos Hs). apply orb_true_r.
Qed.

Lemma broadcast_to_Some (P : Z → Prop) xs n ys :
  Scipy.broadcast_to xs n = Some ys → Forall P xs → length ys = n ∧ Forall P ys.
Proof.
  unfold Scipy.broadcast_to. case_decide as Hn.
  - intros [= <-]. done.
  - destruct xs as [|x [|? ?]]; try done. intros [= <-] [Hx _]%Forall_cons.
    split; [apply length_replicate|by apply Forall_replicate].
Qed.

Lemma pearson_terms_class (f_obs f_exp : list Z) :
  Forall (λ x, 0 ≤ x < 2 ^ 53) f_obs →
  Forall (λ x, 0 ≤ x < 2 ^ 53) f_exp →
  let terms := zip_with (λ o e, ((o - e) * (o - e) / e)%float)
                 (Scipy.to_float64 <$> f_obs) (Scipy.to_float64 <$> f_exp) in
  Forall nan_or_nonneg terms ∧
  (Forall (λ x, 0 < x) f_exp → Forall (λ x, signed false (Prim2SF x)) terms).
Proof.
  intros Hobs. revert f_exp. induction Hobs as [|o f_obs Ho _ IH]; intros f_exp Hexp.
  - simpl. split; constructor.
  - destruct Hexp as [|e f_exp He Hexp]; simpl; [split; constructor|].
    destruct (IH f_exp Hexp) as [IH1 IH2].
    destruct (to_float64_count o Ho) as [Hso Hro].
    destruct (to_float64_count e He) as [Hse Hre].
    destruct (pearson_term_class _ _ Hso Hro Hse Hre) as [Ht1 Ht2].
    split.
    + by constructor.
    + intros [Hpos Hrest]%Forall_cons. constructor; [|by apply IH2].
      destruct (to_float64_finite e) as (m & ex & Hm); [lia|]. by eapply Ht2.
Qed.

Lemma chisquare_p_value chdtrc (f_obs f_exp : list Z) stat p :
  chdtrc_in_range chdtrc →
  Forall (λ x, 0 ≤ x < 2 ^ 53) f_obs →
  Forall (λ x, 0 ≤ x < 2 ^ 53) f_exp →
  (2 ≤ length f_exp)%nat →
  Scipy.chisquare chdtrc f_obs f_exp = Ok (stat, p) →
  unit_or_nan p = true ∧ (Forall (λ x, 0 < x) f_exp → in_unit_interval p = true).
Proof.
  intros Hlaw Hobs Hexp Hlen. unfold Scipy.chisquare.
  set (n := Nat.max (length f_obs) (length f_exp)).
  destruct (Scipy.broadcast_to f_obs n) as [obs|] eqn:Eo; [|done].
  destruct (Scipy.broadcast_to f_exp n) as [exp|] eqn:Ee; [|done].
  cbv zeta. case_match; [done|]. intros [= <- <-].
  destruct (broadcast_to_Some _ _ _ _ Eo Hobs) as [Hlo Hobs'].
  destruct (broadcast_to_Some _ _ _ _ Ee Hexp) as [Hle Hexp'].
  destruct (pearson_terms_class obs exp Hobs' Hexp') as [Ht1 Ht2].
  set (terms := zip_with _ _ _) in *.
  assert (0 < Z.of_nat (length terms) - 1) as Hdf.
  { subst terms. rewrite length_zip_with, !length_fmap, Hlo, Hle. lia. }
  destruct (chi2_sf_range chdtrc (Scipy.fsum terms) _ Hlaw Hdf) as [Hr1 Hr2].
  destruct (fsum_class terms) as [Hs1 Hs2]. split.
  - by apply Hr1, Hs1.
  - intros Hpos. apply Hr2, Hs2, Ht2.
    unfold Scipy.broadcast_to in Ee. case_decide; [by simplify_eq|].
    destruct f_exp as [|x [|? ?]]; try done. simplify_eq.
    apply Forall_cons in Hpos as [? _]. by apply Forall_replicate.
Qed.

(** An array against itself. *)

Lemma sub_diag_finite (x : float) s m e :
  Prim2SF x = S754_finite s m e → Prim2SF (x - x) = S754_zero false.
Proof.
  intros Hx. rewrite FloatAxioms.sub_spec, Hx. unfold SF64sub, SFsub.
  rewrite Z.sub_diag. reflexivity.
Qed.

Lemma pearson_term_zero (x : float) m e :
  Prim2SF x = S754_finite false m e → ((x - x) * (x - x) / x)%float = 0%float.
Proof.
  intros Hx. apply Prim2SF_inj.
  rewrite FloatAxioms.div_spec, FloatAxioms.mul_spec, (sub_diag_finite x false m e Hx), Hx.
  reflexivity.
Qed.

Lemma minimum_diag (s : float) : Scipy.minimum s s = s.
Proof. unfold Scipy.minimum. by repeat case_match. Qed.

Lemma sums_agree (s : float) :
  PrimFloat.ltb Scipy.rtol (PrimFloat.abs (s - s) / Scipy.minimum s s) = false.
Proof.
  rewrite minimum_diag, FloatAxioms.ltb_spec, FloatAxioms.div_spec.
  rewrite FloatAxioms.abs_spec, FloatAxioms.sub_spec.
  destruct (Prim2SF s) as [sg|sg| |sg m e] eqn:Hs.
  - by destruct sg.
  - by destruct sg.
  - done.
  - rewrite <-Hs, <-FloatAxioms.sub_spec, (sub_diag_finite s sg m e Hs), Hs. by destruct sg.
Qed.

Lemma fsum_zeros (n : nat) : Scipy.fsum (replicate n 0%float) = 0%float.
Proof.
  unfold Scipy.fsum. induction n as [|n IH]; [done|].
  simpl. change (0 + 0)%float with 0%float. done.
Qed.

Lemma pearson_terms_zero (xs : list Z) :
  Forall (λ x, 0 < x < 2 ^ 53) xs →
  zip_with (λ o e, ((o - e) * (o - e) / e)%float)
           (Scipy.to_float64 <$> xs) (Scipy.to_float64 <$> xs)
  = replicate (length xs) 0%float.
Proof.
  induction 1 as [|x xs Hx _ IH]; [done|]. csimpl. rewrite IH. f_equal.
  destruct (to_float64_finite x Hx) as (m & e & Hm). by eapply pearson_term_zero.
Qed.

Lemma chisquare_identical chdtrc (xs : list Z) :
  Forall (λ x, 0 < x < 2 ^ 53) xs → (2 ≤ length xs)%nat →
  Scipy.chisquare chdtrc xs xs = Ok (0%float, 1%float).
Proof.
  intros Hxs Hlen. unfold Scipy.chisquare.
  rewrite Nat.max_id. unfold Scipy.broadcast_to. rewrite decide_True by done.
  cbv zeta. rewrite sums_agree, pearson_terms_zero by done.
  rewrite fsum_zeros, length_replicate. unfold Scipy.chi2_sf.
  replace (Z.of_nat (length xs) - 1 <=? 0) with false by (symmetry; apply Z.leb_gt; lia).
  reflexivity.
Qed.

(** Integers below 2^53 and their sums, differences and quotients. *)

Lemma iter_xO_value p k : Z.pos (Pos.iter xO p k) = Z.pos p * 2 ^ Z.pos k.
Proof.
  induction k as [|k IH] using Pos.peano_ind.
  - simpl. lia.
  - rewrite Pos.iter_succ, Pos2Z.inj_succ, Z.pow_succ_r by lia.
    rewrite Pos2Z.inj_xO, IH. lia.
Qed.

Lemma shl_value p k : 0 ≤ k → Z.pos (shl p k) = Z.pos p * 2 ^ k.
Proof.
  intros Hk. destruct k as [|j|j]; simpl; [lia| |lia]. apply iter_xO_value.
Qed.

Lemma shl_digits p k :
  0 ≤ k → Z.pos (digits2_pos (shl p k)) = Z.pos (digits2_pos p) + k.
Proof.
  intros Hk. destruct k as [|j|j]; simpl; [lia| |lia].
  rewrite digits2_pos_iter_xO. lia.
Qed.

Lemma shl_inj_value p q : Z.pos p = Z.pos q → p = q.
Proof. congruence. Qed.

Lemma shl_shl p a b : 0 ≤ a → 0 ≤ b → shl (shl p a) b = shl p (a + b).
Proof.
  intros Ha Hb. apply shl_inj_value.
  rewrite !shl_value, Z.pow_add_r by lia. lia.
Qed.

Lemma shl_align_shl m e e' : shl_align m e e' = (shl m (e - e'), Z.min e e').
Proof.
  unfold shl_align, shl.
  destruct (e' - e) as [|d|d] eqn:Hd; destruct (e - e') as [|d'|d'] eqn:Hd';
    try lia; f_equal; try lia.
  f_equal. lia.
Qed.

Lemma digits2_pos_upper p : Z.pos p < 2 ^ Z.pos (digits2_pos p).
Proof.
  induction p as [p IH|p IH|]; simpl digits2_pos.
  - rewrite Pos2Z.inj_succ, Z.pow_succ_r by lia. lia.
  - rewrite Pos2Z.inj_succ, Z.pow_succ_r by lia. lia.
  - simpl. lia.
Qed.

Lemma digits2_pos_le p k : 0 ≤ k → Z.pos p < 2 ^ k → Z.pos (digits2_pos p) ≤ k.
Proof.
  intros Hk Hp. pose proof (digits2_pos_lower p) as Hl.
  destruct (Z_le_gt_dec (Z.pos (digits2_pos p)) k) as [|Hgt]; [done|].
  exfalso. assert (2 ^ k ≤ 2 ^ (Z.pos (digits2_pos p) - 1)).
  { apply Z.pow_le_mono_r; lia. }
  lia.
Qed.

(** Shifting right what was shifted left loses nothing. *)
Lemma iter_pos_iter {A} (f : A → A) n x : SpecFloat.iter_pos f n x = Pos.iter f x n.
Proof.
  revert x. induction n as [n IH|n IH|]; intros x; simpl.
  - by rewrite !IH, !Pos.iter_swap.
  - by rewrite !IH.
  - done.
Qed.

Lemma shr_exact q j :
  SpecFloat.iter_pos shr_1 j
    {| shr_m := Z.pos (Pos.iter xO q j); shr_r := false; shr_s := false |}
  = {| shr_m := Z.pos q; shr_r := false; shr_s := false |}.
Proof.
  rewrite iter_pos_iter. induction j as [|j IH] using Pos.peano_ind.
  - done.
  - rewrite Pos.iter_succ_r, (Pos.iter_succ _ _ xO). simpl. apply IH.
Qed.

(** The second rounding step leaves a mantissa of 53 digits alone. *)
Lemma round_finish s q e :
  digits2_pos q = 53%positive → -1074 ≤ e ≤ 971 →
  (let '(mrs'', e'') := shr_fexp prec emax (Z.pos q) e loc_Exact in
   match shr_m mrs'' with
   | 0 => S754_zero s
   | Z.pos m => if e'' <=? emax - prec then S754_finite s m e'' else S754_infinity s
   | Z.neg _ => S754_nan
   end) = S754_finite s q e.
Proof.
  intros Hd He. unfold shr_fexp, Zdigits2. rewrite Hd.
  assert (fexp prec emax (53 + e) - e = 0) as ->.
  { unfold fexp, SpecFloat.emin, prec, emax. lia. }
  cbn [shr shr_record_of_loc shr_m].
  replace (e <=? emax - prec) with true; [done|].
  symmetry. apply Z.leb_le. unfold emax, prec. lia.
Qed.

(** Rounding a mantissa and exponent that denote an integer below 2^53
    gives that integer's canonical representation. *)
Lemma binary_round_exact s pm e pn :
  Z.pos pn < 2 ^ 53 → -52 ≤ e ≤ 0 → Z.pos pm = Z.pos pn * 2 ^ (- e) →
  binary_round prec emax s pm e
  = S754_finite s (canonical_mantissa pn) (canonical_exponent pn).
Proof.
  intros Hn He Hm.
  pose proof (digits2_pos_le pn 53 ltac:(lia) Hn) as Hd.
  assert (pm = shl pn (- e)) as ->.
  { apply shl_inj_value. rewrite shl_value by lia. done. }
  unfold binary_round, canonical_mantissa, canonical_exponent.
  rewrite shl_digits by lia.
  set (d := Z.pos (digits2_pos pn)) in *.
  assert (fexp prec emax (d + - e + e) = d - 53) as ->.
  { unfold fexp, SpecFloat.emin, prec, emax. lia. }
  rewrite shl_align_shl.
  destruct (Z_le_gt_dec (d - 53) e) as [Hle|Hgt].
  - (* shifted left to 53 digits *)
    rewrite shl_shl by lia.
    replace (- e + (e - (d - 53))) with (53 - d) by lia.
    rewrite Z.min_r by lia.
    apply binary_round_aux_canonical; [|lia].
    apply Pos2Z.inj. rewrite shl_digits by lia. lia.
  - (* already longer than 53 digits: shifted right, exactly *)
    replace (e - (d - 53)) with (Z.neg (Z.to_pos (d - 53 - e))) by lia.
    simpl shl at 1. rewrite Z.min_l by lia.
    unfold binary_round_aux.
    replace (shr_fexp prec emax (Z.pos (shl pn (- e))) e loc_Exact)
      with ({| shr_m := Z.pos (shl pn (53 - d)); shr_r := false; shr_s := false |}, d - 53).
    { cbn [shr_m loc_of_shr_record round_nearest_even].
      apply round_finish; [|lia].
      apply Pos2Z.inj. rewrite shl_digits by lia. lia. }
    unfold shr_fexp, Zdigits2. rewrite shl_digits by lia. fold d.
    assert (fexp prec emax (d + - e + e) - e = Z.pos (Z.to_pos (d - 53 - e))) as ->.
    { unfold fexp, SpecFloat.emin, prec, emax. lia. }
    cbn [shr shr_record_of_loc].
    replace (shl pn (- e)) with (Pos.iter xO (shl pn (53 - d)) (Z.to_pos (d - 53 - e))).
    { rewrite shr_exact. f_equal. lia. }
    apply shl_inj_value. rewrite iter_xO_value, !shl_value by lia.
    rewrite <-Z.mul_assoc, <-Z.pow_add_r by lia. do 2 f_equal. lia.
Qed.

Lemma canonical_exponent_range p :
  Z.pos p < 2 ^ 53 → -52 ≤ canonical_exponent p ≤ 0.
Proof.
  intros Hp. pose proof (digits2_pos_le p 53 ltac:(lia) Hp).
  unfold canonical_exponent. lia.
Qed.

Lemma canonical_mantissa_value p :
  Z.pos p < 2 ^ 53 →
  Z.pos (canonical_mantissa p) = Z.pos p * 2 ^ (- canonical_exponent p).
Proof.
  intros Hp. pose proof (canonical_exponent_range p Hp).
  unfold canonical_mantissa, canonical_exponent in *.
  rewrite shl_value by lia. do 2 f_equal. lia.
Qed.

Lemma canonical_mantissa_digits p :
  Z.pos p < 2 ^ 53 → digits2_pos (canonical_mantissa p) = 53%positive.
Proof.
  intros Hp. pose proof (canonical_exponent_range p Hp).
  unfold canonical_mantissa, canonical_exponent in *.
  apply Pos2Z.inj. rewrite shl_digits by lia. lia.
Qed.

Lemma to_float64_canonical n :
  0 ≤ n < 2 ^ 53 → Prim2SF (Scipy.to_float64 n) = canonical n.
Proof.
  intros Hn. unfold Scipy.to_float64.
  rewrite of_uint63_spec, Uint63.of_Z_spec.
  rewrite Z.mod_small by (change wB with (2 ^ 63); lia).
  destruct n as [|p|p]; [done| |lia]. simpl.
  apply binary_round_exact; [lia|lia|]. simpl. lia.
Qed.

(** Sums and differences of counts are exact. *)
Lemma add_exact a b :
  0 ≤ a → 0 ≤ b → a + b < 2 ^ 53 →
  (Scipy.to_float64 a + Scipy.to_float64 b)%float = Scipy.to_float64 (a + b).
Proof.
  intros Ha Hb Hab. apply Prim2SF_inj.
  rewrite FloatAxioms.add_spec, !to_float64_canonical by lia.
  destruct a as [|pa|pa], b as [|pb|pb]; try lia; try done.
  unfold canonical, SF64add, SFadd. rewrite !shl_align_shl. cbn [fst cond_Zopp].
  pose proof (canonical_exponent_range pa ltac:(lia)) as Hea.
  pose proof (canonical_exponent_range pb ltac:(lia)) as Heb.
  set (ez := Z.min (canonical_exponent pa) (canonical_exponent pb)).
  change (Z.pos ?x + Z.pos ?y) with (Z.pos (x + y)). cbn [binary_normalize].
  change (Z.pos pa + Z.pos pb) with (Z.pos (pa + pb)).
  apply binary_round_exact; [lia|lia|].
  rewrite Pos2Z.inj_add, !shl_value, !canonical_mantissa_value by lia.
  rewrite <-!Z.mul_assoc, <-!Z.pow_add_r by lia.
  replace (- canonical_exponent pa + (canonical_exponent pa - ez)) with (- ez) by lia.
  replace (- canonical_exponent pb + (canonical_exponent pb - ez)) with (- ez) by lia.
  lia.
Qed.

Lemma Zsum_nonneg xs : Forall (λ n, 0 ≤ n) xs → 0 ≤ Zsum xs.
Proof. induction 1; simpl; lia. Qed.

Lemma foldl_add_exact xs acc :
  0 ≤ acc → Forall (λ n, 0 ≤ n) xs → acc + Zsum xs < 2 ^ 53 →
  foldl PrimFloat.add (Scipy.to_float64 acc) (Scipy.to_float64 <$> xs)
  = Scipy.to_float64 (acc + Zsum xs).
Proof.
  revert acc. induction xs as [|x xs IH]; intros acc Hacc Hxs Hsum; simpl in *.
  - by rewrite Z.add_0_r.
  - apply Forall_cons in Hxs as [Hx Hxs].
    pose proof (Zsum_nonneg xs Hxs).
    rewrite add_exact by lia. rewrite IH by (done || lia). f_equal. lia.
Qed.

Lemma fsum_exact xs :
  Forall (λ n, 0 ≤ n) xs → Zsum xs < 2 ^ 53 →
  Scipy.fsum (Scipy.to_float64 <$> xs) = Scipy.to_float64 (Zsum xs).
Proof.
  intros Hxs Hsum. unfold Scipy.fsum. change 0%float with (Scipy.to_float64 0).
  by rewrite foldl_add_exact.
Qed.

Lemma sub_exact a b :
  0 ≤ a < 2 ^ 53 → 0 ≤ b < 2 ^ 53 → a ≠ b →
  PrimFloat.abs (Scipy.to_float64 a - Scipy.to_float64 b) = Scipy.to_float64 (Z.abs (a - b)).
Proof.
  intros Ha Hb Hab. apply Prim2SF_inj.
  rewrite FloatAxioms.abs_spec, FloatAxioms.sub_spec, !to_float64_canonical by lia.
  destruct a as [|pa|pa], b as [|pb|pb]; try lia; try done.
  unfold canonical at 1 2. unfold SF64sub, SFsub. rewrite !shl_align_shl.
  cbn [fst cond_Zopp].
  pose proof (canonical_exponent_range pa ltac:(lia)) as Hea.
  pose proof (canonical_exponent_range pb ltac:(lia)) as Heb.
  set (ez := Z.min (canonical_exponent pa) (canonical_exponent pb)).
  set (ma := shl (canonical_mantissa pa) (canonical_exponent pa - ez)).
  set (mb := shl (canonical_mantissa pb) (canonical_exponent pb - ez)).
  assert (Z.pos ma = Z.pos pa * 2 ^ (- ez)) as Hma.
  { unfold ma. rewrite shl_value, canonical_mantissa_value by lia.
    rewrite <-Z.mul_assoc, <-Z.pow_add_r by lia. do 2 f_equal. lia. }
  assert (Z.pos mb = Z.pos pb * 2 ^ (- ez)) as Hmb.
  { unfold mb. rewrite shl_value, canonical_mantissa_value by lia.
    rewrite <-Z.mul_assoc, <-Z.pow_add_r by lia. do 2 f_equal. lia. }
  assert (0 < 2 ^ (- ez)) as Hpow by (apply Z.pow_pos_nonneg; lia).
  destruct (Z.pos ma - Z.pos mb) as [|pm|pm] eqn:Hm.
  - exfalso. assert (Z.pos pa = Z.pos pb) by nia. congruence.
  - cbn [binary_normalize].
    destruct (Z.abs (Z.pos pa - Z.pos pb)) as [|pn|pn] eqn:Hn; try lia.
    rewrite (binary_round_exact false pm ez pn); [done|lia|lia|]. nia.
  - cbn [binary_normalize].
    destruct (Z.abs (Z.pos pa - Z.pos pb)) as [|pn|pn] eqn:Hn; try lia.
    rewrite (binary_round_exact true pm ez pn); [done|lia|lia|]. nia.
Qed.

(** A right shift divides the mantissa. *)
Lemma shr_1_value mrs : 0 ≤ shr_m mrs → shr_m (shr_1 mrs) = shr_m mrs / 2.
Proof.
  destruct mrs as [[|[p|p|]|p] r s]; simpl; intros Hm; try lia; try done.
  - rewrite Pos2Z.inj_xI. apply (Z.div_unique _ 2 _ 1); lia.
  - rewrite Pos2Z.inj_xO. apply (Z.div_unique _ 2 _ 0); lia.
Qed.

Lemma iter_shr_1_value n mrs :
  0 ≤ shr_m mrs →
  shr_m (SpecFloat.iter_pos shr_1 n mrs) = shr_m mrs / 2 ^ Z.pos n.
Proof.
  rewrite iter_pos_iter. revert mrs.
  induction n as [|n IH] using Pos.peano_ind; intros mrs Hm.
  - simpl. rewrite shr_1_value by done. done.
  - rewrite Pos.iter_succ_r, IH by by apply shr_1_nonneg.
    rewrite shr_1_value, Pos2Z.inj_succ, Z.pow_succ_r by lia.
    rewrite Z.div_div by lia. done.
Qed.

Lemma shr_fexp_lower m e l :
  0 < m → -1021 ≤ e →
  0 < shr_m (shr_fexp prec emax m e l).1 ∧ e ≤ (shr_fexp prec emax m e l).2.
Proof.
  intros Hm He. unfold shr_fexp.
  destruct m as [|p|p]; try lia. simpl Zdigits2.
  set (d := Z.pos (digits2_pos p)).
  assert (fexp prec emax (d + e) - e = d - 53) as ->.
  { unfold fexp, SpecFloat.emin, prec, emax. subst d. lia. }
  assert (shr_m (shr_record_of_loc (Z.pos p) l) = Z.pos p) as Hrec by by destruct l as [|[]].
  unfold shr. destruct (d - 53) as [|n|n] eqn:Hn; simpl; rewrite ?Hrec; try lia.
  rewrite iter_shr_1_value, Hrec by lia. split; [|lia].
  apply Z.div_str_pos. split; [lia|].
  pose proof (digits2_pos_lower p). fold d in H.
  assert (2 ^ Z.pos n ≤ 2 ^ (d - 1)); [|lia]. apply Z.pow_le_mono_r; lia.
Qed.

Lemma round_nearest_even_lower m l : 0 < m → 0 < round_nearest_even m l.
Proof. intros Hm. destruct l as [|[]]; simpl; try lia. destruct (Z.even m); lia. Qed.

(** Away from underflow, rounding a positive mantissa gives a finite value
    with at least the exponent it started from, or overflows. *)
Lemma binary_round_aux_lower s m e l :
  0 < m → -1021 ≤ e →
  match binary_round_aux prec emax s m e l with
  | S754_finite s' _ e' => s' = s ∧ e ≤ e'
  | S754_infinity s' => s' = s
  | _ => False
  end.
Proof.
  intros Hm He. unfold binary_round_aux.
  destruct (shr_fexp_lower m e l Hm He) as [H1 H1'].
  destruct (shr_fexp prec emax m e l) as [mrs' e']. simpl in H1, H1'.
  destruct (shr_fexp_lower _ e' loc_Exact
              (round_nearest_even_lower _ (loc_of_shr_record mrs') H1)) as [H2 H2']; [lia|].
  destruct (shr_fexp prec emax _ e' loc_Exact) as [mrs'' e'']. simpl in H2, H2'.
  destruct (shr_m mrs''); try lia. destruct (e'' <=? emax - prec); [split; [done|lia]|done].
Qed.

(** The quotient of two canonical positive floats. *)
Lemma div_lower md ed mm em :
  digits2_pos md = 53%positive → digits2_pos mm = 53%positive →
  -1021 ≤ ed - em - 53 →
  match SF64div (S754_finite false md ed) (S754_finite false mm em) with
  | S754_finite s _ e' => s = false ∧ ed - em - 53 ≤ e'
  | S754_infinity s => s = false
  | _ => False
  end.
Proof.
  intros Hd Hm He. unfold SF64div, SFdiv, SFdiv_core_binary, Zdigits2.
  rewrite Hd, Hm.
  assert (Z.min (fexp prec emax (53 + ed - (53 + em))) (ed - em) = ed - em - 53) as ->.
  { unfold fexp, SpecFloat.emin, prec, emax. lia. }
  replace (ed - em - (ed - em - 53)) with 53 by lia. cbv zeta.
  pose proof (digits2_pos_upper mm) as Hmm. rewrite Hm in Hmm.
  assert (0 < Z.shiftl (Z.pos md) 53 / Z.pos mm) as Hq.
  { apply Z.div_str_pos. rewrite Z.shiftl_mul_pow2 by lia. lia. }
  unfold Z.div in Hq.
  destruct (Z.div_eucl (Z.shiftl (Z.pos md) 53) (Z.pos mm)) as [q r].
  simpl xorb. apply binary_round_aux_lower; [done|lia].
Qed.

Lemma Prim2SF_rtol :
  ∃ m, Prim2SF Scipy.rtol = S754_finite false m (-79).
Proof. eexists. vm_compute. reflexivity. Qed.

(** The quotient of a positive count by a count below 2^26 exceeds the
    tolerance. *)
Lemma relative_diff_large d m :
  0 < d < 2 ^ 53 → 0 ≤ m < 2 ^ 26 →
  PrimFloat.ltb Scipy.rtol (Scipy.to_float64 d / Scipy.to_float64 m) = true.
Proof.
  intros Hd Hm. destruct Prim2SF_rtol as [m0 Hr].
  rewrite FloatAxioms.ltb_spec, FloatAxioms.div_spec, Hr, !to_float64_canonical by lia.
  destruct d as [|pd|pd]; try lia. destruct m as [|pm|pm]; try lia; [done|].
  unfold canonical.
  pose proof (canonical_exponent_range pd ltac:(lia)) as Hed.
  pose proof (digits2_pos_le pm 26 ltac:(lia) ltac:(lia)) as Hdm.
  pose proof (div_lower (canonical_mantissa pd) (canonical_exponent pd)
                (canonical_mantissa pm) (canonical_exponent pm)) as Hdiv.
  rewrite !canonical_mantissa_digits in Hdiv by lia.
  unfold canonical_exponent in Hdiv at 1 2. 
  specialize (Hdiv eq_refl eq_refl ltac:(unfold canonical_exponent in *; lia)).
  destruct (SF64div _ _) as [s|s| |s m e]; try done; subst.
  - done.
  - destruct Hdiv as [-> He]. unfold SFltb, SFcompare.
    replace (-79 ?= e) with Lt; [done|].
    symmetry. apply Z.compare_lt_iff. unfold canonical_exponent in *. lia.
Qed.

Lemma broadcast_to_long xs n :
  (2 ≤ length xs)%nat →
  Scipy.broadcast_to xs n = if decide (length xs = n) then Some xs else None.
Proof.
  intros Hlen. unfold Scipy.broadcast_to. case_decide; [done|].
  destruct xs as [|x [|y xs]]; simpl in Hlen; try lia. done.
Qed.

Lemma minimum_cases a b : Scipy.minimum a b = a ∨ Scipy.minimum a b = b.
Proof. unfold Scipy.minimum. repeat case_match; auto. Qed.

(** The model rejects arrays of counts whose sums differ, below 2^26. *)
Lemma chisquare_rejects chdtrc f_obs f_exp :
  (2 ≤ length f_obs)%nat → (2 ≤ length f_exp)%nat →
  Forall (λ n, 0 ≤ n) f_obs → Forall (λ n, 0 ≤ n) f_exp →
  Zsum f_obs < 2 ^ 26 → Zsum f_exp < 2 ^ 26 →
  Zsum f_obs ≠ Zsum f_exp →
  is_ok (Scipy.chisquare chdtrc f_obs f_exp) = false.
Proof.
  intros Hlo Hle Hobs Hexp Hso Hse Hne. unfold Scipy.chisquare.
  rewrite !broadcast_to_long by done.
  repeat case_decide; try done. cbv zeta.
  pose proof (Zsum_nonneg _ Hobs). pose proof (Zsum_nonneg _ Hexp).
  rewrite !fsum_exact by (done || lia).
  rewrite sub_exact by lia.
  destruct (minimum_cases (Scipy.to_float64 (Zsum f_obs)) (Scipy.to_float64 (Zsum f_exp)))
    as [-> | ->]; rewrite relative_diff_large by lia; done.
Qed.

(** Comparisons. *)

Lemma SFcompare_antisym x y :
  SFcompare y x = CompOpp <$> SFcompare x y.
Proof.
  destruct x as [sx|sx| |sx mx ex], y as [sy|sy| |sy my ey]; simpl; try done;
    try (by destruct sx); try (by destruct sy); try (by destruct sx, sy).
  destruct sx, sy; simpl; try done;
      rewrite (Z.compare_antisym ey ex); destruct (ey ?= ex); simpl; try done;
      rewrite <-(Pos.compare_cont_antisym _ _ Eq); simpl; by rewrite ?CompOpp_involutive.
Qed.

Lemma leb_not_ltb (x y : float) :
  PrimFloat.leb x y = true → PrimFloat.ltb y x = false.
Proof.
  rewrite FloatAxioms.leb_spec, FloatAxioms.ltb_spec. unfold SFleb, SFltb.
  rewrite (SFcompare_antisym (Prim2SF x) (Prim2SF y)).
  by destruct (SFcompare (Prim2SF x) (Prim2SF y)) as [[]|].
Qed.

End Float64Facts.

(** The closed examples do not depend on the stand-in for the special
    function: on the frequencies they use, the chi-square routine answers
    the same for every [chdtrc]. *)
Example fixtures_do_not_evaluate_chdtrc (chdtrc : Z → float → float) :
  Forall (λ '(f_obs, f_exp), Scipy.chisquare chdtrc f_obs f_exp = Fixture.chisquare f_obs f_exp)
    [([1; 2; 1], [1; 2; 1]); ([2; 1; 1], [2; 2; 0]); ([2; 2; 0], [2; 2; 0]);
     ([1; 1; 1; 1], [1; 1; 1; 1]); ([1; 2; 1], [1; 1; 1])].
Proof. repeat constructor. Qed.

(** * The detector, run *)

Section Runs.

Variable chisquare : list Z → list Z → result (float * float).
Variable ks_2samp : list Z → list Z → result (float * float).
Variable mean : list Z → float.
Variable read_csv : string → result DataFrame.

Implicit Types (self : DriftDetector) (old new : DataFrame).

Lemma detect_label_drift_run old new self :
  detect_label_drift chisquare old new self =
    match getitem_sentiment old with
    | Raise e => (Raise e, self)
    | Ok old_col =>
      match getitem_sentiment new with
      | Raise e => (Raise e, self)
      | Ok new_col =>
        match chisquare (values (label_distribution new_col))
                        (values (label_distribution old_col)) with
        | Raise e => (Raise e, self)
        | Ok (chi2, p) =>
            (Ok (PrimFloat.ltb p (threshold self)),
             with_metric "label_drift" (MLabel (label_entry old_col new_col chi2 p self)) self)
        end
      end
    end.
Proof.
  unfold detect_label_drift, mbind, Method_bind, call.
  destruct (getitem_sentiment old); [|done].
  destruct (getitem_sentiment new); [|done].
  destruct (chisquare _ _) as [[chi2 p]|]; done.
Qed.

Lemma detect_text_length_drift_run old new self :
  detect_text_length_drift ks_2samp mean old new self =
    match getitem_review old with
    | Raise e => (Raise e, self)
    | Ok old_rev =>
      match getitem_review new with
      | Raise e => (Raise e, self)
      | Ok new_rev =>
        match ks_2samp (str_len old_rev) (str_len new_rev) with
        | Raise e => (Raise e, self)
        | Ok (ks, p) =>
            (Ok (PrimFloat.ltb p (threshold self)),
             with_metric "text_length_drift"
               (MText (text_entry mean old_rev new_rev ks p self)) self)
        end
      end
    end.
Proof.
  unfold detect_text_length_drift, mbind, Method_bind, call.
  destruct (getitem_review old); [|done].
  destruct (getitem_review new); [|done].
  destruct (ks_2samp _ _) as [[ks p]|]; done.
Qed.

Lemma check_drift_run old_path new_path now self :
  check_drift chisquare ks_2samp mean read_csv old_path new_path now self =
    match read_csv old_path with
    | Raise e => (Raise e, self)
    | Ok old =>
      match read_csv new_path with
      | Raise e => (Raise e, self)
      | Ok new =>
        match detect_label_drift chisquare old new self with
        | (Raise e, s1) => (Raise e, s1)
        | (Ok label_drift, s1) =>
          match detect_text_length_drift ks_2samp mean old new s1 with
          | (Raise e, s2) => (Raise e, s2)
          | (Ok text_drift, s2) =>
              (Ok (label_drift || text_drift), checked (label_drift || text_drift) now s2)
          end
        end
      end
    end.
Proof.
  unfold check_drift, mbind, Method_bind, call.
  destruct (read_csv old_path) as [old|]; [|done].
  destruct (read_csv new_path) as [new|]; [|done].
  destruct (detect_label_drift _ _ _ _) as [[lb|] s1]; [|done].
  destruct (detect_text_length_drift _ _ _ _ _) as [[tb|] s2]; done.
Qed.

End Runs.

(** * Aggregation *)

Section Aggregation.

Variable chisquare : list Z → list Z → result (float * float).
Variable ks_2samp : list Z → list Z → result (float * float).
Variable mean : list Z → float.
Variable read_csv : string → result DataFrame.

Implicit Types (self : DriftDetector) (old new : DataFrame).

(** What a test that returned has left in the report. *)
Lemma detect_label_drift_ok old new self b s1 :
  detect_label_drift chisquare old new self = (Ok b, s1) →
  ∃ r, s1 = with_metric "label_drift" (MLabel r) self ∧
       LabelDrift.drift_detected r = b ∧
       b = PrimFloat.ltb (LabelDrift.p_value r) (threshold self).
Proof.
  rewrite detect_label_drift_run.
  destruct (getitem_sentiment old) as [old_col|]; [|done].
  destruct (getitem_sentiment new) as [new_col|]; [|done].
  destruct (chisquare _ _) as [[chi2 p]|]; [|done].
  intros [= <- <-]. by eexists.
Qed.

Lemma detect_text_length_drift_ok old new self b s1 :
  detect_text_length_drift ks_2samp mean old new self = (Ok b, s1) →
  ∃ r, s1 = with_metric "text_length_drift" (MText r) self ∧
       TextLengthDrift.drift_detected r = b ∧
       b = PrimFloat.ltb (TextLengthDrift.p_value r) (threshold self).
Proof.
  rewrite detect_text_length_drift_run.
  destruct (getitem_review old) as [old_rev|]; [|done].
  destruct (getitem_review new) as [new_rev|]; [|done].
  destruct (ks_2samp _ _) as [[ks p]|]; [|done].
  intros [= <- <-]. by eexists.
Qed.

(** A test that raised has left the object as it was. *)
Lemma detect_label_drift_raise old new self e s1 :
  detect_label_drift chisquare old new self = (Raise e, s1) → s1 = self.
Proof.
  rewrite detect_label_drift_run.
  destruct (getitem_sentiment old) as [old_col|]; [|congruence].
  destruct (getitem_sentiment new) as [new_col|]; [|congruence].
  destruct (chisquare _ _) as [[chi2 p]|]; congruence.
Qed.

Lemma detect_text_length_drift_raise old new self e s1 :
  detect_text_length_drift ks_2samp mean old new self = (Raise e, s1) → s1 = self.
Proof.
  rewrite detect_text_length_drift_run.
  destruct (getitem_review old) as [old_rev|]; [|congruence].
  destruct (getitem_review new) as [new_rev|]; [|congruence].
  destruct (ks_2samp _ _) as [[ks p]|]; congruence.
Qed.

(** C1: whenever the two tests return their verdicts [lb] and [tb],
    [check_drift] returns [lb || tb], stores it in [self.drift_detected]
    and under ["overall_drift"], next to the two test entries whose
    [drift_detected] fields are [lb] and [tb]. The booleans are
    arbitrary, so all four combinations are covered. *)
Theorem check_drift_overall_or old_path new_path now self old new lb tb s1 s2 :
  read_csv old_path = Ok old →
  read_csv new_path = Ok new →
  detect_label_drift chisquare old new self = (Ok lb, s1) →
  detect_text_length_drift ks_2samp mean old new s1 = (Ok tb, s2) →
  ∃ s3 rl rt,
    check_drift chisquare ks_2samp mean read_csv old_path new_path now self
      = (Ok (lb || tb), s3) ∧
    drift_detected s3 = lb || tb ∧
    drift_metrics s3 !! "overall_drift" = Some (MBool (lb || tb)) ∧
    drift_metrics s3 !! "label_drift" = Some (MLabel rl) ∧
    LabelDrift.drift_detected rl = lb ∧
    drift_metrics s3 !! "text_length_drift" = Some (MText rt) ∧
    TextLengthDrift.drift_detected rt = tb.
Proof.
  intros Hold Hnew Hl Ht.
  rewrite check_drift_run, Hold, Hnew, Hl, Ht.
  apply detect_label_drift_ok in Hl as (rl & -> & Hrl & _).
  apply detect_text_length_drift_ok in Ht as (rt & -> & Hrt & _).
  exists (checked (lb || tb) now
            (with_metric "text_length_drift" (MText rt)
               (with_metric "label_drift" (MLabel rl) self))), rl, rt.
  split_and!; try done; simpl;
    repeat (rewrite lookup_insert_ne by done); by rewrite lookup_insert_eq.
Qed.

End Aggregation.

Lemma check_drift_overall_or_witness :
  ∃ s3 rl rt,
    Fixture.check_drift "binary.csv" "shifted.csv" "2024-05-01T12:00:00"
        (Fixture.fresh default_threshold) = (Ok (true || false), s3) ∧
    drift_detected s3 = true || false ∧
    drift_metrics s3 !! "overall_drift" = Some (MBool (true || false)) ∧
    drift_metrics s3 !! "label_drift" = Some (MLabel rl) ∧
    LabelDrift.drift_detected rl = true ∧
    drift_metrics s3 !! "text_length_drift" = Some (MText rt) ∧
    TextLengthDrift.drift_detected rt = false.
Proof.
  pose (s0 := Fixture.fresh default_threshold).
  pose (s1 := (Fixture.detect_label_drift Fixture.binary Fixture.shifted s0).2).
  pose (s2 := (Fixture.detect_text_length_drift Fixture.binary Fixture.shifted s1).2).
  apply (check_drift_overall_or Fixture.chisquare Fixture.ks_2samp Pandas.mean
           Fixture.read_csv "binary.csv" "shifted.csv" _ s0
           Fixture.binary Fixture.shifted true false s1 s2);
    vm_compute; reflexivity.
Defined.

(** The four combinations of verdicts, on the fixtures: (label, text) is
    (false, false) and (true, false) at the default threshold, and
    (false, true) and (true, true) at threshold 2. *)
Example check_drift_four_verdicts :
  let verdicts old new thr :=
    let '(r, s) := Fixture.check_drift old new "now" (Fixture.fresh thr) in
    (r,
     match drift_metrics s !! "label_drift", drift_metrics s !! "text_length_drift",
           drift_metrics s !! "overall_drift" with
     | Some (MLabel rl), Some (MText rt), Some (MBool b) =>
         Some (LabelDrift.drift_detected rl, TextLengthDrift.drift_detected rt, b)
     | _, _, _ => None
     end) in
  verdicts "balanced.csv" "balanced2.csv" default_threshold
    = (Ok false, Some (false, false, false)) ∧
  verdicts "binary.csv" "shifted.csv" default_threshold
    = (Ok true, Some (true, false, true)) ∧
  verdicts "binary.csv" "binary.csv" 2%float
    = (Ok true, Some (false, true, true)) ∧
  verdicts "balanced.csv" "balanced2.csv" 2%float
    = (Ok true, Some (true, true, true)).
Proof. vm_compute. done. Qed.

(** * Failure *)

Section Failure.

Variable chisquare : list Z → list Z → result (float * float).
Variable ks_2samp : list Z → list Z → result (float * float).
Variable mean : list Z → float.
Variable read_csv : string → result DataFrame.

Implicit Types (self : DriftDetector) (old new : DataFrame).

(** C3, as the code has it: once both sources are loaded, [check_drift]
    raises [e] exactly when the label test raises [e], and then the
    object is untouched, or when the label test returns and the text test
    raises [e], and then the object holds the label entry of this call
    and nothing else of it. Every failure of a test fails the call; the
    second kind leaves one test result written. *)
Theorem check_drift_failure old_path new_path now self old new e s' :
  read_csv old_path = Ok old →
  read_csv new_path = Ok new →
  check_drift chisquare ks_2samp mean read_csv old_path new_path now self = (Raise e, s')
  ↔ (detect_label_drift chisquare old new self = (Raise e, s') ∧ s' = self)
    ∨ (∃ lb rl,
         detect_label_drift chisquare old new self = (Ok lb, s') ∧
         detect_text_length_drift ks_2samp mean old new s' = (Raise e, s') ∧
         s' = with_metric "label_drift" (MLabel rl) self).
Proof.
  intros Hold Hnew. rewrite check_drift_run, Hold, Hnew.
  destruct (detect_label_drift chisquare old new self) as [[lb|e1] s1] eqn:Hl.
  - apply detect_label_drift_ok in Hl as Hl'. destruct Hl' as (rl & Hs1 & _ & _).
    destruct (detect_text_length_drift ks_2samp mean old new s1) as [[tb|e2] s2] eqn:Ht.
    + split; [done|]. intros [[? _]|(lb' & rl' & Hl' & Ht' & _)]; [done|].
      injection Hl' as _ <-. congruence.
    + apply detect_text_length_drift_raise in Ht as Hs2. subst s2. split.
      * intros [= <- <-]. right. by exists lb, rl.
      * intros [[? _]|(lb' & rl' & Hl' & Ht' & _)]; [done|].
        injection Hl' as _ <-. congruence.
  - apply detect_label_drift_raise in Hl as Hs1. subst s1. split.
    + intros [= <- <-]. by left.
    + intros [[[= <-] <-]|(lb & rl & ? & _)]; done.
Qed.

End Failure.

Lemma check_drift_failure_witness :
  let self := Fixture.fresh default_threshold in
  let s' := (Fixture.check_drift "balanced.csv" "no_review.csv" "now" self).2 in
  (Fixture.detect_label_drift Fixture.balanced Fixture.no_review self
     = (Raise (KeyError "review"), s') ∧ s' = self)
  ∨ (∃ lb rl,
       Fixture.detect_label_drift Fixture.balanced Fixture.no_review self = (Ok lb, s') ∧
       Fixture.detect_text_length_drift Fixture.balanced Fixture.no_review s'
         = (Raise (KeyError "review"), s') ∧
       s' = with_metric "label_drift" (MLabel rl) self).
Proof.
  intros self s'.
  apply (proj1 (check_drift_failure Fixture.chisquare Fixture.ks_2samp Pandas.mean
                  Fixture.read_csv "balanced.csv" "no_review.csv" "now" self
                  Fixture.balanced Fixture.no_review (KeyError "review") s'
                  eq_refl eq_refl)).
  vm_compute. reflexivity.
Defined.

(** C3, as stated, fails: the second source lacks the [review] column, the
    call raises, and the report is left with the label test's result and
    without the text test's. *)
Lemma check_drift_partial_report :
  let after := Fixture.check_drift "balanced.csv" "no_review.csv" "now"
                 (Fixture.fresh default_threshold) in
  after.1 = Raise (KeyError "review") ∧
  is_Some (drift_metrics after.2 !! "label_drift") ∧
  drift_metrics after.2 !! "text_length_drift" = None ∧
  drift_metrics after.2 !! "overall_drift" = None.
Proof. vm_compute. split_and!; by eauto. Qed.

(** * Construction *)

(** C5, as stated, fails: 2 is outside (0,1) and the constructor returns a
    detector holding it. *)
Lemma init_accepts_two :
  (PrimFloat.ltb 0 2 && PrimFloat.ltb 2 1 = false) ∧
  __init__ 2 = Ok {| threshold := 2; drift_detected := false; drift_metrics := ∅ |}.
Proof. split; reflexivity. Qed.

(** C5, as the code has it: the constructor never fails. For every
    threshold, NaN and values outside (0,1) included, it returns a detector
    that holds the threshold unchanged, no verdict and an empty report. *)
Theorem init_total (t : float) :
  ∃ d, __init__ t = Ok d ∧
       threshold d = t ∧ drift_detected d = false ∧ drift_metrics d = ∅.
Proof. by eexists. Qed.

(** * The label test and its distributions *)


Section LabelTest.

Variable chisquare : list Z → list Z → result (float * float).

Implicit Types (self : DriftDetector) (old new : DataFrame).

(** C4, as the code has it: a label of the domain without records in the
    reference gets a row with count 0, that 0 is among the expected
    frequencies handed to the chi-square routine, and the test answers
    whatever the routine answers on them: it raises nothing of its own
    and replaces no count. *)
Theorem zero_count_reaches_chisquare old new self old_col new_col k :
  sentiment old = Some old_col →
  sentiment new = Some new_col →
  k ∈ label_domain →
  k ∉ old_col →
  (k, 0) ∈ label_distribution old_col ∧
  0 ∈ values (label_distribution old_col) ∧
  (detect_label_drift chisquare old new self).1 =
    match chisquare (values (label_distribution new_col))
                    (values (label_distribution old_col)) with
    | Ok (_, p) => Ok (PrimFloat.ltb p (threshold self))
    | Raise e => Raise e
    end.
Proof.
  intros Hold Hnew Hk Hn.
  assert ((k, 0) ∈ label_distribution old_col) as Hrow.
  { apply label_distribution_elem. split; [by right|]. by rewrite occurrences_absent. }
  split_and!; [done| |].
  - apply list_elem_of_fmap. by exists (k, 0).
  - rewrite detect_label_drift_run. unfold getitem_sentiment. rewrite Hold, Hnew.
    by destruct (chisquare _ _) as [[chi2 p]|].
Qed.

(** C10: a label that occurs in a data set, inside the domain or not, is
    not rejected and is reported. If the chi-square routine answers
    [(chi2, p)] on the two distributions, the test returns, and the
    distribution it records for each data set has a row for every label
    occurring in it, with the (positive) number of its records. *)
Theorem extra_labels_are_reported old new self old_col new_col chi2 p :
  sentiment old = Some old_col →
  sentiment new = Some new_col →
  chisquare (values (label_distribution new_col))
            (values (label_distribution old_col)) = Ok (chi2, p) →
  ∃ s1 r,
    detect_label_drift chisquare old new self = (Ok (PrimFloat.ltb p (threshold self)), s1) ∧
    drift_metrics s1 !! "label_drift" = Some (MLabel r) ∧
    (∀ l, l ∈ old_col →
       (l, occurrences l old_col) ∈ LabelDrift.old_distribution r ∧
       0 < occurrences l old_col) ∧
    (∀ l, l ∈ new_col →
       (l, occurrences l new_col) ∈ LabelDrift.new_distribution r ∧
       0 < occurrences l new_col).
Proof.
  intros Hold Hnew Hchi.
  rewrite detect_label_drift_run. unfold getitem_sentiment.
  rewrite Hold, Hnew, Hchi. do 2 eexists. split_and!; [done|apply lookup_insert_eq|..];
    simpl; intros l Hl; (split; [|by apply occurrences_present]);
    apply label_distribution_elem; split; auto.
Qed.

End LabelTest.

Lemma zero_count_reaches_chisquare_witness :
  let self := Fixture.fresh default_threshold in
  (2, 0) ∈ label_distribution [0; 0; 1; 1] ∧
  0 ∈ values (label_distribution [0; 0; 1; 1]) ∧
  (Fixture.detect_label_drift Fixture.binary Fixture.shifted self).1 =
    match Fixture.chisquare (values (label_distribution [0; 0; 1; 2]))
                            (values (label_distribution [0; 0; 1; 1])) with
    | Ok (_, p) => Ok (PrimFloat.ltb p (threshold self))
    | Raise e => Raise e
    end.
Proof.
  intros self.
  apply (zero_count_reaches_chisquare Fixture.chisquare Fixture.binary Fixture.shifted
           self [0; 0; 1; 1] [0; 0; 1; 2] 2 eq_refl eq_refl).
  - compute_done.
  - compute_done.
Defined.

(** C4, as stated, fails: the reference has no record labelled 2, and the
    test neither raises nor replaces the zero: the expected frequencies
    [2; 2; 0] go to the chi-square routine as they are, the statistic is
    infinite, and drift is reported. *)
Lemma zero_count_is_neither_rejected_nor_replaced :
  let after := Fixture.detect_label_drift Fixture.binary Fixture.shifted
                 (Fixture.fresh default_threshold) in
  after.1 = Ok true ∧
  drift_metrics after.2 !! "label_drift" =
    Some (MLabel {| LabelDrift.chi2_statistic := infinity;
                    LabelDrift.p_value := 0;
                    LabelDrift.drift_detected := true;
                    LabelDrift.old_distribution := [(0, 2); (1, 2); (2, 0)];
                    LabelDrift.new_distribution := [(0, 2); (1, 1); (2, 1)] |}).
Proof. vm_compute. done. Qed.

Lemma extra_labels_are_reported_witness :
  let self := Fixture.fresh default_threshold in
  ∃ s1 r,
    Fixture.detect_label_drift Fixture.extra Fixture.extra self
      = (Ok (PrimFloat.ltb 1 (threshold self)), s1) ∧
    drift_metrics s1 !! "label_drift" = Some (MLabel r) ∧
    (∀ l, l ∈ [0; 1; 2; 5] →
       (l, occurrences l [0; 1; 2; 5]) ∈ LabelDrift.old_distribution r ∧
       0 < occurrences l [0; 1; 2; 5]) ∧
    (∀ l, l ∈ [0; 1; 2; 5] →
       (l, occurrences l [0; 1; 2; 5]) ∈ LabelDrift.new_distribution r ∧
       0 < occurrences l [0; 1; 2; 5]).
Proof.
  intros self.
  apply (extra_labels_are_reported Fixture.chisquare Fixture.extra Fixture.extra self
           [0; 1; 2; 5] [0; 1; 2; 5] 0%float 1%float eq_refl eq_refl).
  vm_compute. reflexivity.
Defined.

(** Label 5 is outside the domain; it is counted and reported. *)
Example extra_label_in_report :
  let after := Fixture.detect_label_drift Fixture.extra Fixture.extra
                 (Fixture.fresh default_threshold) in
  after.1 = Ok false ∧
  drift_metrics after.2 !! "label_drift" =
    Some (MLabel {| LabelDrift.chi2_statistic := 0;
                    LabelDrift.p_value := 1;
                    LabelDrift.drift_detected := false;
                    LabelDrift.old_distribution := [(0, 1); (1, 1); (2, 1); (5, 1)];
                    LabelDrift.new_distribution := [(0, 1); (1, 1); (2, 1); (5, 1)] |}).
Proof. vm_compute. done. Qed.

(** * Repeating a check *)

Section Idempotence.

Variable chisquare : list Z → list Z → result (float * float).
Variable ks_2samp : list Z → list Z → result (float * float).
Variable mean : list Z → float.
Variable read_csv : string → result DataFrame.

Implicit Types (self : DriftDetector) (old new : DataFrame).

(** Closes the comparison of two reports given as chains of insertions. *)
#[local] Ltac same_entries :=
  unfold checked, with_metric, label_entry, text_entry; simpl; split_and!; try done;
  try (intros key Hkey; rewrite !lookup_insert; repeat case_decide; congruence).

(** C8: a second [check_drift] on the same detector and the same sources
    returns what the first returned (the same boolean, or the same
    exception), leaves [threshold] and [drift_detected] as the first left
    them, and leaves every entry of the report other than ["timestamp"]
    as the first left it: statistics, p-values, distributions, means and
    booleans are the same values. After a check that went through, the
    timestamp is the one of the second call. *)
Theorem check_drift_idempotent old_path new_path t1 t2 self :
  let first := check_drift chisquare ks_2samp mean read_csv old_path new_path t1 self in
  let second := check_drift chisquare ks_2samp mean read_csv old_path new_path t2 first.2 in
  second.1 = first.1 ∧
  threshold second.2 = threshold first.2 ∧
  drift_detected second.2 = drift_detected first.2 ∧
  (∀ key, key ≠ "timestamp" →
     drift_metrics second.2 !! key = drift_metrics first.2 !! key) ∧
  (is_ok first.1 = true → drift_metrics second.2 !! "timestamp" = Some (MStr t2)).
Proof.
  cbv zeta. rewrite !check_drift_run.
  destruct (read_csv old_path) as [old|e]; [|done].
  destruct (read_csv new_path) as [new|e]; [|done].
  rewrite !detect_label_drift_run.
  destruct (getitem_sentiment old) as [old_col|e]; [|done].
  destruct (getitem_sentiment new) as [new_col|e]; [|done].
  destruct (chisquare _ _) as [[chi2 p]|e]; [|done].
  rewrite !detect_text_length_drift_run.
  destruct (getitem_review old) as [old_rev|e]; [|same_entries].
  destruct (getitem_review new) as [new_rev|e]; [|same_entries].
  destruct (ks_2samp _ _) as [[ks pk]|e]; [|same_entries].
  same_entries. intros _. apply lookup_insert_eq.
Qed.

End Idempotence.

(** * Data sets of different sizes *)

Section Sizes.

Variable chdtrc : Z → float → float.
Variable ks_2samp : list Z → list Z → result (float * float).
Variable mean : list Z → float.
Variable read_csv : string → result DataFrame.

Implicit Types (self : DriftDetector) (old new : DataFrame).

(** C9, as the code has it: for data sets of fewer than 2^26 records with
    different numbers of records, the label test with scipy's chi-square
    routine raises a [ValueError], and so does [check_drift]; the object
    is left as it was. Nothing in the detector asks for equal sizes: the
    sums the routine compares are the numbers of records, because the
    distributions count every record once. The routine compares the sums
    up to a relative tolerance, so the bound is needed. *)
Theorem unequal_sizes_fail old_path new_path now self old new old_col new_col :
  read_csv old_path = Ok old →
  read_csv new_path = Ok new →
  sentiment old = Some old_col →
  sentiment new = Some new_col →
  Z.of_nat (length old_col) < 2 ^ 26 →
  Z.of_nat (length new_col) < 2 ^ 26 →
  length old_col ≠ length new_col →
  ∃ msg,
    detect_label_drift (Scipy.chisquare chdtrc) old new self
      = (Raise (ValueError msg), self) ∧
    check_drift (Scipy.chisquare chdtrc) ks_2samp mean read_csv old_path new_path now self
      = (Raise (ValueError msg), self).
Proof.
  intros Hold Hnew Hoc Hnc Hlo Hln Hlen.
  rewrite check_drift_run, Hold, Hnew, detect_label_drift_run.
  unfold getitem_sentiment. rewrite Hoc, Hnc.
  pose proof (chisquare_rejects chdtrc (values (label_distribution new_col))
                (values (label_distribution old_col))) as Hrej.
  rewrite !label_distribution_sum in Hrej.
  assert (∃ msg, Scipy.chisquare chdtrc (values (label_distribution new_col))
                   (values (label_distribution old_col)) = Raise (ValueError msg))
    as [msg ->]; [|by exists msg].
  revert Hrej. unfold Scipy.chisquare.
  destruct (Scipy.broadcast_to _ _); [|by eexists].
  destruct (Scipy.broadcast_to _ _); [|by eexists].
  cbv zeta. case_match; [by eexists|].
  intros Hrej. discriminate Hrej; try lia.
  - pose proof (label_distribution_length new_col). lia.
  - pose proof (label_distribution_length old_col). lia.
  - eapply Forall_impl; [apply label_distribution_values|]. simpl. lia.
  - eapply Forall_impl; [apply label_distribution_values|]. simpl. lia.
Qed.

End Sizes.

Lemma unequal_sizes_fail_witness :
  ∃ msg,
    Fixture.detect_label_drift Fixture.short Fixture.balanced
        (Fixture.fresh default_threshold)
      = (Raise (ValueError msg), Fixture.fresh default_threshold) ∧
    Fixture.check_drift "short.csv" "balanced.csv" "now" (Fixture.fresh default_threshold)
      = (Raise (ValueError msg), Fixture.fresh default_threshold).
Proof.
  apply (unequal_sizes_fail Fixture.chdtrc Fixture.ks_2samp Pandas.mean
           Fixture.read_csv "short.csv" "balanced.csv" "now"
           (Fixture.fresh default_threshold)
           Fixture.short Fixture.balanced [0; 1; 2] [0; 1; 2; 1]).
  - reflexivity.
  - reflexivity.
  - reflexivity.
  - reflexivity.
  - simpl. lia.
  - simpl. lia.
  - simpl. lia.
Defined.

(** Three records against four, with the tolerance of the library's own
    comparison of the sums. *)
Example unequal_sizes_rejected :
  (Fixture.check_drift "short.csv" "balanced.csv" "now" (Fixture.fresh default_threshold)).1
  = Raise Scipy.sums_disagree.
Proof. vm_compute. done. Qed.

(** * P-values and verdicts *)

Section Verdicts.

Variable chdtrc : Z → float → float.

Implicit Types (self : DriftDetector) (old new : DataFrame).

(** The frequencies handed to the chi-square routine are counts of
    records. *)
Lemma label_distribution_counts_small col :
  Z.of_nat (length col) < 2 ^ 53 →
  Forall (λ x, 0 ≤ x < 2 ^ 53) (values (label_distribution col)).
Proof.
  intros Hlen. eapply Forall_impl; [apply label_distribution_values|].
  simpl. intros n Hn. lia.
Qed.

(** C6, as the code has it: when the two data sets have the same number of
    records for every label, every label of the domain occurs, and there
    are fewer than 2^53 records, the label test records statistic 0 and
    p-value 1, and [drift_detected = (1 < threshold)]: false for every
    threshold up to 1. *)
Theorem identical_distributions_no_drift old new self old_col new_col :
  sentiment old = Some old_col →
  sentiment new = Some new_col →
  (∀ k, occurrences k old_col = occurrences k new_col) →
  Forall (λ k, k ∈ old_col) label_domain →
  Z.of_nat (length old_col) < 2 ^ 53 →
  ∃ s1 r,
    detect_label_drift (Scipy.chisquare chdtrc) old new self
      = (Ok (PrimFloat.ltb 1 (threshold self)), s1) ∧
    drift_metrics s1 !! "label_drift" = Some (MLabel r) ∧
    LabelDrift.chi2_statistic r = 0%float ∧
    LabelDrift.p_value r = 1%float ∧
    LabelDrift.drift_detected r = PrimFloat.ltb 1 (threshold self) ∧
    (PrimFloat.leb (threshold self) 1 = true → LabelDrift.drift_detected r = false).
Proof.
  intros Hold Hnew Hocc Hdom Hlen.
  rewrite detect_label_drift_run. unfold getitem_sentiment. rewrite Hold, Hnew.
  rewrite <-(label_distribution_ext old_col new_col Hocc).
  rewrite chisquare_identical.
  - eexists _, (label_entry old_col new_col 0 1 self).
    split_and!; try done; simpl; [apply lookup_insert_eq|].
    apply leb_not_ltb.
  - pose proof (label_distribution_values old_col) as Hb.
    pose proof (label_distribution_values_positive old_col Hdom) as Hp.
    rewrite Forall_forall in Hb, Hp. apply Forall_forall. intros n Hn.
    specialize (Hb n Hn). specialize (Hp n Hn). lia.
  - pose proof (label_distribution_length old_col). lia.
Qed.

End Verdicts.

Lemma identical_distributions_no_drift_witness :
  let self := Fixture.fresh default_threshold in
  ∃ s1 r,
    Fixture.detect_label_drift Fixture.balanced Fixture.balanced' self
      = (Ok (PrimFloat.ltb 1 (threshold self)), s1) ∧
    drift_metrics s1 !! "label_drift" = Some (MLabel r) ∧
    LabelDrift.chi2_statistic r = 0%float ∧
    LabelDrift.p_value r = 1%float ∧
    LabelDrift.drift_detected r = PrimFloat.ltb 1 (threshold self) ∧
    (PrimFloat.leb (threshold self) 1 = true → LabelDrift.drift_detected r = false).
Proof.
  intros self.
  apply (identical_distributions_no_drift Fixture.chdtrc
           Fixture.balanced Fixture.balanced' self [0; 1; 2; 1] [1; 2; 1; 0]).
  - reflexivity.
  - reflexivity.
  - intros k. unfold occurrences. rewrite !filter_cons, !filter_nil.
    repeat case_decide; simpl; lia.
  - compute_done.
  - simpl. lia.
Defined.

(** C6, as stated, fails: the two data sets have two records labelled 0,
    two labelled 1 and none labelled 2, and the statistic and the p-value
    recorded are NaN, neither 0 nor 1. *)
Lemma identical_distributions_nan :
  let after := Fixture.detect_label_drift Fixture.binary Fixture.binary'
                 (Fixture.fresh default_threshold) in
  (∀ k, occurrences k [0; 0; 1; 1] = occurrences k [1; 0; 1; 0]) ∧
  ∃ r, drift_metrics after.2 !! "label_drift" = Some (MLabel r) ∧
       LabelDrift.old_distribution r = [(0, 2); (1, 2); (2, 0)] ∧
       LabelDrift.new_distribution r = [(0, 2); (1, 2); (2, 0)] ∧
       PrimFloat.eqb (LabelDrift.chi2_statistic r) 0 = false ∧
       PrimFloat.eqb (LabelDrift.p_value r) 1 = false.
Proof.
  split.
  - intros k. unfold occurrences. rewrite !filter_cons, !filter_nil.
    repeat case_decide; simpl; lia.
  - vm_compute. eexists. split_and!; reflexivity.
Qed.

(** With a threshold above 1, which the constructor accepts, identical
    distributions are reported as drift. *)
Example identical_distributions_threshold_two :
  (Fixture.detect_label_drift Fixture.balanced Fixture.balanced' (Fixture.fresh 2)).1
  = Ok true.
Proof. vm_compute. done. Qed.

(** * The categories of the label test *)

Section CategoryFacts.

Implicit Types (col : list Z) (k : Z).

Lemma series_rows (s : Series) (f : Z → Z) :
  (∀ k n, (k, n) ∈ s → n = f k) → s = (λ k, (k, f k)) <$> index s.
Proof.
  unfold index. induction s as [|[k n] s IH]; intros H; [done|].
  csimpl. rewrite <- IH.
  - by rewrite (H k n) at 1 by left.
  - intros k' n' Hin. apply H. by right.
Qed.

Lemma label_distribution_rows col :
  label_distribution col = (λ k, (k, occurrences k col)) <$> categories col.
Proof.
  apply series_rows. intros k n Hin. by apply label_distribution_elem in Hin as [_ ->].
Qed.

Lemma label_distribution_values_rows col :
  values (label_distribution col) = (λ k, occurrences k col) <$> categories col.
Proof.
  unfold values. rewrite label_distribution_rows at 1.
  rewrite <- list_fmap_compose. done.
Qed.

Lemma categories_elem col k : k ∈ categories col ↔ k ∈ col ∨ k ∈ label_domain.
Proof.
  unfold categories, index. rewrite list_elem_of_fmap. split.
  - intros [[k' n] [-> Hin]]. by apply label_distribution_elem in Hin as [? _].
  - intros H. exists (k, occurrences k col). split; [done|].
    by apply label_distribution_elem.
Qed.

Lemma categories_sorted col : StronglySorted Z.lt (categories col).
Proof. apply label_distribution_sorted. Qed.

Lemma strictly_sorted_unique (l1 l2 : list Z) :
  StronglySorted Z.lt l1 → StronglySorted Z.lt l2 →
  (∀ k, k ∈ l1 ↔ k ∈ l2) → l1 = l2.
Proof.
  intros H1. revert l2. induction H1 as [|x l1 H1 IH Hx]; intros l2 H2 Hel.
  - destruct l2 as [|y l2]; [done|].
    pose proof (proj2 (Hel y) (list_elem_of_here _ _)) as Hin. by apply elem_of_nil in Hin.
  - destruct H2 as [|y l2 H2 Hy].
    { pose proof (proj1 (Hel x) (list_elem_of_here _ _)) as Hin. by apply elem_of_nil in Hin. }
    rewrite Forall_forall in Hx, Hy.
    assert (x = y) as <-.
    { pose proof (proj1 (Hel x) (list_elem_of_here _ _)) as Hxin.
      pose proof (proj2 (Hel y) (list_elem_of_here _ _)) as Hyin.
      apply elem_of_cons in Hxin as [?|Hxin]; [done|].
      apply elem_of_cons in Hyin as [?|Hyin]; [done|].
      apply Hy in Hxin. apply Hx in Hyin. lia. }
    f_equal. apply IH; [done|]. intros k. split; intros Hin.
    + pose proof (proj1 (Hel k) (list_elem_of_further _ _ _ Hin)) as Hk.
      apply elem_of_cons in Hk as [->|Hk]; [|done]. apply Hx in Hin. lia.
    + pose proof (proj2 (Hel k) (list_elem_of_further _ _ _ Hin)) as Hk.
      apply elem_of_cons in Hk as [->|Hk]; [|done]. apply Hy in Hin. lia.
Qed.

(** Data sets with the same labels outside the domain have the same
    categories. *)
Lemma categories_ext col1 col2 :
  (∀ k, k ∈ col1 ∨ k ∈ label_domain ↔ k ∈ col2 ∨ k ∈ label_domain) →
  categories col1 = categories col2.
Proof.
  intros H. apply strictly_sorted_unique; [apply categories_sorted..|].
  intros k. by rewrite !categories_elem.
Qed.

Lemma categories_domain col :
  Forall (λ k, k ∈ label_domain) col → categories col = label_domain.
Proof.
  intros H. change (categories col = categories []).
  apply categories_ext. intros k. rewrite Forall_forall in H. split.
  - intros [Hin|Hin]; right; [by apply H|done].
  - intros [Hin|Hin]; [by apply elem_of_nil in Hin|by right].
Qed.

Lemma categories_length col : (3 ≤ length (categories col))%nat.
Proof.
  pose proof (label_distribution_length col) as H.
  unfold categories, index. unfold values in H. by rewrite length_fmap in *.
Qed.

Lemma values_length col :
  length (values (label_distribution col)) = length (categories col).
Proof. unfold values, categories, index. by rewrite !length_fmap. Qed.

Lemma occurrences_Permutation k (col col' : list Z) :
  col ≡ₚ col' → occurrences k col = occurrences k col'.
Proof. intros H. unfold occurrences. by rewrite H. Qed.

End CategoryFacts.

(** * The statistic at its singular points: NaN and infinity *)

Section LabelNumerics.

Variable chdtrc : Z → float → float.

Implicit Types (x y : float) (xs : list float).

Lemma add_nan x : (nan + x)%float = nan ∧ (x + nan)%float = nan.
Proof.
  split; apply Prim2SF_inj; rewrite FloatAxioms.add_spec;
    change (Prim2SF nan) with S754_nan; [done|by destruct (Prim2SF x)].
Qed.

Lemma foldl_add_nan xs : foldl PrimFloat.add nan xs = nan.
Proof.
  induction xs as [|x xs IH]; [done|]. simpl. by rewrite (proj1 (add_nan x)).
Qed.

Lemma fsum_nan xs : nan ∈ xs → Scipy.fsum xs = nan.
Proof.
  unfold Scipy.fsum. generalize 0%float as acc.
  induction xs as [|x xs IH]; intros acc Hin; [by apply elem_of_nil in Hin|].
  simpl. apply elem_of_cons in Hin as [<-|Hin]; [|by apply IH].
  rewrite (proj2 (add_nan acc)). apply foldl_add_nan.
Qed.

Lemma ltb_nan x : PrimFloat.ltb nan x = false ∧ PrimFloat.ltb x nan = false.
Proof.
  rewrite !FloatAxioms.ltb_spec. change (Prim2SF nan) with S754_nan.
  split; [done|]. by destruct (Prim2SF x) as [[]|[]| |[] ? ?].
Qed.

Lemma is_nan_spec x : PrimFloat.is_nan x = true → x = nan.
Proof.
  unfold PrimFloat.is_nan. rewrite FloatAxioms.eqb_spec. intros H.
  apply Prim2SF_inj. change (Prim2SF nan) with S754_nan.
  destruct (Prim2SF x) as [s|s| |s m e]; [by destruct s|by destruct s|done|].
  exfalso. revert H. unfold SFeqb. simpl.
  rewrite Z.compare_refl, Pos.compare_cont_refl. by destruct s.
Qed.

Lemma add_infinity x :
  signed false (Prim2SF x) →
  (infinity + x)%float = infinity ∧ (x + infinity)%float = infinity.
Proof.
  intros Hx. split; apply Prim2SF_inj; rewrite FloatAxioms.add_spec;
    change (Prim2SF infinity) with (S754_infinity false);
    destruct (Prim2SF x) as [s|s| |s m e]; simpl in *; by subst.
Qed.

Lemma foldl_add_infinity xs :
  Forall (λ x, signed false (Prim2SF x)) xs → foldl PrimFloat.add infinity xs = infinity.
Proof.
  induction 1 as [|x xs Hx _ IH]; [done|]. simpl. by rewrite (proj1 (add_infinity x Hx)).
Qed.

Lemma fsum_infinity xs :
  Forall (λ x, signed false (Prim2SF x)) xs → infinity ∈ xs → Scipy.fsum xs = infinity.
Proof.
  unfold Scipy.fsum.
  assert (signed false (Prim2SF 0%float)) as H0 by reflexivity.
  revert H0. generalize 0%float as acc.
  induction xs as [|x xs IH]; intros acc Hacc Hxs Hin; [by apply elem_of_nil in Hin|].
  apply Forall_cons in Hxs as [Hx Hxs]. simpl.
  apply elem_of_cons in Hin as [<-|Hin].
  - rewrite (proj2 (add_infinity acc Hacc)). by apply foldl_add_infinity.
  - apply IH; [|done..]. by apply add_class.
Qed.

(** The term of a category that neither data set has: 0/0. *)
Lemma pearson_term_nan :
  let z := Scipy.to_float64 0 in ((z - z) * (z - z) / z)%float = nan.
Proof. reflexivity. Qed.

(** The term of a category that only the new data set has: a positive
    square over zero. *)
Lemma pearson_term_infinity n :
  0 < n < 2 ^ 53 →
  let o := Scipy.to_float64 n in
  let e := Scipy.to_float64 0 in
  ((o - e) * (o - e) / e)%float = infinity.
Proof.
  intros Hn o e. apply Prim2SF_inj.
  rewrite FloatAxioms.div_spec, FloatAxioms.mul_spec, FloatAxioms.sub_spec.
  subst o e. rewrite to_float64_canonical by lia.
  change (Prim2SF (Scipy.to_float64 0)) with (S754_zero false).
  change (Prim2SF infinity) with (S754_infinity false).
  destruct n as [|p|p]; [lia| |lia]. simpl.
  pose proof (canonical_exponent_range p ltac:(lia)) as He.
  pose proof (binary_round_aux_lower false
    (Z.pos (canonical_mantissa p * canonical_mantissa p))
    (canonical_exponent p + canonical_exponent p) loc_Exact ltac:(lia) ltac:(lia)) as Hsq.
  unfold SF64mul, SFmul.
  destruct (binary_round_aux _ _ _ _ _ _) as [s|s| |s m e]; try done.
  - by subst s.
  - destruct Hsq as [-> _]. done.
Qed.

Lemma chi2_sf_nan df : Scipy.chi2_sf chdtrc nan df = nan.
Proof. reflexivity. Qed.

Lemma chi2_sf_infinity df : 0 < df → Scipy.chi2_sf chdtrc infinity df = 0%float.
Proof.
  intros Hdf. unfold Scipy.chi2_sf.
  replace (df <=? 0) with false by (symmetry; apply Z.leb_gt; lia). reflexivity.
Qed.

(** The routine on two arrays of the same length and the same sum: the
    comparison of the sums passes. *)
Lemma chisquare_equal_sums (f_obs f_exp : list Z) :
  length f_obs = length f_exp →
  Forall (λ n, 0 ≤ n) f_obs → Forall (λ n, 0 ≤ n) f_exp →
  Zsum f_obs = Zsum f_exp → Zsum f_exp < 2 ^ 53 →
  let terms := zip_with (λ o e, ((o - e) * (o - e) / e)%float)
                 (Scipy.to_float64 <$> f_obs) (Scipy.to_float64 <$> f_exp) in
  Scipy.chisquare chdtrc f_obs f_exp =
    Ok (Scipy.fsum terms, Scipy.chi2_sf chdtrc (Scipy.fsum terms) (Z.of_nat (length f_exp) - 1)).
Proof.
  intros Hlen Hobs Hexp Hsum Hsmall terms. unfold Scipy.chisquare.
  rewrite Hlen, Nat.max_id. unfold Scipy.broadcast_to.
  rewrite !decide_True by done. cbv zeta.
  rewrite !fsum_exact by (done || lia). rewrite Hsum, sums_agree.
  fold terms. do 3 f_equal. subst terms.
  rewrite length_zip_with, !length_fmap. lia.
Qed.

Lemma chisquare_on_distributions old_col new_col :
  length (categories old_col) = length (categories new_col) →
  length old_col = length new_col →
  Z.of_nat (length old_col) < 2 ^ 53 →
  let terms := zip_with (λ o e, ((o - e) * (o - e) / e)%float)
                 (Scipy.to_float64 <$> values (label_distribution new_col))
                 (Scipy.to_float64 <$> values (label_distribution old_col)) in
  Scipy.chisquare chdtrc (values (label_distribution new_col))
                         (values (label_distribution old_col)) =
    Ok (Scipy.fsum terms,
        Scipy.chi2_sf chdtrc (Scipy.fsum terms) (Z.of_nat (length (categories old_col)) - 1)).
Proof.
  intros Hcat Hlen Hsmall terms. rewrite <- values_length.
  apply chisquare_equal_sums.
  - by rewrite !values_length.
  - eapply Forall_impl; [apply label_distribution_values|]. simpl. lia.
  - eapply Forall_impl; [apply label_distribution_values|]. simpl. lia.
  - rewrite !label_distribution_sum. lia.
  - rewrite label_distribution_sum. lia.
Qed.

(** The terms of the statistic, category by category, when the two data
    sets have the same categories. *)
Lemma pearson_terms_rows old_col new_col :
  categories old_col = categories new_col →
  zip_with (λ o e, ((o - e) * (o - e) / e)%float)
    (Scipy.to_float64 <$> values (label_distribution new_col))
    (Scipy.to_float64 <$> values (label_distribution old_col))
  = (λ k, let o := Scipy.to_float64 (occurrences k new_col) in
          let e := Scipy.to_float64 (occurrences k old_col) in
          ((o - e) * (o - e) / e)%float) <$> categories new_col.
Proof.
  intros Hcat. rewrite !label_distribution_values_rows, Hcat.
  rewrite <- !list_fmap_compose, zip_with_fmap_l, zip_with_fmap_r, zip_with_diag. done.
Qed.

End LabelNumerics.

(** * What the label test does with a pair of data sets *)

Section LabelOutcome.

Variable chisquare : list Z → list Z → result (float * float).
Variable chdtrc : Z → float → float.

Implicit Types (self : DriftDetector) (old new : DataFrame) (col : list Z).

(** X1: the label test does not depend on the order of the records. If
    the label columns of two pairs of data sets are permutations of each
    other, the test returns the same verdict (or raises the same
    exception) and leaves the same entry in the report: the counts are
    taken per label and sorted by label before the chi-square routine
    sees them. *)
Theorem label_test_ignores_row_order old new old' new' old_col new_col old_col' new_col' self :
  sentiment old = Some old_col → sentiment old' = Some old_col' →
  sentiment new = Some new_col → sentiment new' = Some new_col' →
  old_col ≡ₚ old_col' → new_col ≡ₚ new_col' →
  detect_label_drift chisquare old new self = detect_label_drift chisquare old' new' self.
Proof.
  intros Ho Ho' Hn Hn' Hpo Hpn.
  rewrite !detect_label_drift_run. unfold getitem_sentiment, label_entry.
  rewrite Ho, Ho', Hn, Hn'.
  rewrite (label_distribution_ext old_col old_col')
    by (intros k; by apply occurrences_Permutation).
  rewrite (label_distribution_ext new_col new_col')
    by (intros k; by apply occurrences_Permutation).
  done.
Qed.

(** X2: with scipy's chi-square routine, the label test raises numpy's
    shape error, and leaves the detector as it was, whenever the two data
    sets do not have the same number of categories (distinct labels, the
    three of the domain included): the loop of lines 31-35 fills in the
    domain only, so a label outside it that one data set has and the other
    has not makes the two arrays of counts differ in length. *)
Theorem label_test_category_mismatch old new old_col new_col self :
  sentiment old = Some old_col →
  sentiment new = Some new_col →
  length (categories old_col) ≠ length (categories new_col) →
  detect_label_drift (Scipy.chisquare chdtrc) old new self
    = (Raise Scipy.shape_mismatch, self).
Proof.
  intros Hoc Hnc Hlen.
  rewrite detect_label_drift_run. unfold getitem_sentiment. rewrite Hoc, Hnc.
  unfold Scipy.chisquare.
  pose proof (categories_length old_col). pose proof (categories_length new_col).
  rewrite !broadcast_to_long by (rewrite values_length; lia).
  rewrite !values_length.
  destruct (Nat.max_spec (length (categories new_col)) (length (categories old_col)))
    as [[? ->]|[? ->]].
  - rewrite (decide_False (P := length (categories new_col) = _)) by lia. done.
  - rewrite (decide_False (P := length (categories old_col) = _)) by lia.
    by case_decide.
Qed.

(** X3: with scipy's chi-square routine and data sets of fewer than 2^26
    records that have the same number of categories, the label test
    returns exactly when the two data sets have the same number of
    records. The categories themselves need not be the same: the counts
    are paired by position, not by label. *)
Theorem label_test_returns_iff old new old_col new_col self :
  sentiment old = Some old_col →
  sentiment new = Some new_col →
  length (categories old_col) = length (categories new_col) →
  Z.of_nat (length old_col) < 2 ^ 26 →
  Z.of_nat (length new_col) < 2 ^ 26 →
  is_ok (detect_label_drift (Scipy.chisquare chdtrc) old new self).1 = true ↔
  length old_col = length new_col.
Proof.
  intros Hoc Hnc Hcat Hlo Hln.
  rewrite detect_label_drift_run. unfold getitem_sentiment. rewrite Hoc, Hnc.
  assert (Forall (λ n, 0 ≤ n) (values (label_distribution old_col))) as Hpo.
  { eapply Forall_impl; [apply label_distribution_values|]. simpl. lia. }
  assert (Forall (λ n, 0 ≤ n) (values (label_distribution new_col))) as Hpn.
  { eapply Forall_impl; [apply label_distribution_values|]. simpl. lia. }
  pose proof (categories_length old_col). pose proof (categories_length new_col).
  destruct (decide (length old_col = length new_col)) as [Heq|Hne].
  - rewrite chisquare_on_distributions by (done || lia). done.
  - pose proof (chisquare_rejects chdtrc (values (label_distribution new_col))
                  (values (label_distribution old_col))) as Hrej.
    rewrite !values_length, !label_distribution_sum in Hrej.
    destruct (Scipy.chisquare _ _ _) as [[chi2 p]|e]; [|done].
    discriminate Hrej; try done; lia.
Qed.

(** X4: a blind spot of the label test. With scipy's chi-square routine,
    if some label of the domain occurs in neither data set (the data sets
    having the same categories and the same number of records), the
    statistic and the p-value are NaN and the test answers "no drift",
    for every threshold and however the other labels are distributed: the
    zero the loop fills in on both sides gives the term 0/0. *)
Theorem label_test_blind_spot old new old_col new_col k self :
  sentiment old = Some old_col →
  sentiment new = Some new_col →
  categories old_col = categories new_col →
  length old_col = length new_col →
  Z.of_nat (length old_col) < 2 ^ 53 →
  k ∈ label_domain → k ∉ old_col → k ∉ new_col →
  detect_label_drift (Scipy.chisquare chdtrc) old new self =
    (Ok false,
     with_metric "label_drift" (MLabel {|
       LabelDrift.chi2_statistic := nan;
       LabelDrift.p_value := nan;
       LabelDrift.drift_detected := false;
       LabelDrift.old_distribution := label_distribution old_col;
       LabelDrift.new_distribution := label_distribution new_col |}) self).
Proof.
  intros Hoc Hnc Hcat Hlen Hsmall Hk Hko Hkn.
  rewrite detect_label_drift_run. unfold getitem_sentiment. rewrite Hoc, Hnc.
  rewrite chisquare_on_distributions by (done || by rewrite Hcat).
  rewrite pearson_terms_rows by done.
  rewrite (fsum_nan (_ <$> _)).
  - unfold label_entry. rewrite chi2_sf_nan, (proj1 (ltb_nan _)). done.
  - apply list_elem_of_fmap. exists k. split.
    + rewrite !occurrences_absent by done. reflexivity.
    + apply categories_elem. by right.
Qed.

(** X5: a label that only the new data set has. With scipy's chi-square
    routine, if some label occurs in the new data set and not in the old
    one, and every label of the domain occurs in at least one of the two
    (same categories, same number of records), the statistic is infinite
    and the p-value is 0: the test reports drift for every positive
    threshold, however few records carry the new label. *)
Theorem label_test_new_category old new old_col new_col k self :
  sentiment old = Some old_col →
  sentiment new = Some new_col →
  categories old_col = categories new_col →
  length old_col = length new_col →
  Z.of_nat (length old_col) < 2 ^ 53 →
  (∀ l, l ∈ label_domain → l ∈ old_col ∨ l ∈ new_col) →
  k ∈ new_col → k ∉ old_col →
  detect_label_drift (Scipy.chisquare chdtrc) old new self =
    (Ok (PrimFloat.ltb 0 (threshold self)),
     with_metric "label_drift"
       (MLabel (label_entry old_col new_col infinity 0 self)) self).
Proof.
  intros Hoc Hnc Hcat Hlen Hsmall Hdom Hkn Hko.
  rewrite detect_label_drift_run. unfold getitem_sentiment. rewrite Hoc, Hnc.
  rewrite chisquare_on_distributions by (done || by rewrite Hcat).
  rewrite pearson_terms_rows by done.
  assert (∀ l, 0 ≤ occurrences l old_col < 2 ^ 53) as Hro.
  { intros l. pose proof (occurrences_nonneg l old_col).
    pose proof (occurrences_le_length l old_col). lia. }
  assert (∀ l, 0 ≤ occurrences l new_col < 2 ^ 53) as Hrn.
  { intros l. pose proof (occurrences_nonneg l new_col).
    pose proof (occurrences_le_length l new_col). lia. }
  rewrite (fsum_infinity (_ <$> _)).
  - rewrite chi2_sf_infinity; [done|]. pose proof (categories_length old_col). lia.
  - apply Forall_fmap, Forall_forall. intros l Hl. simpl.
    destruct (decide (l ∈ old_col)) as [Hin|Hout].
    + destruct (to_float64_count _ (Hrn l)) as [Hso Hr].
      destruct (to_float64_count _ (Hro l)) as [Hse Hre].
      destruct (pearson_term_class _ _ Hso Hr Hse Hre) as [_ Hfin].
      destruct (to_float64_finite (occurrences l old_col)) as (m & e & Hm).
      { pose proof (occurrences_present l old_col Hin). specialize (Hro l). lia. }
      by eapply Hfin.
    + assert (l ∈ new_col) as Hin.
      { apply categories_elem in Hl as [?|Hd]; [done|]. by destruct (Hdom l Hd). }
      rewrite (occurrences_absent l old_col) by done.
      rewrite pearson_term_infinity; [done|].
      pose proof (occurrences_present l new_col Hin). specialize (Hrn l). lia.
  - apply list_elem_of_fmap. exists k. split.
    + rewrite (occurrences_absent k old_col) by done.
      rewrite pearson_term_infinity; [done|].
      pose proof (occurrences_present k new_col Hkn). specialize (Hrn k). lia.
    + apply categories_elem. by left.
Qed.

End LabelOutcome.

Lemma label_test_ignores_row_order_witness :
  Fixture.detect_label_drift Fixture.balanced Fixture.binary
      (Fixture.fresh default_threshold)
  = Fixture.detect_label_drift Fixture.balanced' Fixture.binary'
      (Fixture.fresh default_threshold).
Proof.
  apply (label_test_ignores_row_order Fixture.chisquare
           Fixture.balanced Fixture.binary Fixture.balanced' Fixture.binary'
           [0; 1; 2; 1] [0; 0; 1; 1] [1; 2; 1; 0] [1; 0; 1; 0]
           (Fixture.fresh default_threshold)); try reflexivity.
  - apply (Permutation_cons_append [1; 2; 1] 0).
  - etrans; [apply perm_skip, perm_swap|].
    etrans; [apply perm_swap|].
    do 2 apply perm_skip. apply perm_swap.
Defined.

Lemma label_test_category_mismatch_witness :
  Fixture.detect_label_drift Fixture.balanced Fixture.extra (Fixture.fresh default_threshold)
  = (Raise Scipy.shape_mismatch, Fixture.fresh default_threshold).
Proof.
  apply (label_test_category_mismatch Fixture.chdtrc Fixture.balanced Fixture.extra
           [0; 1; 2; 1] [0; 1; 2; 5] (Fixture.fresh default_threshold)).
  - reflexivity.
  - reflexivity.
  - vm_compute. lia.
Defined.

Lemma label_test_returns_iff_witness :
  is_ok (Fixture.detect_label_drift Fixture.extra Standin.other_extra
           (Fixture.fresh default_threshold)).1 = true ↔
  length [0; 1; 2; 5] = length [0; 1; 2; 7].
Proof.
  apply (label_test_returns_iff Fixture.chdtrc Fixture.extra Standin.other_extra
           [0; 1; 2; 5] [0; 1; 2; 7] (Fixture.fresh default_threshold)).
  - reflexivity.
  - reflexivity.
  - vm_compute. reflexivity.
  - simpl. lia.
  - simpl. lia.
Defined.

Lemma label_test_blind_spot_witness :
  Fixture.detect_label_drift Standin.negative_only Standin.neutral_only
      (Fixture.fresh default_threshold)
  = (Ok false,
     with_metric "label_drift" (MLabel {|
       LabelDrift.chi2_statistic := nan;
       LabelDrift.p_value := nan;
       LabelDrift.drift_detected := false;
       LabelDrift.old_distribution := [(0, 4); (1, 0); (2, 0)];
       LabelDrift.new_distribution := [(0, 0); (1, 4); (2, 0)] |})
       (Fixture.fresh default_threshold)).
Proof.
  apply (label_test_blind_spot Fixture.chdtrc Standin.negative_only Standin.neutral_only
           [0; 0; 0; 0] [1; 1; 1; 1] 2 (Fixture.fresh default_threshold)).
  - reflexivity.
  - reflexivity.
  - vm_compute. reflexivity.
  - reflexivity.
  - simpl. lia.
  - compute_done.
  - compute_done.
  - compute_done.
Defined.

Lemma label_test_new_category_witness :
  Fixture.detect_label_drift Fixture.binary Fixture.shifted (Fixture.fresh default_threshold)
  = (Ok true,
     with_metric "label_drift" (MLabel {|
       LabelDrift.chi2_statistic := infinity;
       LabelDrift.p_value := 0;
       LabelDrift.drift_detected := true;
       LabelDrift.old_distribution := [(0, 2); (1, 2); (2, 0)];
       LabelDrift.new_distribution := [(0, 2); (1, 1); (2, 1)] |})
       (Fixture.fresh default_threshold)).
Proof.
  apply (label_test_new_category Fixture.chdtrc Fixture.binary Fixture.shifted
           [0; 0; 1; 1] [0; 0; 1; 2] 2 (Fixture.fresh default_threshold)).
  - reflexivity.
  - reflexivity.
  - vm_compute. reflexivity.
  - reflexivity.
  - simpl. lia.
  - intros l Hl. unfold label_domain in Hl.
    rewrite !elem_of_cons, elem_of_nil in Hl.
    destruct Hl as [->|[->|[->|[]]]]; [left|left|right]; compute_done.
  - compute_done.
  - compute_done.
Defined.

(** * The range of the p-values *)

Section PValues.

Variable chdtrc : Z → float → float.
Variable ks_2samp : list Z → list Z → result (float * float).
Variable mean : list Z → float.

Implicit Types (self : DriftDetector) (old new : DataFrame).

(** Without a category that is empty in both arrays no term of the
    statistic is NaN: a term over a positive expected count is finite or
    infinite and not negative, a positive count over zero is infinite. *)
Lemma pearson_terms_signed (f_obs f_exp : list Z) :
  Forall (λ x, 0 ≤ x < 2 ^ 53) f_obs →
  Forall (λ x, 0 ≤ x < 2 ^ 53) f_exp →
  no_empty_category f_obs f_exp →
  Forall (λ x, signed false (Prim2SF x))
    (zip_with (λ o e, ((o - e) * (o - e) / e)%float)
       (Scipy.to_float64 <$> f_obs) (Scipy.to_float64 <$> f_exp)).
Proof.
  intros Hobs Hexp Hcells. induction Hcells as [|o e f_obs f_exp Hoe _ IH]; [constructor|].
  apply Forall_cons in Hobs as [Ho Hobs]. apply Forall_cons in Hexp as [He Hexp].
  csimpl. constructor; [|by apply IH].
  destruct (decide (0 < e)) as [Hpos|Hzero].
  - destruct (to_float64_count o Ho) as [Hso Hro].
    destruct (to_float64_count e He) as [Hse Hre].
    destruct (pearson_term_class _ _ Hso Hro Hse Hre) as [_ Hfin].
    destruct (to_float64_finite e) as (m & ex & Hm); [lia|]. by eapply Hfin.
  - assert (e = 0) as -> by lia.
    rewrite pearson_term_infinity; [done|]. destruct Hoe; lia.
Qed.

Lemma chisquare_p_value_unit (f_obs f_exp : list Z) stat p :
  chdtrc_in_range chdtrc →
  Forall (λ x, 0 ≤ x < 2 ^ 53) f_obs →
  Forall (λ x, 0 ≤ x < 2 ^ 53) f_exp →
  (2 ≤ length f_exp)%nat →
  no_empty_category f_obs f_exp →
  Scipy.chisquare chdtrc f_obs f_exp = Ok (stat, p) →
  in_unit_interval p = true.
Proof.
  intros Hlaw Hobs Hexp Hlen Hcells.
  pose proof (Forall2_length _ _ _ Hcells) as Hsame.
  unfold Scipy.chisquare. rewrite Hsame, Nat.max_id. unfold Scipy.broadcast_to.
  rewrite !decide_True by done. cbv zeta. case_match; [done|]. intros [= <- <-].
  pose proof (pearson_terms_signed f_obs f_exp Hobs Hexp Hcells) as Hterms.
  set (terms := zip_with _ _ _) in *.
  assert (0 < Z.of_nat (length terms) - 1) as Hdf.
  { subst terms. rewrite length_zip_with, !length_fmap. lia. }
  by apply (chi2_sf_range chdtrc _ _ Hlaw Hdf), fsum_class.
Qed.

(** C2, as the code has it. Let the special function behind the chi-square
    p-value yield probabilities, and let the Kolmogorov-Smirnov routine
    yield a probability for two non-empty samples. For data sets of fewer
    than 2^53 records with non-empty [review] columns, whenever a test
    returns, the entry it recorded has
    [drift_detected = (p_value < threshold)], which is the boolean it
    returned. The p-value of the text test is in [0,1]. The p-value of the
    label test is in [0,1] when no category is empty in both recorded
    distributions (for labels of the domain: when every label of the
    domain occurs in at least one of the two data sets); else it is in
    [0,1] or NaN. *)
Theorem p_value_and_verdict
    old new self self' old_col new_col old_rev new_rev bl s1 bt s2 :
  chdtrc_in_range chdtrc →
  ks_probability ks_2samp →
  sentiment old = Some old_col →
  sentiment new = Some new_col →
  review old = Some old_rev →
  review new = Some new_rev →
  old_rev ≠ [] → new_rev ≠ [] →
  Z.of_nat (length old_col) < 2 ^ 53 →
  Z.of_nat (length new_col) < 2 ^ 53 →
  detect_label_drift (Scipy.chisquare chdtrc) old new self = (Ok bl, s1) →
  detect_text_length_drift ks_2samp mean old new self' = (Ok bt, s2) →
  ∃ rl rt,
    drift_metrics s1 !! "label_drift" = Some (MLabel rl) ∧
    unit_or_nan (LabelDrift.p_value rl) = true ∧
    (no_empty_category (values (LabelDrift.new_distribution rl))
                       (values (LabelDrift.old_distribution rl)) →
       in_unit_interval (LabelDrift.p_value rl) = true) ∧
    LabelDrift.drift_detected rl = PrimFloat.ltb (LabelDrift.p_value rl) (threshold self) ∧
    bl = LabelDrift.drift_detected rl ∧
    drift_metrics s2 !! "text_length_drift" = Some (MText rt) ∧
    in_unit_interval (TextLengthDrift.p_value rt) = true ∧
    TextLengthDrift.drift_detected rt
      = PrimFloat.ltb (TextLengthDrift.p_value rt) (threshold self') ∧
    bt = TextLengthDrift.drift_detected rt.
Proof.
  intros Hchd Hks Hold Hnew Hor Hnr Hoe Hne Hlo Hln.
  rewrite detect_label_drift_run, detect_text_length_drift_run.
  unfold getitem_sentiment, getitem_review. rewrite Hold, Hnew, Hor, Hnr.
  destruct (Scipy.chisquare chdtrc _ _) as [[chi2 p]|] eqn:Hchi; [|done].
  intros [= <- <-].
  destruct (ks_2samp _ _) as [[ks pk]|] eqn:Hk; [|done].
  intros [= <- <-].
  pose proof (label_distribution_length old_col) as Hthree.
  destruct (chisquare_p_value chdtrc _ _ chi2 p Hchd
              (label_distribution_counts_small new_col Hln)
              (label_distribution_counts_small old_col Hlo)) as [Hp1 _]; [lia|done|].
  exists (label_entry old_col new_col chi2 p self),
         (text_entry mean old_rev new_rev ks pk self').
  split_and!; try done; simpl.
  - apply lookup_insert_eq.
  - intros Hcells.
    apply (chisquare_p_value_unit (values (label_distribution new_col))
             (values (label_distribution old_col)) chi2 p Hchd
             (label_distribution_counts_small new_col Hln)
             (label_distribution_counts_small old_col Hlo)); [lia|done|done].
  - apply lookup_insert_eq.
  - apply (Hks (str_len old_rev) (str_len new_rev) ks pk); [| |done].
    + by destruct old_rev.
    + by destruct new_rev.
Qed.

End PValues.

Lemma p_value_and_verdict_witness :
  let self := Fixture.fresh default_threshold in
  ∃ rl rt,
    drift_metrics (Fixture.detect_label_drift Fixture.binary Fixture.shifted self).2
      !! "label_drift" = Some (MLabel rl) ∧
    unit_or_nan (LabelDrift.p_value rl) = true ∧
    (no_empty_category (values (LabelDrift.new_distribution rl))
                       (values (LabelDrift.old_distribution rl)) →
       in_unit_interval (LabelDrift.p_value rl) = true) ∧
    LabelDrift.drift_detected rl = PrimFloat.ltb (LabelDrift.p_value rl) (threshold self) ∧
    true = LabelDrift.drift_detected rl ∧
    drift_metrics (Standin.detect_text_length_drift Fixture.binary Fixture.shifted self).2
      !! "text_length_drift" = Some (MText rt) ∧
    in_unit_interval (TextLengthDrift.p_value rt) = true ∧
    TextLengthDrift.drift_detected rt
      = PrimFloat.ltb (TextLengthDrift.p_value rt) (threshold self) ∧
    false = TextLengthDrift.drift_detected rt.
Proof.
  intros self.
  apply (p_value_and_verdict Fixture.chdtrc Standin.ks_2samp Pandas.mean
           Fixture.binary Fixture.shifted self self [0; 0; 1; 1] [0; 0; 1; 2]
           ["bad"; "poor"; "okay"; "fine"] ["bad"; "poor"; "okay"; "fine"]).
  - intros df x _ _ _. reflexivity.
  - intros d1 d2 ks_stat p _ _. unfold Standin.ks_2samp.
    repeat destruct (decide _); intros [= <- <-]; reflexivity.
  - reflexivity.
  - reflexivity.
  - reflexivity.
  - reflexivity.
  - discriminate.
  - discriminate.
  - simpl. lia.
  - simpl. lia.
  - vm_compute. reflexivity.
  - vm_compute. reflexivity.
Defined.

(** C2, as stated, fails: both data sets are non-empty and well formed,
    none of their records is labelled 2, and the p-value recorded by the
    label test is NaN, which is not in [0,1]. *)
Lemma p_value_can_be_nan :
  let after := Fixture.detect_label_drift Fixture.binary Fixture.binary
                 (Fixture.fresh default_threshold) in
  after.1 = Ok false ∧
  ∃ r, drift_metrics after.2 !! "label_drift" = Some (MLabel r) ∧
       PrimFloat.is_nan (LabelDrift.p_value r) = true ∧
       in_unit_interval (LabelDrift.p_value r) = false.
Proof. vm_compute. split; [done|]. eexists. split_and!; reflexivity. Qed.

(** * Sizes beyond the tolerance *)

Section LargeSizes.

Implicit Types (k : Z) (col : list Z).

Lemma occurrences_app k col1 col2 :
  occurrences k (col1 ++ col2) = occurrences k col1 + occurrences k col2.
Proof. unfold occurrences. rewrite filter_app, length_app. lia. Qed.

Lemma occurrences_replicate k n x :
  occurrences k (replicate n x) = if decide (x = k) then Z.of_nat n else 0.
Proof.
  unfold occurrences. induction n as [|n IH]; [by case_decide|].
  change (replicate (S n) x) with (x :: replicate n x).
  rewrite filter_cons. revert IH. repeat case_decide; try done; simpl; lia.
Qed.

(** The counts handed to the chi-square routine when every label is in
    the domain. *)
Lemma values_within_domain col :
  Forall (λ k, k ∈ label_domain) col →
  values (label_distribution col)
    = [occurrences 0 col; occurrences 1 col; occurrences 2 col].
Proof.
  intros H. by rewrite label_distribution_values_rows, categories_domain.
Qed.

Lemma crowd_counts n :
  0 ≤ n →
  values (label_distribution (replicate (Z.to_nat n) 0 ++ [1; 2])) = [n; 1; 1].
Proof.
  intros Hn. rewrite values_within_domain.
  - rewrite !occurrences_app, !occurrences_replicate.
    rewrite decide_True, !decide_False by done.
    change (occurrences 0 [1; 2]) with 0. change (occurrences 1 [1; 2]) with 1.
    change (occurrences 2 [1; 2]) with 1. f_equal; lia.
  - apply Forall_app. split; [apply Forall_replicate|repeat constructor]; compute_done.
Qed.

End LargeSizes.

(** C9, as stated, fails: 134217728 records against 134217729. The two
    sums differ by less than 1e-8 of the smaller one, which is within the
    tolerance of the routine's comparison (of either release, see
    [Scipy.rtol]); the label test returns, whatever the special function
    is. *)
Lemma unequal_sizes_accepted :
  let old := Standin.crowd 134217726 in
  let new := Standin.crowd 134217727 in
  (∃ old_col new_col,
     sentiment old = Some old_col ∧ sentiment new = Some new_col ∧
     Z.of_nat (length old_col) = 134217728 ∧
     Z.of_nat (length new_col) = 134217729) ∧
  (∀ chdtrc threshold,
     is_ok (detect_label_drift (Scipy.chisquare chdtrc) old new
              (Fixture.fresh threshold)).1 = true).
Proof.
  intros old new. split.
  - eexists _, _. split_and!; [reflexivity..| |];
      rewrite length_app, length_replicate; simpl length; lia.
  - intros chdtrc threshold. rewrite detect_label_drift_run.
    subst old new. unfold Standin.crowd, Fixture.frame, getitem_sentiment.
    cbv [sentiment]. rewrite !crowd_counts by lia.
    destruct (Scipy.chisquare chdtrc _ _) as [[chi2 p]|e] eqn:E; [reflexivity|].
    vm_compute in E. discriminate E.
Qed.

(** The relative difference of these two sums is below the tolerance of
    either release. *)
Example both_tolerances_accept :
  let relative_diff :=
    (PrimFloat.abs (134217729 - 134217728) / Scipy.minimum 134217729 134217728)%float in
  PrimFloat.ltb Scipy.rtol relative_diff = false ∧
  PrimFloat.ltb 0x1p-26 relative_diff = false ∧
  PrimFloat.ltb Scipy.rtol 0x1p-26 = true.
Proof. by vm_compute. Qed.

(** * What a check keeps and what it forgets *)

Section DetectorFacts.

Variable chisquare : list Z → list Z → result (float * float).
Variable ks_2samp : list Z → list Z → result (float * float).
Variable mean : list Z → float.
Variable read_csv : string → result DataFrame.

Implicit Types (self : DriftDetector) (old new : DataFrame).

(** X6: a detector whose threshold is NaN never reports drift. The
    constructor accepts any float; with a NaN threshold both tests, when
    they return, return [False] whatever their p-values are, and so does
    [check_drift]. *)
Theorem nan_threshold_detects_nothing old_path new_path now self old new lb tb s1 s2 :
  PrimFloat.is_nan (threshold self) = true →
  read_csv old_path = Ok old →
  read_csv new_path = Ok new →
  detect_label_drift chisquare old new self = (Ok lb, s1) →
  detect_text_length_drift ks_2samp mean old new s1 = (Ok tb, s2) →
  lb = false ∧ tb = false ∧
  check_drift chisquare ks_2samp mean read_csv old_path new_path now self
    = (Ok false, checked false now s2).
Proof.
  intros Hnan%is_nan_spec Hold Hnew Hl Ht.
  rewrite check_drift_run, Hold, Hnew, Hl, Ht.
  apply detect_label_drift_ok in Hl as (rl & -> & _ & ->).
  apply detect_text_length_drift_ok in Ht as (rt & _ & _ & ->).
  simpl. rewrite Hnan, !(proj2 (ltb_nan _)). done.
Qed.

(** X7: whatever its outcome, [check_drift] leaves [self.threshold] as it
    was, and writes to no key of the report other than ["label_drift"],
    ["text_length_drift"], ["overall_drift"] and ["timestamp"]: the
    dictionary is never cleared, an entry under any other key stays. *)
Theorem check_drift_frame old_path new_path now self :
  let s' := (check_drift chisquare ks_2samp mean read_csv old_path new_path now self).2 in
  threshold s' = threshold self ∧
  ∀ key, key ∉ ["label_drift"; "text_length_drift"; "overall_drift"; "timestamp"] →
         drift_metrics s' !! key = drift_metrics self !! key.
Proof.
  rewrite check_drift_run.
  destruct (read_csv old_path) as [old|]; [|done].
  destruct (read_csv new_path) as [new|]; [|done].
  destruct (detect_label_drift _ _ _ _) as [[lb|e] s1] eqn:Hl.
  - apply detect_label_drift_ok in Hl as (rl & -> & _).
    destruct (detect_text_length_drift _ _ _ _ _) as [[tb|e] s2] eqn:Ht.
    + apply detect_text_length_drift_ok in Ht as (rt & -> & _).
      simpl. split; [done|]. intros key Hkey.
      rewrite !not_elem_of_cons in Hkey. destruct Hkey as (? & ? & ? & ? & _).
      by rewrite !lookup_insert_ne.
    + apply detect_text_length_drift_raise in Ht as ->.
      simpl. split; [done|]. intros key Hkey.
      rewrite !not_elem_of_cons in Hkey. destruct Hkey as (? & _).
      by rewrite lookup_insert_ne.
  - by apply detect_label_drift_raise in Hl as ->.
Qed.

Lemma report_typed_label r self :
  report_typed self → report_typed (with_metric "label_drift" (MLabel r) self).
Proof.
  intros (Hl & Ht & Ho). unfold report_typed. simpl.
  rewrite lookup_insert_eq, !lookup_insert_ne by done.
  split_and!; [|done..]. intros m [= <-]. by eexists.
Qed.

Lemma report_typed_text r self :
  report_typed self → report_typed (with_metric "text_length_drift" (MText r) self).
Proof.
  intros (Hl & Ht & Ho). unfold report_typed. simpl.
  rewrite lookup_insert_eq, !lookup_insert_ne by done.
  split_and!; [done| |done]. intros m [= <-]. by eexists.
Qed.

Lemma report_typed_checked overall now self :
  report_typed self → report_typed (checked overall now self).
Proof.
  intros (Hl & Ht & Ho). unfold report_typed. simpl.
  rewrite !(lookup_insert_ne _ "timestamp") by done.
  rewrite lookup_insert_eq, !lookup_insert_ne by done. done.
Qed.

(** X8: an invariant of the detector. If the report holds a label entry
    under ["label_drift"] (or nothing), a text entry under
    ["text_length_drift"] (or nothing), and under ["overall_drift"] the
    value of [self.drift_detected] (or nothing, and then the attribute is
    [False]), the same is true after [check_drift], whether it returned
    or raised. The constructor establishes it. *)
Theorem check_drift_keeps_report_typed old_path new_path now self :
  report_typed self →
  report_typed (check_drift chisquare ks_2samp mean read_csv old_path new_path now self).2.
Proof.
  intros Htyped. rewrite check_drift_run.
  destruct (read_csv old_path) as [old|]; [|done].
  destruct (read_csv new_path) as [new|]; [|done].
  destruct (detect_label_drift _ _ _ _) as [[lb|e] s1] eqn:El.
  - apply detect_label_drift_ok in El as (rl & -> & _).
    destruct (detect_text_length_drift _ _ _ _ _) as [[tb|e] s2] eqn:Et.
    + apply detect_text_length_drift_ok in Et as (rt & -> & _).
      by apply report_typed_checked, report_typed_text, report_typed_label.
    + apply detect_text_length_drift_raise in Et as ->.
      by apply report_typed_label.
  - by apply detect_label_drift_raise in El as ->.
Qed.

(** X9: the outcome of a check does not depend on earlier checks. Two
    detectors with the same threshold, whatever their reports and flags,
    return the same on the same sources (the same boolean or the same
    exception); when the check goes through they end with the same
    [drift_detected] and the same four entries. *)
Theorem check_drift_forgets_history old_path new_path now self1 self2 :
  threshold self1 = threshold self2 →
  let r1 := check_drift chisquare ks_2samp mean read_csv old_path new_path now self1 in
  let r2 := check_drift chisquare ks_2samp mean read_csv old_path new_path now self2 in
  r1.1 = r2.1 ∧
  (is_ok r1.1 = true →
   drift_detected r1.2 = drift_detected r2.2 ∧
   ∀ key, key ∈ ["label_drift"; "text_length_drift"; "overall_drift"; "timestamp"] →
          drift_metrics r1.2 !! key = drift_metrics r2.2 !! key).
Proof.
  intros Hthr. cbv zeta. rewrite !check_drift_run.
  destruct (read_csv old_path) as [old|]; [|done].
  destruct (read_csv new_path) as [new|]; [|done].
  rewrite !detect_label_drift_run.
  destruct (getitem_sentiment old) as [old_col|]; [|done].
  destruct (getitem_sentiment new) as [new_col|]; [|done].
  destruct (chisquare _ _) as [[chi2 p]|]; [|done].
  rewrite !detect_text_length_drift_run.
  destruct (getitem_review old) as [old_rev|]; [|done].
  destruct (getitem_review new) as [new_rev|]; [|done].
  destruct (ks_2samp _ _) as [[ks pk]|]; [|done].
  unfold checked, with_metric, label_entry, text_entry. simpl. rewrite Hthr.
  split; [done|]. intros _. split; [done|]. intros key Hkey.
  rewrite !elem_of_cons in Hkey.
  destruct Hkey as [->|[->|[->|[->|Hkey]]]]; [..|by apply elem_of_nil in Hkey].
  all: rewrite !lookup_insert; repeat case_decide; congruence.
Qed.

(** X10: a source without the [sentiment] column. If either data set
    lacks the column, [check_drift] raises [KeyError('sentiment')] and
    leaves the detector as it was, whatever else is wrong with the data:
    the label column is read before the [review] column and before any
    statistical routine is called. *)
Theorem missing_sentiment_column old_path new_path now self old new :
  read_csv old_path = Ok old →
  read_csv new_path = Ok new →
  sentiment old = None ∨ sentiment new = None →
  check_drift chisquare ks_2samp mean read_csv old_path new_path now self
    = (Raise (KeyError "sentiment"), self).
Proof.
  intros Hold Hnew Hmiss.
  rewrite check_drift_run, Hold, Hnew, detect_label_drift_run. unfold getitem_sentiment.
  destruct Hmiss as [->| ->]; [done|]. by destruct (sentiment old).
Qed.

End DetectorFacts.

Lemma nan_threshold_detects_nothing_witness :
  let self := Fixture.fresh nan in
  let s1 := (Fixture.detect_label_drift Fixture.binary Fixture.shifted self).2 in
  let s2 := (Fixture.detect_text_length_drift Fixture.binary Fixture.shifted s1).2 in
  false = false ∧ false = false ∧
  Fixture.check_drift "binary.csv" "shifted.csv" "now" self = (Ok false, checked false "now" s2).
Proof.
  intros self s1 s2.
  apply (nan_threshold_detects_nothing Fixture.chisquare Fixture.ks_2samp Pandas.mean
           Fixture.read_csv "binary.csv" "shifted.csv" "now" self
           Fixture.binary Fixture.shifted false false s1 s2).
  - reflexivity.
  - reflexivity.
  - reflexivity.
  - vm_compute. reflexivity.
  - vm_compute. reflexivity.
Defined.

Lemma check_drift_keeps_report_typed_witness :
  report_typed
    (Fixture.check_drift "balanced.csv" "no_review.csv" "now"
       (Fixture.fresh default_threshold)).2.
Proof.
  apply (check_drift_keeps_report_typed Fixture.chisquare Fixture.ks_2samp Pandas.mean
           Fixture.read_csv "balanced.csv" "no_review.csv" "now"
           (Fixture.fresh default_threshold)).
  unfold report_typed. simpl. rewrite !lookup_empty. by split_and!.
Defined.

Lemma check_drift_forgets_history_witness :
  let self1 := Fixture.fresh default_threshold in
  let self2 := (Fixture.check_drift "binary.csv" "shifted.csv" "earlier" self1).2 in
  let r1 := Fixture.check_drift "balanced.csv" "balanced2.csv" "now" self1 in
  let r2 := Fixture.check_drift "balanced.csv" "balanced2.csv" "now" self2 in
  r1.1 = r2.1 ∧
  (is_ok r1.1 = true →
   drift_detected r1.2 = drift_detected r2.2 ∧
   ∀ key, key ∈ ["label_drift"; "text_length_drift"; "overall_drift"; "timestamp"] →
          drift_metrics r1.2 !! key = drift_metrics r2.2 !! key).
Proof.
  intros self1 self2.
  apply (check_drift_forgets_history Fixture.chisquare Fixture.ks_2samp Pandas.mean
           Fixture.read_csv "balanced.csv" "balanced2.csv" "now" self1 self2).
  vm_compute. reflexivity.
Defined.

Lemma missing_sentiment_column_witness :
  Fixture.check_drift "no_sentiment.csv" "no_review.csv" "now" (Fixture.fresh default_threshold)
  = (Raise (KeyError "sentiment"), Fixture.fresh default_threshold).
Proof.
  apply (missing_sentiment_column Fixture.chisquare Fixture.ks_2samp Pandas.mean
           Fixture.read_csv "no_sentiment.csv" "no_review.csv" "now"
           (Fixture.fresh default_threshold) Fixture.no_sentiment Fixture.no_review).
  - reflexivity.
  - reflexivity.
  - left. reflexivity.
Defined.

(** * Thresholds outside the unit interval *)

Section Thresholds.

Variable chisquare : list Z → list Z → result (float * float).
Variable ks_2samp : list Z → list Z → result (float * float).
Variable mean : list Z → float.
Variable read_csv : string → result DataFrame.

Implicit Types (self : DriftDetector) (old new : DataFrame) (p t : float).

(** A value of [0,1] is not below a threshold that is not above 0. *)
Lemma ltb_nonpositive p t :
  PrimFloat.leb 0 p = true → PrimFloat.leb t 0 = true → PrimFloat.ltb p t = false.
Proof.
  rewrite !FloatAxioms.leb_spec, FloatAxioms.ltb_spec.
  change (Prim2SF 0) with (S754_zero false).
  destruct (Prim2SF p) as [sp|sp| |sp mp ep], (Prim2SF t) as [st|st| |st mt et];
    unfold SFleb, SFltb; simpl; try done;
    try destruct sp; try destruct st; done.
Qed.

(** A value up to 1 is below a threshold above 1. *)
Lemma ltb_above_one p t :
  PrimFloat.leb p 1 = true → PrimFloat.ltb 1 t = true → PrimFloat.ltb p t = true.
Proof.
  rewrite !FloatAxioms.leb_spec, !FloatAxioms.ltb_spec.
  change (Prim2SF 1) with (S754_finite false 4503599627370496 (-52)).
  generalize 4503599627370496%positive as m1. generalize (-52) as e1. intros e1 m1.
  destruct (Prim2SF p) as [sp|sp| |sp mp ep], (Prim2SF t) as [st|st| |st mt et];
    unfold SFleb, SFltb; cbn [SFcompare];
    try destruct sp; try destruct st; try done.
  change (PosDef.Pos.compare_cont Eq) with Pos.compare.
  destruct (Z.compare_spec ep e1), (Z.compare_spec e1 et), (Z.compare_spec ep et);
    try done; try lia.
  destruct (Pos.compare_spec mp m1), (Pos.compare_spec m1 mt), (Pos.compare_spec mp mt);
    try done; lia.
Qed.

Lemma unit_or_nan_not_below p t :
  unit_or_nan p = true → PrimFloat.leb t 0 = true → PrimFloat.ltb p t = false.
Proof.
  unfold unit_or_nan, in_unit_interval.
  intros [Hnan|[H0 _]%andb_true_iff]%orb_true_iff Ht.
  - apply is_nan_spec in Hnan as ->. apply ltb_nan.
  - by apply ltb_nonpositive.
Qed.

(** X11: a detector whose threshold is 0 or negative never reports drift.
    When the two routines return p-values that are probabilities (or NaN),
    both tests answer [False] and so does [check_drift], however small the
    p-values are: the comparison of lines 44 and 67 is strict. *)
Theorem nonpositive_threshold_detects_nothing
    old_path new_path now self old new old_col new_col old_rev new_rev chi2 p1 ks p2 :
  PrimFloat.leb (threshold self) 0 = true →
  read_csv old_path = Ok old →
  read_csv new_path = Ok new →
  sentiment old = Some old_col → sentiment new = Some new_col →
  review old = Some old_rev → review new = Some new_rev →
  chisquare (values (label_distribution new_col)) (values (label_distribution old_col))
    = Ok (chi2, p1) →
  ks_2samp (str_len old_rev) (str_len new_rev) = Ok (ks, p2) →
  unit_or_nan p1 = true → unit_or_nan p2 = true →
  check_drift chisquare ks_2samp mean read_csv old_path new_path now self
    = (Ok false,
       checked false now
         (with_metric "text_length_drift"
            (MText (text_entry mean old_rev new_rev ks p2 self))
            (with_metric "label_drift"
               (MLabel (label_entry old_col new_col chi2 p1 self)) self))).
Proof.
  intros Hthr Hold Hnew Hoc Hnc Hor Hnr Hchi Hks Hp1 Hp2.
  rewrite check_drift_run, Hold, Hnew, detect_label_drift_run.
  unfold getitem_sentiment. rewrite Hoc, Hnc, Hchi.
  rewrite detect_text_length_drift_run. unfold getitem_review. rewrite Hor, Hnr, Hks.
  change (threshold (with_metric "label_drift" _ self)) with (threshold self).
  rewrite !unit_or_nan_not_below by done. reflexivity.
Qed.

(** X12: a detector whose threshold is above 1 reports drift on every
    pair of data sets for which the chi-square routine returns a p-value
    up to 1 and the text test returns, on identical data sets too. *)
Theorem threshold_above_one_detects_always
    old_path new_path now self old new old_col new_col chi2 p tb s2 :
  PrimFloat.ltb 1 (threshold self) = true →
  read_csv old_path = Ok old →
  read_csv new_path = Ok new →
  sentiment old = Some old_col → sentiment new = Some new_col →
  chisquare (values (label_distribution new_col)) (values (label_distribution old_col))
    = Ok (chi2, p) →
  PrimFloat.leb p 1 = true →
  detect_text_length_drift ks_2samp mean old new
    (with_metric "label_drift" (MLabel (label_entry old_col new_col chi2 p self)) self)
    = (Ok tb, s2) →
  check_drift chisquare ks_2samp mean read_csv old_path new_path now self
    = (Ok true, checked true now s2).
Proof.
  intros Hthr Hold Hnew Hoc Hnc Hchi Hp Ht.
  rewrite check_drift_run, Hold, Hnew, detect_label_drift_run.
  unfold getitem_sentiment. rewrite Hoc, Hnc, Hchi, Ht.
  by rewrite (ltb_above_one p _ Hp Hthr).
Qed.

End Thresholds.

Lemma nonpositive_threshold_detects_nothing_witness :
  let self := Fixture.fresh 0 in
  Fixture.check_drift "binary.csv" "shifted.csv" "now" self
  = (Ok false,
     checked false "now"
       (with_metric "text_length_drift"
          (MText (text_entry Pandas.mean ["bad"; "poor"; "okay"; "fine"]
                    ["bad"; "poor"; "okay"; "fine"] 0 1 self))
          (with_metric "label_drift"
             (MLabel (label_entry [0; 0; 1; 1] [0; 0; 1; 2] infinity 0 self)) self))).
Proof.
  intros self.
  apply (nonpositive_threshold_detects_nothing Fixture.chisquare Fixture.ks_2samp
           Pandas.mean Fixture.read_csv "binary.csv" "shifted.csv" "now" self
           Fixture.binary Fixture.shifted [0; 0; 1; 1] [0; 0; 1; 2]
           ["bad"; "poor"; "okay"; "fine"] ["bad"; "poor"; "okay"; "fine"]
           infinity 0 0 1); reflexivity.
Defined.

Lemma threshold_above_one_detects_always_witness :
  let self := Fixture.fresh 2 in
  let s1 := with_metric "label_drift"
              (MLabel (label_entry [0; 1; 2; 1] [1; 2; 1; 0] 0 1 self)) self in
  let s2 := (Fixture.detect_text_length_drift Fixture.balanced Fixture.balanced' s1).2 in
  Fixture.check_drift "balanced.csv" "balanced2.csv" "now" self
  = (Ok true, checked true "now" s2).
Proof.
  intros self s1 s2.
  apply (threshold_above_one_detects_always Fixture.chisquare Fixture.ks_2samp
           Pandas.mean Fixture.read_csv "balanced.csv" "balanced2.csv" "now" self
           Fixture.balanced Fixture.balanced' [0; 1; 2; 1] [1; 2; 1; 0] 0 1 true s2);
    reflexivity.
Defined.

(** * Saving the report *)

Section Paths.

Import Posixpath.

Lemma up_to_last_sep_bare p : bare p = true → up_to_last_sep p = EmptyString.
Proof.
  induction p as [|c p IH]; [done|]. simpl.
  intros [Hc Hp]%andb_true_iff. rewrite (IH Hp).
  by apply negb_true_iff in Hc as ->.
Qed.

Lemma up_to_last_sep_not_bare p : bare p = false → up_to_last_sep p ≠ EmptyString.
Proof.
  induction p as [|c p IH]; [done|]. simpl. intros H.
  destruct (up_to_last_sep p) eqn:E; [|done].
  destruct (Ascii.eqb c sep); [done|]. simpl in H. by destruct (IH H).
Qed.

Lemma rstrip_sep_empty head : rstrip_sep head = EmptyString → all_sep head = true.
Proof.
  induction head as [|c head IH]; [done|]. simpl.
  destruct (rstrip_sep head); [|done].
  destruct (Ascii.eqb c sep); [|done]. intros _. by apply IH.
Qed.

(** The directory name is empty exactly for a path without separator. *)
Lemma dirname_empty p : dirname p = EmptyString ↔ bare p = true.
Proof.
  unfold dirname. split.
  - intros H. destruct (bare p) eqn:Hb; [done|].
    pose proof (up_to_last_sep_not_bare p Hb) as Hne.
    destruct (up_to_last_sep p) as [|c head] eqn:E; [done|].
    change (String.eqb (String c head) EmptyString) with false in H.
    destruct (all_sep (String c head)) eqn:Hall; cbn [negb andb] in H; [done|].
    apply rstrip_sep_empty in H. congruence.
  - intros Hb. by rewrite (up_to_last_sep_bare p Hb).
Qed.

End Paths.

Section ReportFacts.

Variable fs : Type.
Variable makedirs : string → fs → result unit * fs.
Variable write_text : string → string → fs → result unit * fs.
Variable json_dumps : gmap string metric → string.
Variable format_4f : float → string.

Implicit Types (self : DriftDetector) (files : fs) (out : list string).

(** X13: [save_report] cannot write next to the working directory. For an
    [output_path] without a ['/'] the directory name is empty and line 97
    passes the empty string to [os.makedirs]; when that call raises, as it
    does on a POSIX system, [save_report] raises the same exception before
    it has opened the file or printed a line. ([download_file] of the
    storage helper guards the same call, see X18.) *)
Theorem save_report_bare_file_name output_path self files files' out e :
  Posixpath.bare output_path = true →
  makedirs EmptyString files = (Raise e, files') →
  save_report fs makedirs write_text json_dumps format_4f output_path self (files, out)
    = (Throw (Exception e), (files', out)).
Proof.
  intros Hbare%dirname_empty Hmk.
  unfold save_report, mbind, Action_bind, os_call. simpl. by rewrite Hbare, Hmk.
Qed.

(** X14: on a report that satisfies the invariant of X8, [save_report]
    fails only if the file system does. When the directory can be made
    and the file written, it returns, the file holds the serialised
    report, and it has printed the two head lines followed by the three
    summary lines of each test whose entry is present: after a check that
    raised in the text test, the label summary alone; before any check,
    neither. No subscript of lines 105-113 can fail. *)
Theorem save_report_typed output_path self files files1 files2 out :
  report_typed self →
  makedirs (Posixpath.dirname output_path) files = (Ok tt, files1) →
  write_text output_path (json_dumps (drift_metrics self)) files1 = (Ok tt, files2) →
  save_report fs makedirs write_text json_dumps format_4f output_path self (files, out)
    = (Return tt,
       (files2,
        out ++ ["Drift report saved to " +:+ output_path;
                "Drift detected: " +:+ str_bool (drift_detected self)]
            ++ label_summary format_4f self ++ text_summary format_4f self)).
Proof.
  intros (Hl & Ht & _) Hmk Hwr.
  unfold save_report, label_summary, text_summary, mbind, Action_bind, os_call, print, pure.
  simpl. rewrite Hmk. simpl. rewrite Hwr. simpl.
  destruct (drift_metrics self !! "label_drift") as [ml|] eqn:El;
    destruct (drift_metrics self !! "text_length_drift") as [mt|] eqn:Et.
  - destruct (Hl ml eq_refl) as [rl ->], (Ht mt eq_refl) as [rt ->]. simpl.
    by rewrite <- !app_assoc.
  - destruct (Hl ml eq_refl) as [rl ->]. simpl. by rewrite <- !app_assoc.
  - destruct (Ht mt eq_refl) as [rt ->]. simpl. by rewrite <- !app_assoc.
  - simpl. by rewrite <- !app_assoc.
Qed.

End ReportFacts.

Lemma save_report_bare_file_name_witness :
  Standin.save_report "drift_report.json" (Fixture.fresh default_threshold) (∅, [])
  = (Throw (Exception (OSError EmptyString)), (∅, [])).
Proof.
  apply (save_report_bare_file_name Standin.disk Standin.makedirs Standin.write_text
           Standin.json_dumps Standin.format_4f "drift_report.json"
           (Fixture.fresh default_threshold) ∅ ∅ [] (OSError EmptyString)).
  - reflexivity.
  - reflexivity.
Defined.

Lemma save_report_typed_witness :
  let self := (Fixture.check_drift "balanced.csv" "no_review.csv" "now"
                 (Fixture.fresh default_threshold)).2 in
  Standin.save_report "metrics/drift_report.json" self (∅, [])
  = (Return tt,
     (<["metrics/drift_report.json" := "{...}"]> ∅,
      ["Drift report saved to metrics/drift_report.json";
       "Drift detected: False";
       newline +:+ "Label Drift:";
       "  P-value: 0.0000";
       "  Detected: False"])).
Proof.
  intros self.
  apply (save_report_typed Standin.disk Standin.makedirs Standin.write_text
           Standin.json_dumps Standin.format_4f "metrics/drift_report.json" self
           ∅ ∅ (<["metrics/drift_report.json" := "{...}"]> ∅) []).
  - split_and!.
    + intros m Hm. vm_compute in Hm. injection Hm as <-. by eexists.
    + intros m Hm. vm_compute in Hm. discriminate Hm.
    + vm_compute. reflexivity.
  - reflexivity.
  - vm_compute. reflexivity.
Defined.

(** * The data generator *)

Section TemplateFacts.

Lemma rev_app_append (a b acc : string) :
  String.rev_app (a +:+ b) acc = String.rev_app b (String.rev_app a acc).
Proof. revert acc. induction a as [|c a IH]; intros acc; [done|]. simpl. apply IH. Qed.

(** The last two characters of a review name its template. *)
Lemma positive_review_ending words :
  ∃ rest, String.rev (positive_review words) = String "!"%char (String "d"%char rest).
Proof.
  unfold String.rev, positive_review. rewrite !rev_app_append. simpl. eauto.
Qed.

Lemma negative_review_ending words :
  ∃ rest, String.rev (negative_review words) = String "!"%char (String "y"%char rest).
Proof.
  unfold String.rev, negative_review. rewrite !rev_app_append. simpl. eauto.
Qed.

Lemma neutral_review_ending words :
  ∃ rest, String.rev (neutral_review words) = String "."%char (String "e"%char rest).
Proof.
  unfold String.rev, neutral_review. rewrite !rev_app_append. simpl. eauto.
Qed.

Lemma template_ending sentiment words :
  ∃ rest, String.rev (template sentiment words) =
    if decide (sentiment = 2) then String "!"%char (String "d"%char rest)
    else if decide (sentiment = 0) then String "!"%char (String "y"%char rest)
    else String "."%char (String "e"%char rest).
Proof.
  unfold template. repeat case_decide.
  - apply positive_review_ending.
  - apply negative_review_ending.
  - apply neutral_review_ending.
Qed.

(** X15: the text of a generated review determines its label. Reviews
    built for two different labels of the domain are different strings,
    whatever words were drawn: the three templates end differently. *)
Theorem reviews_of_different_labels_differ sentiment1 sentiment2 words1 words2 :
  sentiment1 ∈ label_domain → sentiment2 ∈ label_domain →
  sentiment1 ≠ sentiment2 →
  template sentiment1 words1 ≠ template sentiment2 words2.
Proof.
  intros H1 H2 Hne E.
  destruct (template_ending sentiment1 words1) as [r1 R1].
  destruct (template_ending sentiment2 words2) as [r2 R2].
  rewrite <- E, R1 in R2.
  unfold label_domain in H1, H2. rewrite !elem_of_cons, elem_of_nil in H1, H2.
  repeat case_decide; try discriminate R2; lia.
Qed.

End TemplateFacts.

Section GeneratorFacts.

Variable chdtrc : Z → float → float.
Variable rng : Type.
Variable seed : Z → rng.
Variable choice : list Z → list float → rng → Z * rng.
Variable randint : Z → Z → rng → Z * rng.
Variable choices : list string → Z → rng → list string * rng.

Hypothesis Hdraws : draws_in_range rng choice randint choices.

Lemma drawn_words a g :
  a ≠ [] →
  let '(size, g1) := randint 5 15 g in
  let words := (choices a size g1).1 in
  (5 ≤ length words < 15)%nat ∧ Forall (λ w, w ∈ a) words.
Proof.
  intros Ha. destruct Hdraws as (_ & Hint & Hwords).
  specialize (Hint 5 15 g ltac:(lia)).
  destruct (randint 5 15 g) as [size g1]. simpl in Hint. cbv zeta.
  destruct (Hwords a size g1 Ha ltac:(lia)) as [Hlen Hall].
  split; [lia|done].
Qed.

Lemma sample_row drift g :
  generated_row (sample rng choice randint choices drift g).1.1
                (sample rng choice randint choices drift g).1.2.
Proof.
  unfold sample.
  assert ([0; 1; 2] ≠ @nil Z) as Hne by done.
  pose proof (proj1 Hdraws [0; 1; 2]) as Hlabel.
  pose proof (Hlabel baseline_p g Hne) as H1.
  destruct (choice [0; 1; 2] baseline_p g) as [s1 g1]. simpl in H1.
  assert (∃ s g2, (if drift then choice [0; 1; 2] drifted_p g1 else (s1, g1)) = (s, g2)
                  ∧ s ∈ label_domain) as (s & g2 & -> & Hs).
  { destruct drift.
    - pose proof (Hlabel drifted_p g1 Hne) as H2.
      destruct (choice [0; 1; 2] drifted_p g1) as [s2 g2]. by exists s2, g2.
    - by exists s1, g1. }
  unfold generated_row.
  destruct (decide (s = 2)) as [->|Hne2]; [|destruct (decide (s = 0)) as [->|Hne0]].
  - pose proof (drawn_words positive_words g2 ltac:(discriminate)) as Hw.
    destruct (randint 5 15 g2) as [size g3].
    destruct (choices positive_words size g3) as [words g4]. simpl in *.
    split; [done|]. exists words. by destruct Hw.
  - pose proof (drawn_words negative_words g2 ltac:(discriminate)) as Hw.
    destruct (randint 5 15 g2) as [size g3].
    destruct (choices negative_words size g3) as [words g4]. simpl in *.
    split; [done|]. exists words. by destruct Hw.
  - pose proof (drawn_words neutral_words g2 ltac:(discriminate)) as Hw.
    destruct (randint 5 15 g2) as [size g3].
    destruct (choices neutral_words size g3) as [words g4]. simpl in *.
    split; [done|]. exists words. unfold vocabulary, template.
    rewrite !decide_False by done. by destruct Hw.
Qed.

Lemma samples_rows n drift reviews sentiments g :
  Forall2 generated_row reviews sentiments →
  let r := samples rng choice randint choices n drift reviews sentiments g in
  Forall2 generated_row r.1.1 r.1.2 ∧ length r.1.1 = (length reviews + n)%nat.
Proof.
  revert reviews sentiments g. induction n as [|n IH]; intros reviews sentiments g Hrows.
  - simpl. split; [done|lia].
  - simpl. pose proof (sample_row drift g) as Hrow.
    destruct (sample rng choice randint choices drift g) as [[review s] g1]. simpl in Hrow.
    destruct (IH (reviews ++ [review]) (sentiments ++ [s]) g1) as [H1 H2].
    { apply Forall2_app; [done|]. by constructor. }
    split; [done|]. rewrite H2, length_app. simpl. lia.
Qed.

Lemma generated_labels n_samples drift :
  ∃ sentiments,
    sentiment (generate_sentiment_data rng seed choice randint choices n_samples drift).1
      = Some sentiments ∧
    length sentiments = Z.to_nat n_samples ∧
    Forall (λ k, k ∈ label_domain) sentiments.
Proof.
  unfold generate_sentiment_data.
  pose proof (samples_rows (Z.to_nat n_samples) drift [] []
                (seed (if negb drift then 42 else 123)) ltac:(constructor)) as [H1 H2].
  destruct (samples _ _ _ _ _ _ _ _ _) as [[reviews sentiments] g]. simpl in *.
  exists sentiments. split; [done|]. split.
  - by rewrite <- (Forall2_length _ _ _ H1).
  - clear H2. induction H1 as [|r s rs ss [Hs _] _ IH]; by constructor.
Qed.

(** X16: what [generate_sentiment_data] returns, whatever the generator
    draws (as long as a draw comes from its population, [randint] stays
    within its bounds and [size] words are drawn): a frame of exactly
    [n_samples] rows (none for a negative [n_samples]) in which every
    label is 0, 1 or 2 and every review is the template of its label
    around 5 to 14 words of the label's vocabulary. With [drift=True] the
    same holds: only the probabilities of the labels change. *)
Theorem generated_frame n_samples drift :
  ∃ reviews sentiments,
    (generate_sentiment_data rng seed choice randint choices n_samples drift).1
      = {| sentiment := Some sentiments; review := Some reviews |} ∧
    length reviews = Z.to_nat n_samples ∧
    Forall2 generated_row reviews sentiments.
Proof.
  unfold generate_sentiment_data.
  pose proof (samples_rows (Z.to_nat n_samples) drift [] []
                (seed (if negb drift then 42 else 123)) ltac:(constructor)) as [H1 H2].
  destruct (samples _ _ _ _ _ _ _ _ _) as [[reviews sentiments] g]. simpl in *.
  by exists reviews, sentiments.
Qed.

(** X17: the generator and the label test fit together. On two frames
    generated with the same [n_samples] (below 2^53), with or without
    drift, the label test with scipy's chi-square routine returns a
    verdict: both frames have the three categories of the domain and the
    same number of records, so neither numpy's shape check nor the
    comparison of the sums rejects them. This is how the module's own
    driver (lines 126-139) uses the two. *)
Theorem label_test_on_generated_data n_samples drift_old drift_new self :
  n_samples < 2 ^ 53 →
  let old := (generate_sentiment_data rng seed choice randint choices n_samples drift_old).1 in
  let new := (generate_sentiment_data rng seed choice randint choices n_samples drift_new).1 in
  is_ok (detect_label_drift (Scipy.chisquare chdtrc) old new self).1 = true.
Proof.
  intros Hn old new.
  destruct (generated_labels n_samples drift_old) as (so & Ho & Hlo & Hdo).
  destruct (generated_labels n_samples drift_new) as (sn & Hnw & Hln & Hdn).
  subst old new. rewrite detect_label_drift_run. unfold getitem_sentiment.
  rewrite Ho, Hnw.
  rewrite chisquare_on_distributions; [done| | |].
  - by rewrite !categories_domain.
  - lia.
  - lia.
Qed.

End GeneratorFacts.

Lemma standin_draws_in_range :
  draws_in_range Standin.rng Standin.choice Standin.randint Standin.choices.
Proof.
  split_and!.
  - intros a p g Ha. unfold Standin.choice. simpl.
    apply list_elem_of_In, nth_In.
    assert (0 < Z.of_nat (length a)) by (destruct a; [done|simpl; lia]).
    pose proof (Z.mod_pos_bound g (Z.of_nat (length a))). lia.
  - intros low high g Hlt. unfold Standin.randint. simpl.
    pose proof (Z.mod_pos_bound g (high - low)). lia.
  - intros a size g Ha Hsize. unfold Standin.choices. simpl. split.
    + rewrite length_fmap, length_seqZ. done.
    + apply Forall_fmap, Forall_forall. intros i _. simpl.
      apply list_elem_of_In, nth_In.
      assert (0 < Z.of_nat (length a)) by (destruct a; [done|simpl; lia]).
      pose proof (Z.mod_pos_bound (g + i) (Z.of_nat (length a))). lia.
Qed.

Lemma generated_frame_witness :
  ∃ reviews sentiments,
    (Standin.generate_sentiment_data 3 true).1
      = {| sentiment := Some sentiments; review := Some reviews |} ∧
    length reviews = Z.to_nat 3 ∧
    Forall2 generated_row reviews sentiments.
Proof.
  apply (generated_frame Standin.rng Standin.seed Standin.choice Standin.randint
           Standin.choices standin_draws_in_range 3 true).
Defined.

Lemma reviews_of_different_labels_differ_witness :
  template 2 ["great"; "best"; "love"; "great"; "best"]
  ≠ template 0 ["great"; "best"; "love"; "great"; "best"].
Proof.
  apply (reviews_of_different_labels_differ 2 0).
  - compute_done.
  - compute_done.
  - lia.
Defined.

Lemma label_test_on_generated_data_witness :
  let old := (Standin.generate_sentiment_data 4 false).1 in
  let new := (Standin.generate_sentiment_data 4 true).1 in
  is_ok (Fixture.detect_label_drift old new (Fixture.fresh default_threshold)).1 = true.
Proof.
  apply (label_test_on_generated_data Fixture.chdtrc Standin.rng Standin.seed Standin.choice
           Standin.randint Standin.choices standin_draws_in_range 4 false true
           (Fixture.fresh default_threshold)).
  lia.
Defined.

(** * The storage helper *)

Section StorageFacts.

Variable world : Type.
Variable makedirs : string → world → result unit * world.
Variable blob_exists : string → string → world → result bool * world.
Variable download_to_filename : string → string → string → world → result unit * world.

(** X18: [download_file] for an object that is not in the bucket, to a
    local path without a ['/']. It returns [False] after one line on the
    console; the only call it makes is the existence check: the directory
    is not made (the guard of line 49 skips [os.makedirs] for an empty
    directory name) and nothing is downloaded. *)
Theorem download_file_bare_name_missing gcs_path local_path self w w' out :
  Posixpath.bare local_path = true →
  blob_exists (bucket_name self) gcs_path w = (Ok false, w') →
  download_file world makedirs blob_exists download_to_filename gcs_path local_path self (w, out)
    = (Return false, (w', out ++ ["File not found: " +:+ gs_url self gcs_path])).
Proof.
  intros Hbare%dirname_empty Hex.
  unfold download_file. rewrite Hbare.
  unfold mbind, Action_bind, os_call, print. simpl. by rewrite Hex.
Qed.

End StorageFacts.

Lemma download_file_bare_name_missing_witness :
  Standin.download_file "reports/latest.json" "latest.json"
      {| bucket_name := "drift-bucket" |} (∅, [])
  = (Return false, (∅, ["File not found: gs://drift-bucket/reports/latest.json"])).
Proof.
  apply (download_file_bare_name_missing Standin.bucket Standin.makedirs_nowhere
           Standin.blob_exists Standin.download_to_filename
           "reports/latest.json" "latest.json" {| bucket_name := "drift-bucket" |} ∅ ∅ []).
  - reflexivity.
  - reflexivity.
Defined.
